(** * tunablex: registration and call-time resolution of tunable parameters

    A shallow embedding of [src/tunablex/parameters.py] and
    [src/tunablex/decorators.py], followed by the properties of the
    namespace hierarchy resolver, of field collection, of parameter
    selection, of namespace inference and of the wrapper's call-time merge.

    Modelling conventions
    - Python strings are [string] (ASCII); [str.lower] and [str.title] act on
      the ASCII letters.
    - A Python [dict] with string keys is an insertion-ordered association
      list with unique keys ([Py.dict_set] overwrites in place, else appends).
    - Every object except [None] carries its identity; [is] compares
      identities.  An object has the attributes of the instance itself and
      those of its class (methods, class variables); the latter depend on
      the Python and pydantic versions and on the program's classes and are
      a parameter of the development ([Py.Runtime]).  Metaclass attributes
      of classes are left out.
    - Classes live in a class table that class definition and
      [_register_parameter_class] update (explicit state passing).
    - A call [fn( *args, **a, **b)] that the wrapper makes either raises,
      because a keyword that the wrapper adds is refused, or is made with
      its positional and keyword arguments; whether the caller's own
      arguments fit the signature is decided by that call, as for the
      undecorated function. *)

From Stdlib Require Import String Ascii List Bool Arith Lia.

#[local] Set Warnings "-register-all".
Import ListNotations.
Local Open Scope string_scope.
Local Open Scope list_scope.

(* ===================================================================== *)
(** ** Python runtime: strings, dicts, objects *)
(* ===================================================================== *)

Module Py.

(** *** Strings *)

Definition is_upper (c : ascii) : bool :=
  let n := nat_of_ascii c in (Nat.leb 65 n && Nat.leb n 90)%bool.

Definition is_lower (c : ascii) : bool :=
  let n := nat_of_ascii c in (Nat.leb 97 n && Nat.leb n 122)%bool.

Definition lower_ascii (c : ascii) : ascii :=
  if is_upper c then ascii_of_nat (nat_of_ascii c + 32) else c.

Definition upper_ascii (c : ascii) : ascii :=
  if is_lower c then ascii_of_nat (nat_of_ascii c - 32) else c.

(** [s.lower()] *)
Fixpoint lower (s : string) : string :=
  match s with
  | EmptyString => EmptyString
  | String c r => String (lower_ascii c) (lower r)
  end.

(** [s.title()]: the first letter of every run of letters in upper case,
    the other letters of the run in lower case. *)
Fixpoint title_from (in_word : bool) (s : string) : string :=
  match s with
  | EmptyString => EmptyString
  | String c r =>
      if is_upper c || is_lower c
      then String (if in_word then lower_ascii c else upper_ascii c) (title_from true r)
      else String c (title_from false r)
  end.

Definition title (s : string) : string := title_from false s.

(** [s.replace(c, '')] for a one-character [c] *)
Fixpoint remove_char (c : ascii) (s : string) : string :=
  match s with
  | EmptyString => EmptyString
  | String d r => if Ascii.eqb c d then remove_char c r else String d (remove_char c r)
  end.

(** [s.startswith("_")] *)
Definition startswith_underscore (s : string) : bool :=
  match s with
  | String c _ => Ascii.eqb c "_"%char
  | EmptyString => false
  end.

(** [s.split(".")]: never the empty list; the empty string splits into the
    one segment [""]. *)
Fixpoint split_dot (s : string) : list string :=
  match s with
  | EmptyString => [EmptyString]
  | String c r =>
      if Ascii.eqb c "."%char then EmptyString :: split_dot r
      else match split_dot r with
           | seg :: segs => String c seg :: segs
           | [] => [String c EmptyString]
           end
  end.

(** [".".join(parts)] *)
Definition join_dot (parts : list string) : string := String.concat "." parts.

(** [x in xs] for strings *)
Definition mem (x : string) (xs : list string) : bool :=
  existsb (String.eqb x) xs.

(** *** Dicts: insertion-ordered, unique string keys *)

Definition dict (V : Type) : Type := list (string * V).

Fixpoint dict_get {V} (d : dict V) (k : string) : option V :=
  match d with
  | [] => None
  | (k', v) :: r => if String.eqb k k' then Some v else dict_get r k
  end.

(** [d[k] = v]: an existing key keeps its position. *)
Fixpoint dict_set {V} (d : dict V) (k : string) (v : V) : dict V :=
  match d with
  | [] => [(k, v)]
  | (k', v') :: r =>
      if String.eqb k k' then (k', v) :: r else (k', v') :: dict_set r k v
  end.

Definition dict_keys {V} (d : dict V) : list string := map fst d.
Definition dict_values {V} (d : dict V) : list V := map snd d.
Definition dict_mem {V} (d : dict V) (k : string) : bool := mem k (dict_keys d).

(** [bool(d)] *)
Definition dict_nonempty {V} (d : dict V) : bool :=
  match d with [] => false | _ => true end.

(** *** Objects *)

Definition oid := nat.

Inductive Obj : Type :=
| PyNone
| PyDict (id : oid) (items : list (string * Obj))
    (** a [dict] instance *)
| PyModel (id : oid) (fields : list (string * Obj))
    (** a pydantic [BaseModel] instance; its fields are its attributes *)
| PyObject (id : oid) (attrs : list (string * Obj)).
    (** any other object with its attributes: an [int] has none, a pydantic
        [FieldInfo] has [default], a bound method or builtin has [__self__] *)

(** [a is b] *)
Definition is_same (a b : Obj) : bool :=
  match a, b with
  | PyNone, PyNone => true
  | PyNone, _ | _, PyNone => false
  | (PyDict i _ | PyModel i _ | PyObject i _),
    (PyDict j _ | PyModel j _ | PyObject j _) => Nat.eqb i j
  end.

Definition is_none (a : Obj) : bool :=
  match a with PyNone => true | _ => false end.

(** The attributes that an object owes to its class, by name: methods (as
    the bound method objects that attribute access returns) and class
    variables.  They depend on the Python and pydantic versions and on the
    classes of the program, so they are a parameter. *)
Class Runtime : Type := {
  class_attributes : Obj -> dict Obj
}.

(** [getattr(o, name)], [None] (the option) standing for AttributeError:
    an attribute of the instance itself first, then one of its class.  The
    code asks [None] for [__self__] alone, which it has not, and tests
    [obj is None] before any other lookup. *)
Definition getattr `{Runtime} (o : Obj) (name : string) : option Obj :=
  match o with
  | PyModel _ fields =>
      match dict_get fields name with
      | Some v => Some v
      | None => dict_get (class_attributes o) name
      end
  | PyObject _ attrs =>
      match dict_get attrs name with
      | Some v => Some v
      | None => dict_get (class_attributes o) name
      end
  | PyDict _ _ => dict_get (class_attributes o) name
  | PyNone => None
  end.

(** [hasattr(o, name)] *)
Definition hasattr `{Runtime} (o : Obj) (name : string) : bool :=
  match getattr o name with Some _ => true | None => false end.

(** [isinstance(o, dict)] *)
Definition is_dict (o : Obj) : bool :=
  match o with PyDict _ _ => true | _ => false end.

(** pydantic's [model_dump] on values: nested models become dicts. *)
Fixpoint dump_value (o : Obj) : Obj :=
  match o with
  | PyModel i fields => PyDict i (map (fun kv => (fst kv, dump_value (snd kv))) fields)
  | PyDict i items => PyDict i (map (fun kv => (fst kv, dump_value (snd kv))) items)
  | PyNone => PyNone
  | PyObject i attrs => PyObject i attrs
  end.

(** Exceptions that the modelled code can raise. *)
Inductive Exn : Type := TypeError | AttributeError.

Inductive Result (A : Type) : Type :=
| Ok (a : A)
| Raise (e : Exn).
Arguments Ok {A} a.
Arguments Raise {A} e.

Definition bind {A B} (r : Result A) (k : A -> Result B) : Result B :=
  match r with
  | Ok a => k a
  | Raise e => Raise e
  end.

(** [o.model_dump()]: models have the method; dicts never reach this call,
    and any other object is taken to have no such method. *)
Definition model_dump (o : Obj) : Result (dict Obj) :=
  match o with
  | PyModel _ fields => Ok (map (fun kv => (fst kv, dump_value (snd kv))) fields)
  | _ => Raise AttributeError
  end.

(** [o if isinstance(o, dict) else o.model_dump()] *)
Definition as_data (o : Obj) : Result (dict Obj) :=
  match o with
  | PyDict _ items => Ok items
  | _ => model_dump o
  end.

(** Reserved singletons: [inspect._empty], [...] and [typing.Any]. *)
Definition inspect_empty : Obj := PyObject 0 [].
Definition py_ellipsis : Obj := PyObject 1 [].
Definition typing_Any : Obj := PyObject 2 [].

End Py.

Notation "x <- r ;; k" := (Py.bind r (fun x => k))
  (at level 61, r at next level, right associativity).

(* ===================================================================== *)
(** ** parameters.py *)
(* ===================================================================== *)

Module Parameters.
Import Py.

(** A reference to a class: [object], the root marker [TunableParameters],
    or the [n]-th class of the class table. *)
Inductive ClassRef : Type :=
| CObject
| CTunableParameters
| CUser (n : nat).

Definition class_eqb (a b : ClassRef) : bool :=
  match a, b with
  | CObject, CObject => true
  | CTunableParameters, CTunableParameters => true
  | CUser n, CUser m => Nat.eqb n m
  | _, _ => false
  end.

Record PyClass : Type := mkClass {
  cls_name : string;                 (** [__name__] *)
  cls_mro : list ClassRef;           (** [__mro__], the class itself first *)
  cls_annotations : list string;     (** the keys of its own [__annotations__] *)
  cls_dict : dict Obj;               (** its own attributes *)
  cls_tunablex_namespace : option string;   (** [_tunablex_namespace] *)
  cls_tunablex_fields : option (dict Obj)   (** [_tunablex_fields] *)
}.

Definition ClassTable := list PyClass.

(** [object] and [TunableParameters] define only attributes whose names
    start with an underscore, which no lookup below asks for. *)
Definition object_class : PyClass :=
  mkClass "object" [CObject] [] [] None None.

Definition tunable_parameters_class : PyClass :=
  mkClass "TunableParameters" [CTunableParameters; CObject] [] [] None None.

Definition lookup_class (tbl : ClassTable) (c : ClassRef) : option PyClass :=
  match c with
  | CObject => Some object_class
  | CTunableParameters => Some tunable_parameters_class
  | CUser n => nth_error tbl n
  end.

Definition mro_of (tbl : ClassTable) (c : ClassRef) : list ClassRef :=
  match lookup_class tbl c with
  | Some k => cls_mro k
  | None => []
  end.

Definition own_attr (tbl : ClassTable) (name : string) (c : ClassRef) : option Obj :=
  match lookup_class tbl c with
  | Some k => dict_get (cls_dict k) name
  | None => None
  end.

Fixpoint first_some {A B} (f : A -> option B) (l : list A) : option B :=
  match l with
  | [] => None
  | a :: r => match f a with Some b => Some b | None => first_some f r end
  end.

(** Attribute lookup on a class: the first class of its MRO that has it. *)
Definition class_getattr (tbl : ClassTable) (c : ClassRef) (name : string) : option Obj :=
  first_some (own_attr tbl name) (mro_of tbl c).

(** [getattr(c, name, None)] *)
Definition class_getattr_or_none (tbl : ClassTable) (c : ClassRef) (name : string) : Obj :=
  match class_getattr tbl c name with
  | Some v => v
  | None => PyNone
  end.

(** [base is TunableParameters or base is object] *)
Definition is_root_marker (c : ClassRef) : bool :=
  match c with
  | CObject | CTunableParameters => true
  | CUser _ => false
  end.

Definition annotations_of (tbl : ClassTable) (c : ClassRef) : list string :=
  match lookup_class tbl c with
  | Some k => cls_annotations k
  | None => []
  end.

Definition name_of (tbl : ClassTable) (c : ClassRef) : string :=
  match lookup_class tbl c with
  | Some k => cls_name k
  | None => ""
  end.

(** The inner loop of [_collect_fields_from_class]: one annotation of one
    level. *)
Definition collect_name (tbl : ClassTable) (base : ClassRef)
    (fields : dict Obj) (name : string) : dict Obj :=
  if startswith_underscore name then fields
  else
    let default_value := class_getattr_or_none tbl base name in
    if negb (is_none default_value) then dict_set fields name default_value
    else fields.

(** The outer loop body: one class of the reversed MRO. *)
Definition collect_level (tbl : ClassTable) (fields : dict Obj) (base : ClassRef) : dict Obj :=
  if is_root_marker base then fields
  else fold_left (collect_name tbl base) (annotations_of tbl base) fields.

Definition _collect_fields_from_class (tbl : ClassTable) (cls : ClassRef) : dict Obj :=
  fold_left (collect_level tbl) (rev (mro_of tbl cls)) [].

(** The first loop of [_calculate_namespace_from_class]: the names of the
    MRO up to the first root marker ([break]). *)
Fixpoint hierarchy_names (tbl : ClassTable) (mro : list ClassRef) : list string :=
  match mro with
  | [] => []
  | base :: r =>
      if is_root_marker base then []
      else name_of tbl base :: hierarchy_names tbl r
  end.

(** The second loop: names equal to "main" in lower case are skipped. *)
Fixpoint namespace_parts (hierarchy : list string) : list string :=
  match hierarchy with
  | [] => []
  | class_name :: r =>
      if String.eqb (lower class_name) "main" then namespace_parts r
      else lower class_name :: namespace_parts r
  end.

Definition _calculate_namespace_from_class (tbl : ClassTable) (cls : ClassRef) : string :=
  let hierarchy := rev (hierarchy_names tbl (mro_of tbl cls)) in
  let parts := namespace_parts hierarchy in
  match parts with
  | [] => ""
  | _ => join_dot parts
  end.

(** [setattr(cls, name, value)] on the class table *)
Fixpoint update_nth {A} (l : list A) (n : nat) (f : A -> A) : list A :=
  match l, n with
  | [], _ => []
  | a :: r, O => f a :: r
  | a :: r, S m => a :: update_nth r m f
  end.

Definition update_class (tbl : ClassTable) (c : ClassRef) (f : PyClass -> PyClass) : ClassTable :=
  match c with
  | CUser n => update_nth tbl n f
  | _ => tbl
  end.

Definition class_setattr (tbl : ClassTable) (c : ClassRef) (name : string) (v : Obj) : ClassTable :=
  update_class tbl c (fun k =>
    mkClass (cls_name k) (cls_mro k) (cls_annotations k)
            (dict_set (cls_dict k) name v)
            (cls_tunablex_namespace k) (cls_tunablex_fields k)).

Section WithRuntime.
Context {RT : Runtime}.

Definition _setup_class_attribute_access (tbl : ClassTable) (cls : ClassRef)
    (field_name : string) (field_info : Obj) : ClassTable :=
  let default_value :=
    match getattr field_info "default" with
    | Some d => d
    | None => field_info
    end in
  class_setattr tbl cls field_name default_value.

Definition _register_parameter_class (tbl : ClassTable) (cls : ClassRef) : ClassTable :=
  let fields := _collect_fields_from_class tbl cls in
  let namespace := _calculate_namespace_from_class tbl cls in
  let tbl1 := update_class tbl cls (fun k =>
    mkClass (cls_name k) (cls_mro k) (cls_annotations k) (cls_dict k)
            (Some namespace) (Some fields)) in
  fold_left (fun t kv => _setup_class_attribute_access t cls (fst kv) (snd kv))
            fields tbl1.

(** A [class name(bases): body] statement for a subclass of
    [TunableParameters]: the class object is created with the MRO Python
    computes ([parents_mro] is the MRO after the class itself), then
    [__init_subclass__] registers it. *)
Definition define_class (tbl : ClassTable) (name : string) (parents_mro : list ClassRef)
    (annotations : list string) (body : dict Obj) : ClassTable * ClassRef :=
  let cls := CUser (length tbl) in
  let k := mkClass name (cls :: parents_mro) annotations body None None in
  (_register_parameter_class (tbl ++ [k]) cls, cls).

(** Single inheritance: [class name(parent)]. *)
Definition define_subclass (tbl : ClassTable) (name : string) (parent : ClassRef)
    (annotations : list string) (body : dict Obj) : ClassTable * ClassRef :=
  define_class tbl name (mro_of tbl parent) annotations body.

End WithRuntime.

(** [getattr(cls, "_tunablex_namespace", "")] *)
Definition get_parameter_class_namespace (tbl : ClassTable) (cls : ClassRef) : string :=
  match first_some (fun c => match lookup_class tbl c with
                             | Some k => cls_tunablex_namespace k
                             | None => None
                             end) (mro_of tbl cls) with
  | Some ns => ns
  | None => ""
  end.

(** [getattr(cls, "_tunablex_fields", {})] *)
Definition get_parameter_class_fields (tbl : ClassTable) (cls : ClassRef) : dict Obj :=
  match first_some (fun c => match lookup_class tbl c with
                             | Some k => cls_tunablex_fields k
                             | None => None
                             end) (mro_of tbl cls) with
  | Some fs => fs
  | None => []
  end.

End Parameters.

(* ===================================================================== *)
(** ** Function objects, as [inspect] shows them *)
(* ===================================================================== *)

Module Inspect.
Import Py Parameters.

Inductive ParamKind : Type :=
| POSITIONAL_ONLY
| POSITIONAL_OR_KEYWORD
| VAR_POSITIONAL
| KEYWORD_ONLY
| VAR_KEYWORD.

Record Param : Type := mkParam {
  p_name : string;
  p_kind : ParamKind;
  p_default : Obj          (** [inspect._empty] when there is no default *)
}.

(** [sig.parameters], in declaration order *)
Definition Signature := list Param.

(** A raw annotation: a value, or the source text of a deferred annotation
    together with what [eval] makes of it in the function's globals
    ([None] when [eval] raises NameError, AttributeError or SyntaxError). *)
Inductive RawAnn : Type :=
| AnnValue (o : Obj)
| AnnString (src : string) (evaluated : option Obj).

(** A module-level name is bound to a class or to some other object. *)
Inductive GlobalVal : Type :=
| GClass (c : ClassRef)
| GObj (o : Obj).

Record Function : Type := mkFunction {
  fn_id : oid;
  fn_sig : Signature;               (** [inspect.signature(fn)] *)
  fn_annotations : dict RawAnn;     (** [inspect.get_annotations(fn)] *)
  fn_globals : dict GlobalVal       (** [fn.__globals__] *)
}.

Definition parameter_names (sig : Signature) : list string := map p_name sig.

(** [k in sig.parameters] *)
Definition in_parameters (sig : Signature) (k : string) : bool :=
  mem k (parameter_names sig).

End Inspect.

(* ===================================================================== *)
(** ** The registry *)
(* ===================================================================== *)

Module Registry.
Import Py Inspect.

(** The schema that pydantic's [create_model] builds: its name and, per
    field, the pair (type, default). *)
Record Model : Type := mkModel {
  model_name : string;
  model_fields : dict (Obj * Obj)
}.

(** Modelled from the spec: the entry record of [registry.py], which is not
    among the sources; its fields are those that [decorators.py] passes as
    [TunableEntry(fn=, model=, sig=, namespace=, apps=)]. *)
Record TunableEntry : Type := mkEntry {
  entry_fn : Function;
  entry_model : Model;
  entry_sig : Signature;
  entry_namespace : string;
  entry_apps : list string
}.

(** Modelled from the spec: [registry.py] is not among the sources.  The
    registry is an append-only collection of entries; several entries may
    share a function or a namespace, and none is ever removed. *)
Definition Registry := list TunableEntry.

(** Modelled from the spec: [REGISTRY.register(entry)] appends the entry. *)
Definition register (r : Registry) (e : TunableEntry) : Registry := r ++ [e].

(** Modelled from the spec: [REGISTRY.by_namespace.values()] runs over
    every registered entry, in registration order. *)
Definition by_namespace_values (r : Registry) : list TunableEntry := r.

(** Modelled from the spec: [by_function(fn)], all entries owned by [fn]. *)
Definition by_function (r : Registry) (f : Function) : list TunableEntry :=
  filter (fun e => Nat.eqb (fn_id (entry_fn e)) (fn_id f)) r.

End Registry.

(* ===================================================================== *)
(** ** decorators.py *)
(* ===================================================================== *)

Module Decorators.
Import Py Parameters Inspect Registry.

(** [parameters.py] is part of the package, so its import succeeds. *)
Definition _PARAMETERS_AVAILABLE : bool := true.

(** [issubclass(obj, TunableParameters)] *)
Definition issubclass_tunable (tbl : ClassTable) (c : ClassRef) : bool :=
  existsb (class_eqb CTunableParameters) (mro_of tbl c).

(** [dir(cls)]: the attribute names of the class and of its bases, sorted,
    each once. *)
Fixpoint insert_name (x : string) (l : list string) : list string :=
  match l with
  | [] => [x]
  | y :: r =>
      match String.compare x y with
      | Lt => x :: l
      | Eq => l
      | Gt => y :: insert_name x r
      end
  end.

Definition class_dir (tbl : ClassTable) (c : ClassRef) : list string :=
  fold_right insert_name []
    (concat (map (fun b => match lookup_class tbl b with
                           | Some k => dict_keys (cls_dict k)
                           | None => []
                           end) (mro_of tbl c))).

(** The inner loop of the scan: some public attribute of [obj] is the very
    object [default_value]. *)
Definition class_has_value (tbl : ClassTable) (obj : ClassRef) (default_value : Obj) : bool :=
  existsb (fun attr_name =>
             if negb (startswith_underscore attr_name) then
               match class_getattr tbl obj attr_name with
               | Some attr_value => is_same attr_value default_value
               | None => false
               end
             else false)
          (class_dir tbl obj).

(** [issubclass(obj, TunableParameters) and obj is not TunableParameters] *)
Definition is_parameter_class (tbl : ClassTable) (obj : ClassRef) : bool :=
  issubclass_tunable tbl obj && negb (class_eqb obj CTunableParameters).

(** The outer loop: the globals' values in order, the first matching class
    decides. *)
Fixpoint scan_globals (tbl : ClassTable) (default_value : Obj)
    (values : list GlobalVal) : option string :=
  match values with
  | [] => None
  | GClass obj :: r =>
      if is_parameter_class tbl obj
      then if class_has_value tbl obj default_value
           then Some (get_parameter_class_namespace tbl obj)
           else scan_globals tbl default_value r
      else scan_globals tbl default_value r
  | GObj _ :: r => scan_globals tbl default_value r
  end.

Section WithRuntime.
Context {RT : Runtime}.

Definition _infer_namespace_from_class_attribute (tbl : ClassTable)
    (default_value : Obj) (fn_globals : dict GlobalVal) : option string :=
  if negb _PARAMETERS_AVAILABLE then None
  else if hasattr default_value "__self__" then None
  else scan_globals tbl default_value (dict_values fn_globals).

(** [x or ""] for [x : str | None] *)
Definition or_empty (x : option string) : string :=
  match x with
  | Some s => s
  | None => ""
  end.

Inductive Mode : Type := ModeInclude | ModeExclude.

(** The arguments of [tunable( *include, namespace=, mode=, exclude=, apps=)];
    [exclude=None] is the empty list, as [set(exclude or ())] makes it. *)
Record TunableArgs : Type := mkArgs {
  include : list string;
  namespace : option string;
  mode : Mode;
  exclude : list string;
  apps : list string
}.

Definition nonempty {A} (l : list A) : bool :=
  match l with [] => false | _ => true end.

Definition is_variadic (p : Param) : bool :=
  match p_kind p with
  | VAR_POSITIONAL | VAR_KEYWORD => true
  | _ => false
  end.

(** [p.default is not inspect._empty] *)
Definition has_default (p : Param) : bool :=
  negb (is_same (p_default p) inspect_empty).

(** The selection test that each of the three loops over [sig.parameters]
    repeats: [continue] for variadic parameters, then [selected]. *)
Definition selected (a : TunableArgs) (p : Param) : bool :=
  if is_variadic p then false
  else if nonempty (include a) then mem (p_name p) (include a)
  else match mode a with
       | ModeExclude =>
           if nonempty (exclude a)
           then has_default p && negb (mem (p_name p) (exclude a))
           else has_default p
       | ModeInclude => has_default p
       end.

Definition _eval_ann (value : RawAnn) : Obj :=
  match value with
  | AnnString _ (Some t) => t
  | AnnString _ None => typing_Any
  | AnnValue t => t
  end.

(** [(ann, default)] of a selected parameter *)
Definition field_of (f : Function) (p : Param) : Obj * Obj :=
  let ann := _eval_ann (match dict_get (fn_annotations f) (p_name p) with
                        | Some r => r
                        | None => AnnValue typing_Any
                        end) in
  let default := if has_default p then p_default p else py_ellipsis in
  (ann, default).

(** The loop that fills [fields]. *)
Definition collect_fields (a : TunableArgs) (f : Function)
    (fields : dict (Obj * Obj)) : dict (Obj * Obj) :=
  fold_left (fun fields p =>
               if selected a p then dict_set fields (p_name p) (field_of f p)
               else fields)
            (fn_sig f) fields.

(** The names the decorator selects, in signature order. *)
Definition selected_names (a : TunableArgs) (f : Function) : list string :=
  map p_name (filter (selected a) (fn_sig f)).

(** [_infer_namespace_from_class_attribute(p.default, fn.__globals__) or ""] *)
Definition param_namespace (tbl : ClassTable) (f : Function) (p : Param) : string :=
  or_empty (_infer_namespace_from_class_attribute tbl (p_default p) (fn_globals f)).

(** One step of the loop that fills [namespace_groups]. *)
Definition group_step (tbl : ClassTable) (a : TunableArgs) (f : Function)
    (groups : dict (dict (Obj * Obj))) (p : Param) : dict (dict (Obj * Obj)) :=
  if selected a p then
    let param_ns := param_namespace tbl f p in
    let groups1 := if negb (dict_mem groups param_ns)
                   then dict_set groups param_ns [] else groups in
    let group := match dict_get groups1 param_ns with
                 | Some g => g
                 | None => []
                 end in
    dict_set groups1 param_ns (dict_set group (p_name p) (field_of f p))
  else groups.

Definition namespace_groups (tbl : ClassTable) (a : TunableArgs) (f : Function)
    : dict (dict (Obj * Obj)) :=
  fold_left (group_step tbl a f) (fn_sig f) [].

(** [f"{ns.title().replace('.', '').replace('_', '')}Config"] *)
Definition model_name_of (ns : string) : string :=
  (remove_char "_"%char (remove_char "."%char (title ns)) ++ "Config")%string.

Definition create_model (name : string) (fields : dict (Obj * Obj)) : Model :=
  mkModel name fields.

(** The registration part of [decorator(fn)]. *)
Definition decorate (tbl : ClassTable) (a : TunableArgs) (f : Function)
    (reg : Registry) : Registry :=
  let fields := collect_fields a f [] in
  match namespace a with
  | None =>
      fold_left (fun reg g =>
                   let ns := fst g in
                   let ns_fields := snd g in
                   if dict_nonempty ns_fields then
                     register reg (mkEntry f (create_model (model_name_of ns) ns_fields)
                                           (fn_sig f) ns (apps a))
                   else reg)
                (namespace_groups tbl a f) reg
  | Some ns =>
      let fields := collect_fields a f fields in
      register reg (mkEntry f (create_model (model_name_of ns) fields)
                            (fn_sig f) ns (apps a))
  end.

(** [_resolve_nested_section]: the loop over the segments; [PyNone] is the
    "not found" result. *)
Fixpoint resolve_segments (obj : Obj) (segs : list string) : Obj :=
  match segs with
  | [] => obj
  | seg :: r =>
      if is_none obj || negb (hasattr obj seg) then PyNone
      else match getattr obj seg with
           | Some o => resolve_segments o r
           | None => PyNone
           end
  end.

Definition _resolve_nested_section (cfg_model : Obj) (dotted_ns : string) : Obj :=
  resolve_segments cfg_model (split_dot dotted_ns).

(** Following the words of the specification, for comparison with the
    resolver: the section that a path of attribute names reaches in a
    configuration, stepping into one attribute per name; there is none
    when a name is no attribute of the object reached, or when the object
    reached is [None]. *)
Fixpoint section_at (cfg : Obj) (path : list string) : option Obj :=
  match path with
  | [] => if is_none cfg then None else Some cfg
  | name :: rest =>
      match getattr cfg name with
      | Some o => section_at o rest
      | None => None
      end
  end.

(** A call that the wrapper makes: [fn( *call_args, **call_kwargs)]. *)
Record Call : Type := mkCall {
  call_args : list Obj;
  call_kwargs : dict Obj
}.

(** [fn( *args, **kwargs)]: the caller's own call. *)
Definition call1 (args : list Obj) (kwargs : dict Obj) : Result Call :=
  Ok (mkCall args kwargs).

(** The signature has a [**kwargs] parameter. *)
Definition has_var_keyword (sig : Signature) : bool :=
  existsb (fun p => match p_kind p with VAR_KEYWORD => true | _ => false end) sig.

(** The first [n] positional arguments of a call fill the parameter named
    [k]: positional arguments fill the positional-only and
    positional-or-keyword parameters, which come first, in order. *)
Fixpoint filled_positionally (sig : Signature) (n : nat) (k : string) : bool :=
  match sig, n with
  | p :: r, S m =>
      match p_kind p with
      | POSITIONAL_ONLY | POSITIONAL_OR_KEYWORD =>
          String.eqb (p_name p) k || filled_positionally r m k
      | _ => false
      end
  | _, _ => false
  end.

(** Python accepts the keyword [k] in a call with [n] positional
    arguments: a positional-or-keyword parameter must not be filled
    positionally already (else: multiple values for the argument); a
    keyword-only parameter takes it; a name that is positional-only, that
    of [*args] or [**kwargs], or unknown is taken by [**kwargs] when the
    signature has one, and is refused otherwise. *)
Definition keyword_accepted (sig : Signature) (n : nat) (k : string) : bool :=
  match find (fun p => String.eqb (p_name p) k) sig with
  | Some p =>
      match p_kind p with
      | POSITIONAL_OR_KEYWORD => negb (filled_positionally sig n k)
      | KEYWORD_ONLY => true
      | POSITIONAL_ONLY | VAR_POSITIONAL | VAR_KEYWORD => has_var_keyword sig
      end
  | None => has_var_keyword sig
  end.

(** [fn( *args, **extra, **kwargs)], [extra] being what the wrapper adds:
    a key present in both mappings is a TypeError (multiple values for a
    keyword argument), and so is an added keyword that the signature does
    not accept beside the positional arguments; both are raised before the
    function is entered. *)
Definition call2 (sig : Signature) (args : list Obj) (extra kwargs : dict Obj)
    : Result Call :=
  if existsb (fun k => dict_mem kwargs k) (dict_keys extra)
  then Raise TypeError
  else if negb (forallb (keyword_accepted sig (length args)) (dict_keys extra))
  then Raise TypeError
  else Ok (mkCall args (extra ++ kwargs)).

(** [for k, v in data.items(): if k in sig.parameters: acc[k] = v] *)
Definition merge_matching (sig : Signature) (acc data : dict Obj) : dict Obj :=
  fold_left (fun acc kv =>
               if in_parameters sig (fst kv) then dict_set acc (fst kv) (snd kv)
               else acc)
            data acc.

(** The contribution of one namespace to [combined_params]. *)
Definition merge_section (sig : Signature) (app_cfg : Obj) (ns : string)
    (combined : dict Obj) : Result (dict Obj) :=
  let section := _resolve_nested_section app_cfg ns in
  if negb (is_none section) then
    data <- as_data section ;;
    Ok (merge_matching sig combined data)
  else Ok combined.

(** The loop over [REGISTRY.by_namespace.values()]. *)
Fixpoint merge_entries (f : Function) (app_cfg : Obj) (entries : list TunableEntry)
    (combined : dict Obj) : Result (dict Obj) :=
  match entries with
  | [] => Ok combined
  | entry :: r =>
      if Nat.eqb (fn_id (entry_fn entry)) (fn_id f) then
        combined1 <- merge_section (fn_sig f) app_cfg (entry_namespace entry) combined ;;
        merge_entries f app_cfg r combined1
      else merge_entries f app_cfg r combined
  end.

(** [wrapper( *args, cfg=None, **kwargs)].  [reg] is the registry at the
    time of the call and [active] is what [_active_cfg.get()] returns
    ([PyNone] outside any activation). *)
Definition wrapper (f : Function) (namespace : option string)
    (reg : Registry) (active : Obj)
    (args : list Obj) (cfg : Obj) (kwargs : dict Obj) : Result Call :=
  if negb (is_none cfg) then
    data <- as_data cfg ;;
    let filtered := merge_matching (fn_sig f) [] data in
    call2 (fn_sig f) args filtered kwargs
  else
    let app_cfg := active in
    if negb (is_none app_cfg) then
      combined_params <-
        match namespace with
        | None => merge_entries f app_cfg (by_namespace_values reg) []
        | Some ns => merge_section (fn_sig f) app_cfg ns []
        end ;;
      if dict_nonempty combined_params
      then call2 (fn_sig f) args combined_params kwargs
      else call1 args kwargs
    else call1 args kwargs.

End WithRuntime.

End Decorators.

(* ===================================================================== *)
(** ** A runtime for the examples *)
(* ===================================================================== *)

Module Runtimes.
Import Py.

(** What [o.name] gives for a method: a fresh bound method object, whose
    attribute [__self__] is [o].  Its identity is never inspected. *)
Definition bound_method (self : Obj) : Obj := PyObject 3 [("__self__", self)].

(** The public methods of [dict]. *)
Definition dict_method_names : list string :=
  ["clear"; "copy"; "fromkeys"; "get"; "items"; "keys"; "pop"; "popitem";
   "setdefault"; "update"; "values"].

(** The public methods of pydantic's [BaseModel]. *)
Definition model_method_names : list string :=
  ["construct"; "copy"; "dict"; "from_orm"; "json"; "model_construct";
   "model_copy"; "model_dump"; "model_dump_json"; "model_json_schema";
   "model_parametrized_name"; "model_post_init"; "model_rebuild";
   "model_validate"; "model_validate_json"; "model_validate_strings";
   "parse_file"; "parse_obj"; "parse_raw"; "schema"; "schema_json";
   "update_forward_refs"; "validate"].

Definition methods_of (o : Obj) : dict Obj :=
  match o with
  | PyDict _ _ => map (fun name => (name, bound_method o)) dict_method_names
  | PyModel _ _ => map (fun name => (name, bound_method o)) model_method_names
  | PyObject _ _ | PyNone => []
  end.

(** The runtime in which the sample programs below are evaluated: dicts
    and models with the public methods that their documentation lists,
    plain values without class attributes; the double-underscore
    attributes and the class variables of pydantic ([model_config],
    [model_fields], ...) are left out, no sample names them.  The general
    theorems hold in every runtime. *)
#[global] Instance documented_methods : Runtime :=
  {| class_attributes := methods_of |}.

End Runtimes.

(* ===================================================================== *)
(** ** Sample programs *)
(* ===================================================================== *)

Module Samples.
Import Py Parameters Inspect Registry Decorators.

(** A plain value and a pydantic [Field(default)] object. *)
Definition value (id : oid) : Obj := PyObject id [].
Definition Field (id : oid) (default : Obj) : Obj := PyObject id [("default", default)].

Definition root_mro : list ClassRef := [CTunableParameters; CObject].

(** [[
    class Main(TunableParameters):
        root_param: str = Field("r")
        dropout: float = Field(0.2)
    class Model(Main):
        hidden_units: int = Field(128)
        dropout: float | None = None
    class Preprocess(Model):
        dropna: bool = Field(True)
    class Train(Main):
        epochs: int = Field(10)
        dropout: float = Field(0.5)
    ]] *)
Definition def_main : ClassTable * ClassRef :=
  define_class [] "Main" root_mro ["root_param"; "dropout"]
    [("root_param", Field 10 (value 11)); ("dropout", Field 12 (value 13))].
Definition Main : ClassRef := snd def_main.

(** The class table when the registration of [Model] starts. *)
Definition model_body_table : ClassTable :=
  fst def_main ++
  [mkClass "Model" (CUser 1 :: mro_of (fst def_main) Main) ["hidden_units"; "dropout"]
     [("hidden_units", Field 20 (value 21)); ("dropout", PyNone)] None None].

Definition def_model : ClassTable * ClassRef :=
  define_subclass (fst def_main) "Model" Main ["hidden_units"; "dropout"]
    [("hidden_units", Field 20 (value 21)); ("dropout", PyNone)].
Definition Model : ClassRef := snd def_model.

Definition def_preprocess : ClassTable * ClassRef :=
  define_subclass (fst def_model) "Preprocess" Model ["dropna"]
    [("dropna", Field 30 (value 31))].
Definition Preprocess : ClassRef := snd def_preprocess.

(** The class table when the registration of [Train] starts. *)
Definition train_body_table : ClassTable :=
  fst def_preprocess ++
  [mkClass "Train" (CUser 3 :: mro_of (fst def_preprocess) Main) ["epochs"; "dropout"]
     [("epochs", Field 40 (value 41)); ("dropout", Field 42 (value 43))] None None].

Definition def_train : ClassTable * ClassRef :=
  define_subclass (fst def_preprocess) "Train" Main ["epochs"; "dropout"]
    [("epochs", Field 40 (value 41)); ("dropout", Field 42 (value 43))].
Definition Train : ClassRef := snd def_train.

Definition params_table : ClassTable := fst def_train.

(** [[
    class Base(TunableParameters): pass
    class Main(Base): pass
    class Model(Main): pass
    ]] *)
Definition def_base2 : ClassTable * ClassRef :=
  define_class [] "Base" root_mro [] [].
Definition def_main2 : ClassTable * ClassRef :=
  define_subclass (fst def_base2) "Main" (snd def_base2) [] [].
Definition def_model2 : ClassTable * ClassRef :=
  define_subclass (fst def_main2) "Model" (snd def_main2) [] [].
Definition based_table : ClassTable := fst def_model2.
Definition based_Model : ClassRef := snd def_model2.

(** [[
    class Layers(Main):
        activation: Any = math.tanh
    ]]
    A builtin function has the attribute [__self__]. *)
Definition math_tanh : Obj := PyObject 50 [("__self__", value 51)].

Definition def_layers : ClassTable * ClassRef :=
  define_subclass params_table "Layers" Main ["activation"] [("activation", math_tanh)].
Definition Layers : ClassRef := snd def_layers.
Definition layers_table : ClassTable := fst def_layers.

(** The globals of the pipeline module:
    [from tunablex import tunable] and
    [from .params import Main, Model, Preprocess, Train]. *)
Definition module_globals : dict GlobalVal :=
  [("tunable", GObj (value 90)); ("Main", GClass Main); ("Model", GClass Model);
   ("Preprocess", GClass Preprocess); ("Train", GClass Train)].

(** [[
    @tunable("hidden_units", "dropout", "root_param", apps=("train",))
    def build_model(hidden_units=Model.hidden_units, dropout=Model.dropout,
                    root_param=Main.root_param): ...
    ]] *)
Definition build_model : Function :=
  mkFunction 100
    [mkParam "hidden_units" POSITIONAL_OR_KEYWORD
       (class_getattr_or_none params_table Model "hidden_units");
     mkParam "dropout" POSITIONAL_OR_KEYWORD
       (class_getattr_or_none params_table Model "dropout");
     mkParam "root_param" POSITIONAL_OR_KEYWORD
       (class_getattr_or_none params_table Main "root_param")]
    [] module_globals.

Definition build_model_args : TunableArgs :=
  mkArgs ["hidden_units"; "dropout"; "root_param"] None ModeInclude [] ["train"].

(** [[
    @tunable("epochs", "dropna")
    def fit(data, epochs=Train.epochs, dropna=Preprocess.dropna): ...
    ]] *)
Definition fit : Function :=
  mkFunction 101
    [mkParam "data" POSITIONAL_OR_KEYWORD inspect_empty;
     mkParam "epochs" POSITIONAL_OR_KEYWORD
       (class_getattr_or_none params_table Train "epochs");
     mkParam "dropna" POSITIONAL_OR_KEYWORD
       (class_getattr_or_none params_table Preprocess "dropna")]
    [] module_globals.

Definition fit_args : TunableArgs := mkArgs ["epochs"; "dropna"] None ModeInclude [] [].

(** The registry once the module is loaded. *)
Definition loaded_registry : Registry :=
  decorate params_table fit_args fit
    (decorate params_table build_model_args build_model []).

(** The active configuration: every namespace populated. *)
Definition app_config : Obj :=
  PyModel 200
    [("root_param", value 201);
     ("dropout", value 202);
     ("model", PyModel 210
        [("hidden_units", value 211);
         ("preprocess", PyModel 220 [("dropna", value 221)])]);
     ("train", PyModel 230 [("epochs", value 231); ("dropout", value 232)])].

(** [[
    @tunable("x", namespace="scaling")
    def scale(x=1): ...
    ]] *)
Definition scale : Function :=
  mkFunction 102 [mkParam "x" POSITIONAL_OR_KEYWORD (value 111)] [] module_globals.

Definition scale_args : TunableArgs := mkArgs ["x"] (Some "scaling") ModeInclude [] [].

Definition scaling_config : Obj :=
  PyModel 240 [("scaling", PyModel 241 [("x", value 9)])].

(** [[
    @tunable("retries")
    def load(path, retries=3, *sources, **options): ...
    ]] *)
Definition load : Function :=
  mkFunction 103
    [mkParam "path" POSITIONAL_OR_KEYWORD inspect_empty;
     mkParam "retries" POSITIONAL_OR_KEYWORD (value 121);
     mkParam "sources" VAR_POSITIONAL inspect_empty;
     mkParam "options" VAR_KEYWORD inspect_empty]
    [] module_globals.

Definition load_args : TunableArgs := mkArgs ["retries"] None ModeInclude [] [].

(** [[
    def build(activation=Layers.activation): ...
    ]] in a module that imports [Main] and [Layers]. *)
Definition build : Function :=
  mkFunction 104
    [mkParam "activation" POSITIONAL_OR_KEYWORD
       (class_getattr_or_none layers_table Layers "activation")]
    [] [("Main", GClass Main); ("Layers", GClass Layers)].

End Samples.

(* ===================================================================== *)
(** ** More sample programs *)
(* ===================================================================== *)

Module MoreSamples.
Import Py Parameters Inspect Registry Decorators Samples.

(** [[
    @tunable(mode="exclude", exclude=["path"])
    def read(path="in.csv", sep=",", *extra, encoding="utf8", **options): ...
    ]] *)
Definition read : Function :=
  mkFunction 105
    [mkParam "path" POSITIONAL_OR_KEYWORD (value 131);
     mkParam "sep" POSITIONAL_OR_KEYWORD (value 132);
     mkParam "extra" VAR_POSITIONAL inspect_empty;
     mkParam "encoding" KEYWORD_ONLY (value 133);
     mkParam "options" VAR_KEYWORD inspect_empty]
    [("sep", AnnString "str" (Some (value 134)))] module_globals.

Definition read_exclude_args : TunableArgs :=
  mkArgs [] None ModeExclude ["path"] [].

Definition read_default_args : TunableArgs :=
  mkArgs [] None ModeInclude [] [].

(** [@tunable("x", "y", namespace="geometry")] on [def move(x, y=0)]. *)
Definition move : Function :=
  mkFunction 106
    [mkParam "x" POSITIONAL_OR_KEYWORD inspect_empty;
     mkParam "y" POSITIONAL_OR_KEYWORD (value 141)]
    [] module_globals.

Definition move_args : TunableArgs :=
  mkArgs ["x"; "y"] (Some "geometry") ModeInclude [] ["plot"].

(** A configuration whose section [train] is a plain value and whose
    section [model] is [None]. *)
Definition odd_config : Obj :=
  PyModel 260 [("train", value 261); ("model", PyNone);
               ("geometry", PyModel 262 [("x", value 263); ("z", value 264)])].

(** [[
    @tunable("hidden_units", "epochs", "dropout")
    def tune(hidden_units=Model.hidden_units, epochs=Train.epochs,
             dropout=Train.dropout): ...
    ]] *)
Definition tune : Function :=
  mkFunction 107
    [mkParam "hidden_units" POSITIONAL_OR_KEYWORD
       (class_getattr_or_none params_table Model "hidden_units");
     mkParam "epochs" POSITIONAL_OR_KEYWORD
       (class_getattr_or_none params_table Train "epochs");
     mkParam "dropout" POSITIONAL_OR_KEYWORD
       (class_getattr_or_none params_table Train "dropout")]
    [] module_globals.

Definition tune_args : TunableArgs :=
  mkArgs ["hidden_units"; "epochs"; "dropout"] None ModeInclude [] [].

Definition tune_registry : Registry := decorate params_table tune_args tune [].

(** A configuration whose sections [model] and [train] both hold
    [dropout]. *)
Definition collide_config : Obj :=
  PyModel 270
    [("model", PyModel 271 [("hidden_units", value 272); ("dropout", value 273)]);
     ("train", PyModel 274 [("dropout", value 275)])].

(** The two entries of [tune], in registration order. *)
Definition tune_model_entry : TunableEntry :=
  nth 0 tune_registry (mkEntry tune (mkModel "" []) [] "" []).
Definition tune_train_entry : TunableEntry :=
  nth 1 tune_registry (mkEntry tune (mkModel "" []) [] "" []).

(** [[
    from tunablex.parameters import TunableParameters
    class Main(TunableParameters): ...
    class Model(Main): ...

    def show(hidden_units=Model.hidden_units): ...
    ]] in one module, [Model] being the last class defined. *)
Definition show : Function :=
  mkFunction 108
    [mkParam "hidden_units" POSITIONAL_OR_KEYWORD (value 21)]
    [] [("TunableParameters", GClass CTunableParameters);
        ("Main", GClass (CUser 0)); ("Model", GClass (CUser 1))].




(** A configuration with the section [train] only. *)
Definition train_only_config : Obj :=
  PyModel 280 [("train", PyModel 281 [("epochs", value 282)])].


End MoreSamples.

(* ===================================================================== *)
(** ** The runtime model on small inputs *)
(* ===================================================================== *)

Module RuntimeExamples.
Import Py Parameters Decorators Samples.

Example split_empty : split_dot "" = [""].
Proof. reflexivity. Qed.

Example split_dotted : split_dot "model.preprocess" = ["model"; "preprocess"].
Proof. reflexivity. Qed.

Example split_trailing_dot : split_dot "model." = ["model"; ""].
Proof. reflexivity. Qed.

Example lower_mixed : lower "PreProcess_2" = "preprocess_2".
Proof. reflexivity. Qed.

Example model_name_dotted : model_name_of "model.pre_process" = "ModelPreProcessConfig".
Proof. reflexivity. Qed.

Example model_name_root : model_name_of "" = "Config".
Proof. reflexivity. Qed.

Example namespaces_of_samples :
  map (_calculate_namespace_from_class params_table) [Main; Model; Preprocess; Train]
  = [""; "model"; "model.preprocess"; "train"].
Proof. vm_compute. reflexivity. Qed.

Example dir_of_model :
  class_dir params_table Model = ["dropout"; "hidden_units"; "root_param"].
Proof. vm_compute. reflexivity. Qed.

Example resolve_nested_sample :
  _resolve_nested_section app_config "model.preprocess" =
  PyModel 220 [("dropna", value 221)].
Proof. vm_compute. reflexivity. Qed.

Example resolve_missing_sample :
  _resolve_nested_section app_config "model.serve" = PyNone.
Proof. vm_compute. reflexivity. Qed.

End RuntimeExamples.
(* ===================================================================== *)
(** ** Facts about dicts *)
(* ===================================================================== *)

Module DictFacts.
Import Py.

Lemma mem_true_iff (x : string) (l : list string) : mem x l = true <-> In x l.
Proof.
  unfold mem. rewrite existsb_exists. split.
  - intros [y [Hin Heq]]. apply String.eqb_eq in Heq. now subst.
  - intros Hin. exists x. split; [assumption | apply String.eqb_refl].
Qed.

Lemma mem_false_iff (x : string) (l : list string) : mem x l = false <-> ~ In x l.
Proof.
  rewrite <- mem_true_iff. destruct (mem x l); split; congruence.
Qed.

Section WithValues.
Context {V : Type}.
Implicit Types (d : dict V) (k : string) (v : V).

Lemma dict_get_set_eq d k v : dict_get (dict_set d k v) k = Some v.
Proof.
  induction d as [|[k' v'] r IH]; simpl.
  - now rewrite String.eqb_refl.
  - destruct (String.eqb k k') eqn:E; simpl; rewrite E; [reflexivity | exact IH].
Qed.

Lemma dict_get_set_ne d k k' v :
  k <> k' -> dict_get (dict_set d k v) k' = dict_get d k'.
Proof.
  intros Hne. induction d as [|[k0 v0] r IH]; simpl.
  - apply not_eq_sym in Hne. apply String.eqb_neq in Hne. now rewrite Hne.
  - destruct (String.eqb k k0) eqn:E; simpl.
    + apply String.eqb_eq in E. subst k0.
      apply not_eq_sym in Hne. apply String.eqb_neq in Hne. now rewrite Hne.
    + destruct (String.eqb k' k0); [reflexivity | exact IH].
Qed.

Lemma dict_mem_get d k :
  dict_mem d k = match dict_get d k with Some _ => true | None => false end.
Proof.
  unfold dict_mem, mem, dict_keys.
  induction d as [|[k' v'] r IH]; simpl; [reflexivity|].
  destruct (String.eqb k k'); simpl; [reflexivity | exact IH].
Qed.

Lemma dict_mem_set d k k' v :
  dict_mem (dict_set d k v) k' = String.eqb k k' || dict_mem d k'.
Proof.
  rewrite !dict_mem_get.
  destruct (String.eqb k k') eqn:E.
  - apply String.eqb_eq in E. subst. now rewrite dict_get_set_eq.
  - apply String.eqb_neq in E. now rewrite dict_get_set_ne.
Qed.

Lemma dict_get_app d1 d2 k :
  dict_get (d1 ++ d2) k =
  match dict_get d1 k with Some v => Some v | None => dict_get d2 k end.
Proof.
  induction d1 as [|[k' v'] r IH]; simpl; [reflexivity|].
  destruct (String.eqb k k'); [reflexivity | exact IH].
Qed.

Lemma dict_get_In d k v : dict_get d k = Some v -> In (k, v) d.
Proof.
  induction d as [|[k' v'] r IH]; simpl; [discriminate|].
  destruct (String.eqb k k') eqn:E.
  - apply String.eqb_eq in E. intros [= ->]. left. now subst.
  - intros H. right. now apply IH.
Qed.

Lemma dict_mem_keys d k : dict_mem d k = true <-> In k (dict_keys d).
Proof. unfold dict_mem. apply mem_true_iff. Qed.

Lemma dict_set_set d k v1 v2 : dict_set (dict_set d k v1) k v2 = dict_set d k v2.
Proof.
  induction d as [|[k' v'] r IH]; simpl.
  - now rewrite String.eqb_refl.
  - destruct (String.eqb k k') eqn:E; simpl; rewrite E; [reflexivity | now rewrite IH].
Qed.

Lemma dict_keys_set d k v :
  dict_keys (dict_set d k v) = if dict_mem d k then dict_keys d else dict_keys d ++ [k].
Proof.
  unfold dict_mem, mem, dict_keys.
  induction d as [|[k' v'] r IH]; simpl; [reflexivity|].
  destruct (String.eqb k k') eqn:E; simpl; [reflexivity|].
  rewrite IH. now destruct (existsb (String.eqb k) (map fst r)).
Qed.

Lemma dict_set_NoDup d k v : NoDup (dict_keys d) -> NoDup (dict_keys (dict_set d k v)).
Proof.
  intros Hnd. rewrite dict_keys_set.
  destruct (dict_mem d k) eqn:E; [assumption|].
  apply NoDup_app; [assumption | repeat constructor; intros [] |].
  intros x Hx [<- | []]. apply dict_mem_keys in Hx. congruence.
Qed.

Lemma dict_set_Forall (Q : V -> Prop) d k v :
  Forall (fun kv => Q (snd kv)) d -> Q v ->
  Forall (fun kv => Q (snd kv)) (dict_set d k v).
Proof.
  intros Hd Hv. induction d as [|[k' v'] r IH]; simpl.
  - repeat constructor. exact Hv.
  - inversion Hd; subst.
    destruct (String.eqb k k'); constructor; auto.
Qed.

End WithValues.
End DictFacts.

(* ===================================================================== *)
(** ** The namespace hierarchy resolver *)
(* ===================================================================== *)

Module NamespaceSpec.
Import Py Parameters Samples.

(** The match on the empty list in [_calculate_namespace_from_class] is
    what joining no part gives anyway. *)
Lemma calculate_namespace_unfold (tbl : ClassTable) (cls : ClassRef) :
  _calculate_namespace_from_class tbl cls =
  join_dot (namespace_parts (rev (hierarchy_names tbl (mro_of tbl cls)))).
Proof.
  unfold _calculate_namespace_from_class.
  now destruct (namespace_parts _).
Qed.

Lemma namespace_parts_app (l1 l2 : list string) :
  namespace_parts (l1 ++ l2) = namespace_parts l1 ++ namespace_parts l2.
Proof.
  induction l1 as [|x r IH]; simpl; [reflexivity|].
  destruct (String.eqb (lower x) "main"); simpl; now rewrite IH.
Qed.

(** The parts are the lower-cased names different from "main", in order. *)
Lemma namespace_parts_filter (l : list string) :
  namespace_parts l =
  filter (fun s => negb (String.eqb s "main")) (map lower l).
Proof.
  induction l as [|x r IH]; simpl; [reflexivity|].
  destruct (String.eqb (lower x) "main"); simpl; now rewrite IH.
Qed.

Lemma hierarchy_names_chain (tbl : ClassTable) (chain : list nat)
    (marker : ClassRef) (rest : list ClassRef) :
  is_root_marker marker = true ->
  hierarchy_names tbl (map CUser chain ++ marker :: rest) =
  map (fun n => name_of tbl (CUser n)) chain.
Proof.
  intros Hm. induction chain as [|n r IH]; simpl.
  - now rewrite Hm.
  - now rewrite IH.
Qed.

(** The namespace of a class with any chain below the root marker. *)
Lemma namespace_of_chain (tbl : ClassTable) (cls : ClassRef) (chain : list nat)
    (marker : ClassRef) (rest : list ClassRef) :
  mro_of tbl cls = map CUser chain ++ marker :: rest ->
  is_root_marker marker = true ->
  _calculate_namespace_from_class tbl cls =
  join_dot (filter (fun s => negb (String.eqb s "main"))
                   (map (fun n => lower (name_of tbl (CUser n))) (rev chain))).
Proof.
  intros Hmro Hm.
  rewrite calculate_namespace_unfold, Hmro, hierarchy_names_chain by assumption.
  rewrite namespace_parts_filter, <- map_rev, map_map. reflexivity.
Qed.

(** C5 (as amended): for a class [C] whose chain below the root marker is
    [A, B, C] from the most general to the most specific, the namespace is
    the dot-joined list of the lower-cased names that differ from "main",
    whatever their position; it is "b.c" when [A] alone is named main and
    "a.b.c" when none of the three is. *)
Theorem namespace_of_three_level_chain
    (tbl : ClassTable) (cls : ClassRef) (na nb nc : nat) (rest : list ClassRef) :
  mro_of tbl cls = CUser nc :: CUser nb :: CUser na :: CTunableParameters :: rest ->
  let a := lower (name_of tbl (CUser na)) in
  let b := lower (name_of tbl (CUser nb)) in
  let c := lower (name_of tbl (CUser nc)) in
  _calculate_namespace_from_class tbl cls =
    join_dot (filter (fun s => negb (String.eqb s "main")) [a; b; c])
  /\ (a = "main" -> b <> "main" -> c <> "main" ->
      _calculate_namespace_from_class tbl cls = (b ++ "." ++ c)%string)
  /\ (a <> "main" -> b <> "main" -> c <> "main" ->
      _calculate_namespace_from_class tbl cls = (a ++ "." ++ b ++ "." ++ c)%string).
Proof.
  intros Hmro a b c.
  assert (Hgen : _calculate_namespace_from_class tbl cls =
                 join_dot (filter (fun s => negb (String.eqb s "main")) [a; b; c])).
  { apply (namespace_of_chain tbl cls [nc; nb; na] CTunableParameters rest);
      [exact Hmro | reflexivity]. }
  split; [exact Hgen|]. split.
  - intros Ha Hb Hc. rewrite Hgen. simpl.
    apply String.eqb_eq in Ha. apply String.eqb_neq in Hb, Hc.
    rewrite Ha, Hb, Hc. simpl. reflexivity.
  - intros Ha Hb Hc. rewrite Hgen. simpl.
    apply String.eqb_neq in Ha, Hb, Hc.
    rewrite Ha, Hb, Hc. simpl. reflexivity.
Qed.

Lemma namespace_of_three_level_chain_witness :
  _calculate_namespace_from_class params_table Preprocess = "model.preprocess".
Proof.
  destruct (namespace_of_three_level_chain params_table Preprocess 0 1 2 [CObject])
    as [_ [H _]]; [vm_compute; reflexivity|].
  apply H; [vm_compute; reflexivity | vm_compute; discriminate | vm_compute; discriminate].
Defined.

(** C5, as stated, fails: with the chain [Base, Main, Model] the most
    general class is not the one named main, yet the namespace is not
    "base.main.model": the name "main" is dropped from the middle. *)
Lemma namespace_root_name_inside_chain :
  mro_of based_table based_Model =
    [CUser 2; CUser 1; CUser 0; CTunableParameters; CObject]
  /\ map (name_of based_table) [CUser 0; CUser 1; CUser 2] = ["Base"; "Main"; "Model"]
  /\ lower (name_of based_table (CUser 0)) <> "main"
  /\ _calculate_namespace_from_class based_table based_Model = "base.model"
  /\ _calculate_namespace_from_class based_table based_Model <> "base.main.model".
Proof.
  repeat split; try (vm_compute; reflexivity); vm_compute; discriminate.
Qed.

End NamespaceSpec.

(* ===================================================================== *)
(** ** Field collection *)
(* ===================================================================== *)

Module FieldsSpec.
Import Py Parameters Samples DictFacts.

(** One annotation leaves every other name alone. *)
Lemma collect_name_other (tbl : ClassTable) (base : ClassRef)
    (fields : dict Obj) (name name' : string) :
  name' <> name ->
  dict_get (collect_name tbl base fields name') name = dict_get fields name.
Proof.
  intros Hne. unfold collect_name.
  destruct (startswith_underscore name'); [reflexivity|].
  destruct (negb (is_none (class_getattr_or_none tbl base name'))); [|reflexivity].
  now apply dict_get_set_ne.
Qed.

(** One annotation of a public name: stored unless it resolves to [None]. *)
Lemma collect_name_same (tbl : ClassTable) (base : ClassRef)
    (fields : dict Obj) (name : string) :
  startswith_underscore name = false ->
  dict_get (collect_name tbl base fields name) name =
  if is_none (class_getattr_or_none tbl base name)
  then dict_get fields name
  else Some (class_getattr_or_none tbl base name).
Proof.
  intros Hpub. unfold collect_name. rewrite Hpub.
  destruct (is_none (class_getattr_or_none tbl base name)); simpl;
    [reflexivity | apply dict_get_set_eq].
Qed.

Lemma collect_names_absent (tbl : ClassTable) (base : ClassRef)
    (names : list string) (fields : dict Obj) (name : string) :
  ~ In name names ->
  dict_get (fold_left (collect_name tbl base) names fields) name = dict_get fields name.
Proof.
  revert fields. induction names as [|n r IH]; intros fields Hnot; simpl; [reflexivity|].
  rewrite IH by (intros H; apply Hnot; now right).
  apply collect_name_other. intros ->. apply Hnot. now left.
Qed.

Lemma collect_names_present (tbl : ClassTable) (base : ClassRef)
    (names : list string) (fields : dict Obj) (name : string) :
  startswith_underscore name = false ->
  In name names ->
  dict_get (fold_left (collect_name tbl base) names fields) name =
  if is_none (class_getattr_or_none tbl base name)
  then dict_get fields name
  else Some (class_getattr_or_none tbl base name).
Proof.
  intros Hpub. revert fields.
  induction names as [|n r IH]; intros fields Hin; simpl; [contradiction|].
  destruct (in_dec string_dec name r) as [Hr | Hr].
  - rewrite IH by assumption.
    destruct (is_none (class_getattr_or_none tbl base name)) eqn:E; [|reflexivity].
    destruct (string_dec n name) as [-> | Hne].
    + rewrite collect_name_same by assumption. now rewrite E.
    + now apply collect_name_other.
  - destruct Hin as [-> | Hin]; [|contradiction].
    rewrite collect_names_absent by assumption.
    now apply collect_name_same.
Qed.

(** What one level does to one public name. *)
Lemma collect_level_get (tbl : ClassTable) (base : ClassRef)
    (fields : dict Obj) (name : string) :
  startswith_underscore name = false ->
  dict_get (collect_level tbl fields base) name =
  if negb (is_root_marker base)
     && mem name (annotations_of tbl base)
     && negb (is_none (class_getattr_or_none tbl base name))
  then Some (class_getattr_or_none tbl base name)
  else dict_get fields name.
Proof.
  intros Hpub. unfold collect_level.
  destruct (is_root_marker base); simpl; [reflexivity|].
  destruct (mem name (annotations_of tbl base)) eqn:Hm; simpl.
  - apply mem_true_iff in Hm. rewrite collect_names_present by assumption.
    now destruct (is_none _).
  - apply mem_false_iff in Hm. now apply collect_names_absent.
Qed.

(** A level that does not declare the name, or is a root marker, leaves
    it alone. *)
Lemma collect_levels_silent (tbl : ClassTable) (levels : list ClassRef)
    (fields : dict Obj) (name : string) :
  startswith_underscore name = false ->
  (forall b, In b levels -> is_root_marker b = false ->
             ~ In name (annotations_of tbl b)) ->
  dict_get (fold_left (collect_level tbl) levels fields) name = dict_get fields name.
Proof.
  intros Hpub. revert fields.
  induction levels as [|b r IH]; intros fields Hsilent; simpl; [reflexivity|].
  rewrite IH by (intros b' Hb'; apply Hsilent; now right).
  rewrite collect_level_get by assumption.
  destruct (is_root_marker b) eqn:Hm; simpl; [reflexivity|].
  assert (Hn : mem name (annotations_of tbl b) = false).
  { apply mem_false_iff. apply Hsilent; [now left | assumption]. }
  now rewrite Hn.
Qed.

(** Levels whose value for the name is [None] wherever they declare it
    leave it alone as well. *)
Lemma collect_levels_none (tbl : ClassTable) (levels : list ClassRef)
    (fields : dict Obj) (name : string) :
  startswith_underscore name = false ->
  (forall b, In b levels -> is_root_marker b = false ->
             In name (annotations_of tbl b) ->
             class_getattr_or_none tbl b name = PyNone) ->
  dict_get (fold_left (collect_level tbl) levels fields) name = dict_get fields name.
Proof.
  intros Hpub. revert fields.
  induction levels as [|b r IH]; intros fields Hnone; simpl; [reflexivity|].
  rewrite IH by (intros b' Hb'; apply Hnone; now right).
  rewrite collect_level_get by assumption.
  destruct (is_root_marker b) eqn:Hm; simpl; [reflexivity|].
  destruct (mem name (annotations_of tbl b)) eqn:Hd; simpl; [|reflexivity].
  apply mem_true_iff in Hd.
  rewrite (Hnone b); [reflexivity | now left | assumption | assumption].
Qed.

(** No stored value is [None]. *)
Lemma collect_name_none_free (tbl : ClassTable) (base : ClassRef)
    (fields : dict Obj) (name : string) :
  (forall n, dict_get fields n <> Some PyNone) ->
  forall n, dict_get (collect_name tbl base fields name) n <> Some PyNone.
Proof.
  intros Hnf n. unfold collect_name.
  destruct (startswith_underscore name); [apply Hnf|].
  destruct (is_none (class_getattr_or_none tbl base name)) eqn:E; simpl; [apply Hnf|].
  destruct (string_dec name n) as [-> | Hne].
  - rewrite dict_get_set_eq. intros [= H]. rewrite H in E. discriminate.
  - rewrite dict_get_set_ne by assumption. apply Hnf.
Qed.

Lemma collect_level_none_free (tbl : ClassTable) (base : ClassRef) (fields : dict Obj) :
  (forall n, dict_get fields n <> Some PyNone) ->
  forall n, dict_get (collect_level tbl fields base) n <> Some PyNone.
Proof.
  unfold collect_level. destruct (is_root_marker base); [easy|].
  generalize (annotations_of tbl base) as names. intros names. revert fields.
  induction names as [|n r IH]; intros fields Hnf; simpl; [assumption|].
  apply IH. now apply collect_name_none_free.
Qed.

Lemma collect_levels_none_free (tbl : ClassTable) (levels : list ClassRef)
    (fields : dict Obj) :
  (forall n, dict_get fields n <> Some PyNone) ->
  forall n, dict_get (fold_left (collect_level tbl) levels fields) n <> Some PyNone.
Proof.
  revert fields. induction levels as [|b r IH]; intros fields Hnf; simpl; [assumption|].
  apply IH. now apply collect_level_none_free.
Qed.

(** C6 (as amended): when the most specific ancestor that declares a public
    field name has a class-level value for it that is not [None], the
    collected field set maps the name to that value, whatever the more
    general ancestors declare. *)
Theorem collect_most_specific_declaration
    (tbl : ClassTable) (cls base : ClassRef) (general specific : list ClassRef)
    (name : string) :
  startswith_underscore name = false ->
  rev (mro_of tbl cls) = general ++ base :: specific ->
  is_root_marker base = false ->
  In name (annotations_of tbl base) ->
  (forall b, In b specific -> is_root_marker b = false ->
             ~ In name (annotations_of tbl b)) ->
  class_getattr_or_none tbl base name <> PyNone ->
  dict_get (_collect_fields_from_class tbl cls) name =
  Some (class_getattr_or_none tbl base name).
Proof.
  intros Hpub Hmro Hbase Hdecl Hspecific Hval.
  unfold _collect_fields_from_class.
  rewrite Hmro, fold_left_app. simpl.
  rewrite collect_levels_silent by assumption.
  rewrite collect_level_get by assumption.
  rewrite Hbase. apply mem_true_iff in Hdecl. rewrite Hdecl. simpl.
  destruct (class_getattr_or_none tbl base name); simpl; congruence.
Qed.

Lemma collect_most_specific_declaration_witness :
  dict_get (_collect_fields_from_class train_body_table (CUser 3)) "dropout" =
  Some (Field 42 (value 43)).
Proof.
  apply (collect_most_specific_declaration train_body_table (CUser 3) (CUser 3)
           [CObject; CTunableParameters; CUser 0] [] "dropout").
  - reflexivity.
  - vm_compute. reflexivity.
  - reflexivity.
  - vm_compute. right. now left.
  - intros b [].
  - vm_compute. discriminate.
Defined.

(** C6, as stated, fails: [dropout] is declared by [Main] and redeclared by
    [Model] with the value [None]; the field set collected for [Model]
    maps it to the default of [Main], the more general declaration. *)
Lemma collect_general_declaration_survives :
  In "dropout" (annotations_of model_body_table (CUser 0))
  /\ In "dropout" (annotations_of model_body_table (CUser 1))
  /\ own_attr model_body_table "dropout" (CUser 0) = Some (value 13)
  /\ own_attr model_body_table "dropout" (CUser 1) = Some PyNone
  /\ def_model = (_register_parameter_class model_body_table (CUser 1), CUser 1)
  /\ dict_get (_collect_fields_from_class model_body_table (CUser 1)) "dropout" =
     Some (value 13)
  /\ dict_get (get_parameter_class_fields params_table Model) "dropout" =
     Some (value 13).
Proof.
  repeat split; try (vm_compute; reflexivity); vm_compute; auto.
Qed.

(** A name that starts with an underscore is never stored. *)
Lemma collect_levels_private (tbl : ClassTable) (levels : list ClassRef)
    (fields : dict Obj) (name : string) :
  startswith_underscore name = true ->
  dict_get (fold_left (collect_level tbl) levels fields) name = dict_get fields name.
Proof.
  intros Hpriv. revert fields.
  induction levels as [|b r IH]; intros fields; simpl; [reflexivity|].
  rewrite IH. unfold collect_level.
  destruct (is_root_marker b); [reflexivity|].
  generalize (annotations_of tbl b) as names. intros names. revert fields.
  induction names as [|n ns IHn]; intros fields; simpl; [reflexivity|].
  rewrite IHn. unfold collect_name.
  destruct (startswith_underscore n) eqn:E; [reflexivity|].
  destruct (negb (is_none (class_getattr_or_none tbl b n))); [|reflexivity].
  apply dict_get_set_ne. intros ->. congruence.
Qed.

(** C9: field collection never stores a [None] value.  A name whose
    class-level value is [None] at every level that declares it is absent
    from the collected field set; and when the most specific level that
    declares a name has the value [None] for it, the collected entry is the
    one that the more general levels alone produce. *)
Theorem collect_omits_none_valued_fields
    (tbl : ClassTable) (cls : ClassRef) (name : string) :
  dict_get (_collect_fields_from_class tbl cls) name <> Some PyNone
  /\ ((forall b, In b (mro_of tbl cls) -> is_root_marker b = false ->
                 In name (annotations_of tbl b) ->
                 class_getattr_or_none tbl b name = PyNone) ->
      dict_get (_collect_fields_from_class tbl cls) name = None)
  /\ (forall (general specific : list ClassRef) (base : ClassRef),
        rev (mro_of tbl cls) = general ++ base :: specific ->
        is_root_marker base = false ->
        In name (annotations_of tbl base) ->
        (forall b, In b specific -> is_root_marker b = false ->
                   ~ In name (annotations_of tbl b)) ->
        class_getattr_or_none tbl base name = PyNone ->
        dict_get (_collect_fields_from_class tbl cls) name =
        dict_get (fold_left (collect_level tbl) general []) name).
Proof.
  unfold _collect_fields_from_class. split; [|split].
  - apply collect_levels_none_free. intros n. discriminate.
  - intros Hnone.
    destruct (startswith_underscore name) eqn:Hpub.
    + now rewrite collect_levels_private.
    + rewrite collect_levels_none; [reflexivity | assumption |].
      intros b Hb. apply Hnone. now apply in_rev.
  - intros general specific base Hmro Hbase Hdecl Hspecific Hval.
    destruct (startswith_underscore name) eqn:Hpub.
    + now rewrite !collect_levels_private.
    + rewrite Hmro, fold_left_app. simpl.
      rewrite collect_levels_silent by assumption.
      rewrite collect_level_get by assumption.
      rewrite Hval. simpl. now rewrite andb_false_r.
Qed.

Lemma collect_omits_none_valued_fields_witness :
  dict_get (_collect_fields_from_class model_body_table (CUser 1)) "dropout" =
  Some (value 13).
Proof.
  destruct (collect_omits_none_valued_fields model_body_table (CUser 1) "dropout")
    as [_ [_ H]].
  rewrite (H [CObject; CTunableParameters; CUser 0] [] (CUser 1)).
  - vm_compute. reflexivity.
  - vm_compute. reflexivity.
  - reflexivity.
  - vm_compute. right. now left.
  - intros b [].
  - vm_compute. reflexivity.
Defined.

End FieldsSpec.

(* ===================================================================== *)
(** ** Registration of parameter classes *)
(* ===================================================================== *)

Module ClassRegistrationSpec.
Import Py Parameters Samples DictFacts.

Section WithRuntime.
Context {RT : Runtime}.

Lemma nth_error_update_nth {A} (l : list A) (n m : nat) (g : A -> A) :
  nth_error (update_nth l n g) m =
  if Nat.eqb n m then option_map g (nth_error l m) else nth_error l m.
Proof.
  revert n m. induction l as [|a r IH]; intros n m; simpl.
  - destruct m; simpl; now destruct (Nat.eqb n _).
  - destruct n, m; simpl; try reflexivity. apply IH.
Qed.

Lemma lookup_update_class (tbl : ClassTable) (c c' : ClassRef) (g : PyClass -> PyClass) :
  lookup_class (update_class tbl c g) c' =
  match c, c' with
  | CUser n, CUser m =>
      if Nat.eqb n m then option_map g (lookup_class tbl c') else lookup_class tbl c'
  | _, _ => lookup_class tbl c'
  end.
Proof.
  destruct c as [| |n], c' as [| |m]; simpl; try reflexivity.
  apply nth_error_update_nth.
Qed.

(** An update that keeps names and MROs keeps every computed namespace. *)
Lemma update_class_name (tbl : ClassTable) (c c' : ClassRef) (g : PyClass -> PyClass) :
  (forall k, cls_name (g k) = cls_name k) ->
  name_of (update_class tbl c g) c' = name_of tbl c'.
Proof.
  intros Hg. unfold name_of. rewrite lookup_update_class.
  destruct c as [| |n], c' as [| |m]; try reflexivity.
  destruct (Nat.eqb n m); [|reflexivity].
  destruct (lookup_class tbl (CUser m)); simpl; [apply Hg | reflexivity].
Qed.

Lemma update_class_mro (tbl : ClassTable) (c c' : ClassRef) (g : PyClass -> PyClass) :
  (forall k, cls_mro (g k) = cls_mro k) ->
  mro_of (update_class tbl c g) c' = mro_of tbl c'.
Proof.
  intros Hg. unfold mro_of. rewrite lookup_update_class.
  destruct c as [| |n], c' as [| |m]; try reflexivity.
  destruct (Nat.eqb n m); [|reflexivity].
  destruct (lookup_class tbl (CUser m)); simpl; [apply Hg | reflexivity].
Qed.

Lemma hierarchy_names_ext (tbl tbl' : ClassTable) (mro : list ClassRef) :
  (forall c, name_of tbl' c = name_of tbl c) ->
  hierarchy_names tbl' mro = hierarchy_names tbl mro.
Proof.
  intros Hn. induction mro as [|b r IH]; simpl; [reflexivity|].
  destruct (is_root_marker b); [reflexivity|]. now rewrite Hn, IH.
Qed.

Lemma calculate_namespace_ext (tbl tbl' : ClassTable) (cls : ClassRef) :
  (forall c, name_of tbl' c = name_of tbl c) ->
  mro_of tbl' cls = mro_of tbl cls ->
  _calculate_namespace_from_class tbl' cls = _calculate_namespace_from_class tbl cls.
Proof.
  intros Hn Hm. unfold _calculate_namespace_from_class.
  now rewrite Hm, (hierarchy_names_ext tbl tbl').
Qed.

(** What the attribute set-up keeps of every class. *)
Lemma setup_keeps (tbl : ClassTable) (cls : ClassRef) (fields : dict Obj) (c : ClassRef) :
  let tbl' := fold_left (fun t kv => _setup_class_attribute_access t cls (fst kv) (snd kv))
                        fields tbl in
  name_of tbl' c = name_of tbl c
  /\ mro_of tbl' c = mro_of tbl c
  /\ option_map cls_tunablex_namespace (lookup_class tbl' c) =
     option_map cls_tunablex_namespace (lookup_class tbl c).
Proof.
  revert tbl. induction fields as [|kv r IH]; intros tbl; simpl; [auto|].
  destruct (IH (_setup_class_attribute_access tbl cls (fst kv) (snd kv)))
    as [Hn [Hm Hs]].
  rewrite Hn, Hm, Hs.
  unfold _setup_class_attribute_access, class_setattr.
  rewrite update_class_name, update_class_mro by reflexivity.
  repeat split. rewrite lookup_update_class.
  destruct cls as [| |n], c as [| |m]; try reflexivity.
  destruct (Nat.eqb n m); [|reflexivity].
  now destruct (lookup_class tbl (CUser m)).
Qed.

(** Once a class is defined, the namespace recorded on it is the one
    computed from its hierarchy. *)
Lemma define_class_records_namespace (tbl : ClassTable) (name : string)
    (parents_mro : list ClassRef) (annotations : list string) (body : dict Obj) :
  let tbl' := fst (define_class tbl name parents_mro annotations body) in
  let cls := snd (define_class tbl name parents_mro annotations body) in
  get_parameter_class_namespace tbl' cls = _calculate_namespace_from_class tbl' cls.
Proof.
  unfold define_class. cbn [fst snd]. cbv zeta. unfold _register_parameter_class.
  set (k := mkClass name (CUser (length tbl) :: parents_mro) annotations body None None).
  set (cls := CUser (length tbl)).
  set (set_meta := fun k0 : PyClass => mkClass _ _ _ _ _ _).
  set (tbl1 := update_class (tbl ++ [k]) cls set_meta).
  set (fields := _collect_fields_from_class (tbl ++ [k]) cls).
  assert (Hk : lookup_class (tbl ++ [k]) cls = Some k).
  { simpl. rewrite nth_error_app2 by lia. now rewrite Nat.sub_diag. }
  assert (Hname1 : forall c, name_of tbl1 c = name_of (tbl ++ [k]) c).
  { intros c. now apply update_class_name. }
  assert (Hmro1 : forall c, mro_of tbl1 c = mro_of (tbl ++ [k]) c).
  { intros c. now apply update_class_mro. }
  assert (Hkeep := fun c => setup_keeps tbl1 cls fields c). simpl in Hkeep.
  set (tbl' := fold_left _ fields tbl1) in *.
  assert (Hcalc : _calculate_namespace_from_class tbl' cls =
                  _calculate_namespace_from_class (tbl ++ [k]) cls).
  { apply calculate_namespace_ext.
    - intros c. destruct (Hkeep c) as [Hn _]. now rewrite Hn, Hname1.
    - destruct (Hkeep cls) as [_ [Hm _]]. now rewrite Hm, Hmro1. }
  rewrite Hcalc. unfold get_parameter_class_namespace.
  destruct (Hkeep cls) as [_ [Hm Hs]].
  rewrite Hm, Hmro1. unfold mro_of at 1. rewrite Hk.
  cbn [cls_mro k first_some]. fold cls.
  assert (Hl1 : lookup_class tbl1 cls = Some (set_meta k)).
  { unfold tbl1. rewrite lookup_update_class, Hk. unfold cls.
    now rewrite Nat.eqb_refl. }
  rewrite Hl1 in Hs.
  destruct (lookup_class tbl' cls) as [k'|]; cbn [option_map] in Hs; [|discriminate].
  injection Hs as Hs. cbv beta iota. rewrite Hs. reflexivity.
Qed.

(** *** Field defaults become class attributes *)

Lemma collect_keys_NoDup (tbl : ClassTable) (cls : ClassRef) :
  NoDup (dict_keys (_collect_fields_from_class tbl cls)).
Proof.
  unfold _collect_fields_from_class.
  assert (H : forall levels fields,
             NoDup (dict_keys fields) ->
             NoDup (dict_keys (fold_left (collect_level tbl) levels fields))).
  { induction levels as [|b r IH]; intros fields Hnd; simpl; [assumption|].
    apply IH. unfold collect_level. destruct (is_root_marker b); [assumption|].
    generalize (annotations_of tbl b) as names. intros names. revert fields Hnd.
    induction names as [|n ns IHn]; intros fields Hnd; simpl; [assumption|].
    apply IHn. unfold collect_name.
    destruct (startswith_underscore n); [assumption|].
    destruct (negb (is_none (class_getattr_or_none tbl b n))); [|assumption].
    now apply dict_set_NoDup. }
  apply H. constructor.
Qed.

Lemma collect_keys_public (tbl : ClassTable) (cls : ClassRef) (n : string) :
  In n (dict_keys (_collect_fields_from_class tbl cls)) ->
  startswith_underscore n = false.
Proof.
  intros Hin. apply dict_mem_keys in Hin. rewrite dict_mem_get in Hin.
  destruct (startswith_underscore n) eqn:E; [|reflexivity].
  unfold _collect_fields_from_class in Hin.
  rewrite FieldsSpec.collect_levels_private in Hin by assumption.
  discriminate.
Qed.

Lemma fold_dict_set_other (g : Obj -> Obj) (l d : dict Obj) (n : string) :
  ~ In n (dict_keys l) ->
  dict_get (fold_left (fun d kv => dict_set d (fst kv) (g (snd kv))) l d) n =
  dict_get d n.
Proof.
  revert d. induction l as [|[k v] r IH]; intros d Hn; simpl; [reflexivity|].
  rewrite IH by (intros H; apply Hn; now right).
  apply dict_get_set_ne. intros ->. apply Hn. now left.
Qed.

Lemma fold_dict_set_get (g : Obj -> Obj) (l d : dict Obj) (n : string) (x : Obj) :
  NoDup (dict_keys l) -> In (n, x) l ->
  dict_get (fold_left (fun d kv => dict_set d (fst kv) (g (snd kv))) l d) n =
  Some (g x).
Proof.
  revert d. induction l as [|[k v] r IH]; intros d Hnd Hin; simpl; [contradiction|].
  inversion Hnd as [|? ? Hk Hr]; subst.
  destruct Hin as [[= -> ->] | Hin].
  - rewrite fold_dict_set_other by assumption. apply dict_get_set_eq.
  - now apply IH.
Qed.

(** The set-up loop, seen on the dict of the class it works on. *)
Lemma setup_dict (cls_n : nat) (fields : dict Obj) (tbl : ClassTable) (k : PyClass) :
  nth_error tbl cls_n = Some k ->
  exists k',
    nth_error
      (fold_left (fun t kv => _setup_class_attribute_access t (CUser cls_n) (fst kv) (snd kv))
                 fields tbl) cls_n = Some k'
    /\ cls_tunablex_fields k' = cls_tunablex_fields k
    /\ cls_dict k' =
       fold_left (fun d kv => dict_set d (fst kv)
                                (match getattr (snd kv) "default" with
                                 | Some x => x
                                 | None => snd kv
                                 end))
                 fields (cls_dict k).
Proof.
  revert tbl k. induction fields as [|kv r IH]; intros tbl k Hk; simpl.
  - exists k. auto.
  - edestruct (IH (_setup_class_attribute_access tbl (CUser cls_n) (fst kv) (snd kv)))
      as [k' [Hk' [Hf Hd]]].
    + unfold _setup_class_attribute_access, class_setattr, update_class.
      rewrite nth_error_update_nth, Nat.eqb_refl, Hk. reflexivity.
    + exists k'. split; [exact Hk'|]. split; [exact Hf | exact Hd].
Qed.

(** After its definition, a class holds the default of each collected
    field as a public attribute of its own. *)
Lemma define_class_exposes_defaults (tbl : ClassTable) (name : string)
    (parents_mro : list ClassRef) (annotations : list string) (body : dict Obj)
    (n : string) (info : Obj) :
  let tbl' := fst (define_class tbl name parents_mro annotations body) in
  let cls := snd (define_class tbl name parents_mro annotations body) in
  In (n, info) (get_parameter_class_fields tbl' cls) ->
  startswith_underscore n = false
  /\ own_attr tbl' n cls =
     Some (match getattr info "default" with Some d => d | None => info end).
Proof.
  unfold define_class. cbn [fst snd]. cbv zeta. unfold _register_parameter_class.
  set (k := mkClass name (CUser (length tbl) :: parents_mro) annotations body None None).
  set (fields := _collect_fields_from_class (tbl ++ [k]) (CUser (length tbl))).
  set (set_meta := fun k0 : PyClass => mkClass _ _ _ _ _ _).
  set (tbl1 := update_class (tbl ++ [k]) (CUser (length tbl)) set_meta).
  assert (Hk : nth_error (tbl ++ [k]) (length tbl) = Some k).
  { rewrite nth_error_app2 by lia. now rewrite Nat.sub_diag. }
  assert (Hl1 : nth_error tbl1 (length tbl) = Some (set_meta k)).
  { unfold tbl1, update_class. now rewrite nth_error_update_nth, Nat.eqb_refl, Hk. }
  destruct (setup_dict (length tbl) fields tbl1 (set_meta k) Hl1) as [k' [Hk' [Hf Hd]]].
  set (tbl' := fold_left _ fields tbl1) in *.
  assert (Hmro : mro_of tbl' (CUser (length tbl)) = CUser (length tbl) :: parents_mro).
  { destruct (setup_keeps tbl1 (CUser (length tbl)) fields (CUser (length tbl)))
      as [_ [Hm _]].
    fold tbl' in Hm. rewrite Hm. unfold tbl1. rewrite update_class_mro by reflexivity.
    unfold mro_of. cbn [lookup_class]. now rewrite Hk. }
  assert (Hfields : get_parameter_class_fields tbl' (CUser (length tbl)) = fields).
  { unfold get_parameter_class_fields. rewrite Hmro. cbn [first_some lookup_class].
    rewrite Hk', Hf. reflexivity. }
  rewrite Hfields. intros Hin. split.
  - apply (collect_keys_public (tbl ++ [k]) (CUser (length tbl))).
    unfold dict_keys. apply in_map_iff. exists (n, info). auto.
  - unfold own_attr. cbn [lookup_class]. rewrite Hk', Hd.
    apply (fold_dict_set_get
             (fun o => match getattr o "default" with Some x => x | None => o end));
      [apply collect_keys_NoDup | exact Hin].
Qed.

End WithRuntime.

End ClassRegistrationSpec.

(* ===================================================================== *)
(** ** The wrapper: call-time resolution *)
(* ===================================================================== *)

Module WrapperSpec.
Import Py Parameters Inspect Registry Decorators Samples DictFacts MoreSamples.

Section WithRuntime.
Context {RT : Runtime}.

(** *** The merge loop *)

Section MergeLoop.
Variable sig : Signature.

Lemma merge_matching_mem (data acc : dict Obj) (k : string) :
  dict_mem (merge_matching sig acc data) k =
  dict_mem acc k || (in_parameters sig k && dict_mem data k).
Proof.
  unfold merge_matching. revert acc.
  induction data as [|[k' v'] r IH]; intros acc; simpl.
  - now rewrite andb_false_r, orb_false_r.
  - rewrite IH. unfold dict_mem at 4. simpl. fold (dict_mem r k).
    destruct (in_parameters sig k') eqn:Hp.
    + rewrite dict_mem_set.
      destruct (String.eqb k k') eqn:E.
      * apply String.eqb_eq in E. subst k'. rewrite String.eqb_refl, Hp. simpl.
        now rewrite !orb_true_r.
      * rewrite String.eqb_sym, E. reflexivity.
    + destruct (String.eqb k k') eqn:E; [|reflexivity].
      apply String.eqb_eq in E. subst k'. rewrite Hp. reflexivity.
Qed.

(** The value a key ends with: its last binding in [data] when the key is
    a parameter name, else what the accumulator had. *)
Lemma merge_matching_get (data acc : dict Obj) (k : string) :
  dict_get (merge_matching sig acc data) k =
  if in_parameters sig k
  then match dict_get (rev data) k with
       | Some v => Some v
       | None => dict_get acc k
       end
  else dict_get acc k.
Proof.
  unfold merge_matching. revert acc.
  induction data as [|[k' v'] r IH]; intros acc; simpl.
  - now destruct (in_parameters sig k).
  - rewrite IH, dict_get_app. simpl.
    destruct (in_parameters sig k) eqn:Hk.
    + destruct (dict_get (rev r) k); [reflexivity|].
      destruct (String.eqb k k') eqn:E.
      * apply String.eqb_eq in E. subst k'. rewrite Hk. apply dict_get_set_eq.
      * apply String.eqb_neq in E.
        destruct (in_parameters sig k'); [|reflexivity].
        apply dict_get_set_ne. congruence.
    + destruct (in_parameters sig k') eqn:Hk'; [|reflexivity].
      apply dict_get_set_ne. intros ->. congruence.
Qed.

(** Keys that are no parameter names are dropped. *)
Lemma merge_matching_only_parameters (data : dict Obj) (k : string) :
  dict_mem (merge_matching sig [] data) k = true -> in_parameters sig k = true.
Proof.
  rewrite merge_matching_mem. simpl.
  destruct (in_parameters sig k); [reflexivity | discriminate].
Qed.

Lemma merge_matching_unmatched (data acc : dict Obj) :
  (forall k, dict_mem data k = true -> in_parameters sig k = false) ->
  merge_matching sig acc data = acc.
Proof.
  unfold merge_matching. revert acc.
  induction data as [|[k' v'] r IH]; intros acc Hun; simpl; [reflexivity|].
  rewrite (Hun k').
  - apply IH. intros k Hk. apply Hun.
    unfold dict_mem, mem in *. simpl. rewrite Hk. apply orb_true_r.
  - unfold dict_mem, mem. simpl. now rewrite String.eqb_refl.
Qed.

End MergeLoop.

(** *** The call *)

Lemma call2_conflict (sig : Signature) (args : list Obj) (extra kwargs : dict Obj)
    (x : string) :
  dict_mem extra x = true -> dict_mem kwargs x = true ->
  call2 sig args extra kwargs = Raise TypeError.
Proof.
  intros Hx Hk. unfold call2.
  assert (H : existsb (fun k => dict_mem kwargs k) (dict_keys extra) = true).
  { apply existsb_exists. exists x. split; [|assumption].
    now apply dict_mem_keys. }
  now rewrite H.
Qed.


(** An added keyword that the signature refuses beside the positional
    arguments makes the call raise. *)
Lemma call2_refused (sig : Signature) (args : list Obj) (extra kwargs : dict Obj)
    (x : string) :
  dict_mem extra x = true ->
  keyword_accepted sig (length args) x = false ->
  call2 sig args extra kwargs = Raise TypeError.
Proof.
  intros Hx Hr. unfold call2.
  destruct (existsb (fun k => dict_mem kwargs k) (dict_keys extra)); [reflexivity|].
  assert (H : forallb (keyword_accepted sig (length args)) (dict_keys extra) = false).
  { apply not_true_is_false. intros H. rewrite forallb_forall in H.
    rewrite (H x) in Hr; [discriminate | now apply dict_mem_keys]. }
  now rewrite H.
Qed.

(** The call is made when each added keyword is new to the caller's
    keywords and accepted by the signature. *)
Lemma call2_accepted (sig : Signature) (args : list Obj) (extra kwargs : dict Obj) :
  (forall k, dict_mem extra k = true ->
             dict_mem kwargs k = false
             /\ keyword_accepted sig (length args) k = true) ->
  call2 sig args extra kwargs = Ok (mkCall args (extra ++ kwargs)).
Proof.
  intros Hd. unfold call2.
  assert (H1 : existsb (fun k => dict_mem kwargs k) (dict_keys extra) = false).
  { apply not_true_is_false. intros H. apply existsb_exists in H.
    destruct H as [k [Hin Hk]]. apply dict_mem_keys in Hin.
    destruct (Hd k Hin) as [Hno _]. congruence. }
  assert (H2 : forallb (keyword_accepted sig (length args)) (dict_keys extra) = true).
  { apply forallb_forall. intros k Hin. apply dict_mem_keys in Hin.
    now destruct (Hd k Hin). }
  now rewrite H1, H2.
Qed.

(** And only then. *)
Lemma call2_made (sig : Signature) (args : list Obj) (extra kwargs : dict Obj)
    (call : Call) :
  call2 sig args extra kwargs = Ok call ->
  call = mkCall args (extra ++ kwargs)
  /\ forall k, dict_mem extra k = true ->
       dict_mem kwargs k = false
       /\ keyword_accepted sig (length args) k = true.
Proof.
  unfold call2.
  destruct (existsb (fun k => dict_mem kwargs k) (dict_keys extra)) eqn:E1;
    [discriminate|].
  destruct (forallb (keyword_accepted sig (length args)) (dict_keys extra)) eqn:E2;
    [|discriminate].
  cbn [negb]. intros [= <-]. split; [reflexivity|].
  intros k Hk. split.
  - destruct (dict_mem kwargs k) eqn:Hkw; [|reflexivity].
    assert (Hex : existsb (fun k => dict_mem kwargs k) (dict_keys extra) = true).
    { apply existsb_exists. exists k. split; [now apply dict_mem_keys | exact Hkw]. }
    congruence.
  - rewrite forallb_forall in E2. apply E2. now apply dict_mem_keys.
Qed.

Lemma call2_nothing (sig : Signature) (args : list Obj) (kwargs : dict Obj) :
  call2 sig args [] kwargs = call1 args kwargs.
Proof. reflexivity. Qed.

(** *** The explicit override *)

(** An explicit keyword argument that the override also supplies makes the
    call raise: both mappings are unpacked into one call. *)
Lemma wrapper_override_conflict (f : Function) (ns : option string) (reg : Registry)
    (active cfg : Obj) (args : list Obj) (kwargs data : dict Obj) (x : string) :
  is_none cfg = false ->
  as_data cfg = Ok data ->
  in_parameters (fn_sig f) x = true ->
  dict_mem data x = true ->
  dict_mem kwargs x = true ->
  wrapper f ns reg active args cfg kwargs = Raise TypeError.
Proof.
  intros Hcfg Hdata Hp Hx Hk. unfold wrapper. rewrite Hcfg, Hdata. simpl.
  apply (call2_conflict _ _ _ _ x); [|assumption].
  rewrite merge_matching_mem, Hp, Hx. reflexivity.
Qed.

(** The same with the active configuration in the place of the override,
    for a function decorated with an explicit namespace. *)
Lemma wrapper_active_conflict (f : Function) (ns : string) (reg : Registry)
    (active : Obj) (args : list Obj) (kwargs data : dict Obj) (x : string) :
  is_none active = false ->
  is_none (_resolve_nested_section active ns) = false ->
  as_data (_resolve_nested_section active ns) = Ok data ->
  in_parameters (fn_sig f) x = true ->
  dict_mem data x = true ->
  dict_mem kwargs x = true ->
  wrapper f (Some ns) reg active args PyNone kwargs = Raise TypeError.
Proof.
  intros Hact Hsec Hdata Hp Hx Hk. unfold wrapper, merge_section. simpl.
  rewrite Hact, Hsec, Hdata. simpl.
  assert (Hm : dict_mem (merge_matching (fn_sig f) [] data) x = true).
  { rewrite merge_matching_mem, Hp, Hx. reflexivity. }
  destruct (merge_matching (fn_sig f) [] data) eqn:E; [discriminate|].
  simpl. rewrite <- E in *. now apply (call2_conflict _ _ _ _ x).
Qed.

End WithRuntime.

(** C1 (the code at the failing input): [scale(x=5, cfg={"x": 9})] does not
    reach the original function with [x=5]; the call raises TypeError, and
    so it does when the value 9 comes from the active configuration. *)
Theorem explicit_keyword_with_configured_value_raises :
  wrapper scale (Some "scaling") [] PyNone []
          (PyDict 300 [("x", value 9)]) [("x", value 5)] = Raise TypeError
  /\ wrapper scale (Some "scaling") [] scaling_config []
             PyNone [("x", value 5)] = Raise TypeError.
Proof. split; vm_compute; reflexivity. Qed.

Section WithRuntime.
Context {RT : Runtime}.

(** C10: with an explicit [cfg] override the result does not depend on the
    active configuration, on the registry or on the decorator's namespace;
    the injected keys are those of the override that name any parameter of
    the signature; a parameter of the signature that the override names is
    passed with the override's value, whether or not the decorator selected
    it, when the caller gives none of the injected names as a keyword and
    the signature accepts each of them as a keyword beside the positional
    arguments; and the call raises TypeError when an injected name is
    given by the caller too or is refused by the signature. *)
Theorem override_filters_against_signature
    (f : Function) (ns : option string) (reg : Registry) (active cfg : Obj)
    (args : list Obj) (kwargs : dict Obj) :
  is_none cfg = false ->
  (forall ns' reg' active',
      wrapper f ns reg active args cfg kwargs =
      wrapper f ns' reg' active' args cfg kwargs)
  /\ wrapper f ns reg active args cfg kwargs =
     (data <- as_data cfg ;;
      call2 (fn_sig f) args (merge_matching (fn_sig f) [] data) kwargs)
  /\ (forall data k,
        as_data cfg = Ok data ->
        dict_mem (merge_matching (fn_sig f) [] data) k =
        in_parameters (fn_sig f) k && dict_mem data k)
  /\ (forall (a : TunableArgs) (p : Param) data v,
        In p (fn_sig f) ->
        selected a p = false ->
        as_data cfg = Ok data ->
        dict_get (rev data) (p_name p) = Some v ->
        (forall k, in_parameters (fn_sig f) k = true -> dict_mem data k = true ->
                   dict_mem kwargs k = false
                   /\ keyword_accepted (fn_sig f) (length args) k = true) ->
        wrapper f ns reg active args cfg kwargs =
          Ok (mkCall args (merge_matching (fn_sig f) [] data ++ kwargs))
        /\ dict_get (merge_matching (fn_sig f) [] data ++ kwargs) (p_name p) = Some v)
  /\ (forall data k,
        as_data cfg = Ok data ->
        in_parameters (fn_sig f) k = true ->
        dict_mem data k = true ->
        dict_mem kwargs k = true
        \/ keyword_accepted (fn_sig f) (length args) k = false ->
        wrapper f ns reg active args cfg kwargs = Raise TypeError).
Proof.
  intros Hcfg.
  assert (Hw : forall ns' reg' active',
             wrapper f ns' reg' active' args cfg kwargs =
             (data <- as_data cfg ;;
              call2 (fn_sig f) args (merge_matching (fn_sig f) [] data) kwargs)).
  { intros. unfold wrapper. now rewrite Hcfg. }
  split; [|split; [|split; [|split]]].
  - intros. now rewrite !Hw.
  - apply Hw.
  - intros data k _. now rewrite merge_matching_mem.
  - intros a p data v Hin _ Hdata Hv Hfree.
    rewrite Hw, Hdata. cbn [bind]. split.
    + apply call2_accepted. intros k Hk.
      rewrite merge_matching_mem in Hk. simpl in Hk.
      apply andb_prop in Hk. destruct Hk as [Hp Hd]. now apply Hfree.
    + rewrite dict_get_app, merge_matching_get, Hv.
      assert (Hp : in_parameters (fn_sig f) (p_name p) = true).
      { apply mem_true_iff. unfold parameter_names. now apply in_map. }
      now rewrite Hp.
  - intros data k Hdata Hp Hd Hbad. rewrite Hw, Hdata. cbn [bind].
    assert (Hm : dict_mem (merge_matching (fn_sig f) [] data) k = true).
    { now rewrite merge_matching_mem, Hp, Hd. }
    destruct Hbad as [Hkw | Hrefused].
    + now apply (call2_conflict _ _ _ _ k).
    + now apply (call2_refused _ _ _ _ k).
Qed.

End WithRuntime.

(** [load(cfg={"path": .., "retries": .., "verbose": ..})] is made as
    [load(path=.., retries=..)]; [load(7, cfg={"path": ..})] raises, [path]
    being bound to [7] already. *)
Lemma override_filters_against_signature_witness :
  wrapper load None [] app_config []
          (PyDict 300 [("path", value 301); ("retries", value 302); ("verbose", value 303)])
          [] =
    Ok (mkCall [] [("path", value 301); ("retries", value 302)])
  /\ wrapper load None [] app_config [value 7]
             (PyDict 300 [("path", value 301)]) [] = Raise TypeError.
Proof.
  split.
  - destruct (override_filters_against_signature load None [] app_config
                (PyDict 300 [("path", value 301); ("retries", value 302);
                             ("verbose", value 303)])
                [] []) as [_ [_ [_ [H _]]]]; [reflexivity|].
    destruct (H load_args (mkParam "path" POSITIONAL_OR_KEYWORD inspect_empty)
                [("path", value 301); ("retries", value 302); ("verbose", value 303)]
                (value 301)) as [Hcall _].
    + simpl. now left.
    + reflexivity.
    + reflexivity.
    + reflexivity.
    + intros k Hp Hd. unfold dict_mem, mem in Hd.
      cbn [dict_keys map fst existsb] in Hd.
      destruct (String.eqb k "path") eqn:E1;
        [apply String.eqb_eq in E1; subst k; split; reflexivity|].
      destruct (String.eqb k "retries") eqn:E2;
        [apply String.eqb_eq in E2; subst k; split; reflexivity|].
      destruct (String.eqb k "verbose") eqn:E3; [|discriminate].
      apply String.eqb_eq in E3. subst k. vm_compute in Hp. discriminate.
    + exact Hcall.
  - destruct (override_filters_against_signature load None [] app_config
                (PyDict 300 [("path", value 301)]) [value 7] [])
      as [_ [_ [_ [_ H]]]]; [reflexivity|].
    apply (H [("path", value 301)] "path"); [reflexivity .. |].
    right. reflexivity.
Defined.

Section WithRuntime.
Context {RT : Runtime}.

(** *** The namespace path resolver *)

Lemma split_dot_nonempty (s : string) : split_dot s <> [].
Proof.
  destruct s as [|c r]; simpl; [discriminate|].
  destruct (Ascii.eqb c "."%char); [discriminate|].
  destruct (split_dot r); discriminate.
Qed.

Lemma resolve_none (ns : string) : _resolve_nested_section PyNone ns = PyNone.
Proof.
  unfold _resolve_nested_section.
  destruct (split_dot ns) eqn:E; [now apply split_dot_nonempty in E | reflexivity].
Qed.

(** A segment that is no attribute of the section reached so far ends the
    walk with the "not found" result. *)
Lemma resolve_missing_segment (cfg : Obj) (before after : list string) (seg : string) :
  hasattr (resolve_segments cfg before) seg = false ->
  resolve_segments cfg (before ++ seg :: after) = PyNone.
Proof.
  revert cfg. induction before as [|s r IH]; intros cfg Hmiss; simpl in *.
  - rewrite Hmiss. now rewrite orb_true_r.
  - destruct (is_none cfg || negb (hasattr cfg s)); [reflexivity|].
    destruct (getattr cfg s); [now apply IH | reflexivity].
Qed.

(** A segment that is an attribute of the current section is entered. *)
Lemma resolve_present_segment (cfg o : Obj) (seg : string) (rest : list string) :
  getattr cfg seg = Some o ->
  resolve_segments cfg (seg :: rest) = resolve_segments o rest.
Proof.
  intros H. cbn [resolve_segments]. unfold hasattr. rewrite H.
  destruct cfg; [discriminate H | reflexivity ..].
Qed.



Lemma section_at_not_none (cfg : Obj) (path : list string) (s : Obj) :
  section_at cfg path = Some s -> is_none s = false.
Proof.
  revert cfg. induction path as [|name rest IH]; intros cfg; cbn [section_at].
  - destruct (is_none cfg) eqn:E; [discriminate | now intros [= <-]].
  - destruct (getattr cfg name); [apply IH | discriminate].
Qed.




(** The root namespace is never found: [split] turns the empty string into
    one empty segment, and no object has an attribute of that name. *)
Lemma resolve_root_not_found (cfg : Obj) :
  hasattr cfg "" = false -> _resolve_nested_section cfg "" = PyNone.
Proof.
  intros H. unfold _resolve_nested_section. simpl. rewrite H.
  now rewrite orb_true_r.
Qed.

End WithRuntime.

(** C3 (the code at the failing input): resolving the root namespace
    against the sample configuration gives "not found", not the
    configuration itself, while a named section is found; the root-level
    value [root_param] of the configuration never reaches [build_model]. *)
Theorem resolve_root_namespace_of_sample :
  _resolve_nested_section app_config "" = PyNone
  /\ _resolve_nested_section app_config "" <> app_config
  /\ _resolve_nested_section app_config "train" =
     PyModel 230 [("epochs", value 231); ("dropout", value 232)]
  /\ merge_section (fn_sig build_model) app_config "" [] = Ok [].
Proof.
  repeat split; try (vm_compute; reflexivity). vm_compute. discriminate.
Qed.

Section WithRuntime.
Context {RT : Runtime}.

(** *** Absent namespaces and undeclared keys *)

Lemma merge_section_absent (sig : Signature) (active : Obj) (ns : string)
    (combined : dict Obj) :
  _resolve_nested_section active ns = PyNone ->
  merge_section sig active ns combined = Ok combined.
Proof. intros H. unfold merge_section. now rewrite H. Qed.

Lemma merge_section_mapping (sig : Signature) (active : Obj) (ns : string)
    (combined data : dict Obj) :
  as_data (_resolve_nested_section active ns) = Ok data ->
  merge_section sig active ns combined = Ok (merge_matching sig combined data).
Proof.
  intros H. unfold merge_section.
  destruct (_resolve_nested_section active ns); simpl in *;
    try discriminate; now inversion H.
Qed.

(** The loop visits exactly the entries that the function owns. *)
Lemma merge_entries_by_function (f : Function) (active : Obj) (reg : Registry)
    (combined : dict Obj) :
  merge_entries f active (by_namespace_values reg) combined =
  merge_entries f active (by_function reg f) combined.
Proof.
  unfold by_namespace_values, by_function. revert combined.
  induction reg as [|e r IH]; intros combined; simpl; [reflexivity|].
  destruct (Nat.eqb (fn_id (entry_fn e)) (fn_id f)) eqn:E; simpl.
  - rewrite E. destruct (merge_section _ _ _ _); simpl; [apply IH | reflexivity].
  - apply IH.
Qed.




Lemma dict_nonempty_mem (d : dict Obj) :
  dict_nonempty d = false -> d = [].
Proof. destruct d; [reflexivity | discriminate]. Qed.

Lemma wrapper_no_override (f : Function) (ns : option string) (reg : Registry)
    (active : Obj) (args : list Obj) (kwargs : dict Obj) :
  wrapper f ns reg active args PyNone kwargs =
  if negb (is_none active) then
    combined <- match ns with
                | None => merge_entries f active (by_namespace_values reg) []
                | Some n => merge_section (fn_sig f) active n []
                end ;;
    if dict_nonempty combined then call2 (fn_sig f) args combined kwargs
    else call1 args kwargs
  else call1 args kwargs.
Proof. reflexivity. Qed.


End WithRuntime.



End WrapperSpec.

(* ===================================================================== *)
(** ** The decorator: selection, namespace inference, registration *)
(* ===================================================================== *)

Module DecoratorSpec.
Import Py Parameters Inspect Registry Decorators Samples DictFacts.

Section WithRuntime.
Context {RT : Runtime}.

(** *** Selection *)

Lemma selected_with_include (a : TunableArgs) (p : Param) :
  include a <> [] ->
  selected a p = negb (is_variadic p) && mem (p_name p) (include a).
Proof.
  intros Hinc. unfold selected.
  destruct (is_variadic p); [reflexivity|].
  destruct (include a); [contradiction | reflexivity].
Qed.

Lemma selected_names_iff (a : TunableArgs) (f : Function) (n : string) :
  In n (selected_names a f) <->
  exists p, In p (fn_sig f) /\ p_name p = n /\ selected a p = true.
Proof.
  unfold selected_names. rewrite in_map_iff. split.
  - intros [p [Hn Hp]]. apply filter_In in Hp. exists p. tauto.
  - intros [p [Hin [Hn Hs]]]. exists p. split; [assumption|].
    apply filter_In. tauto.
Qed.

(** The keys of the schema built for an explicit namespace. *)
Lemma collect_fields_mem (a : TunableArgs) (f : Function)
    (acc : dict (Obj * Obj)) (n : string) :
  dict_mem (collect_fields a f acc) n = dict_mem acc n || mem n (selected_names a f).
Proof.
  unfold collect_fields, selected_names. revert acc.
  induction (fn_sig f) as [|p r IH]; intros acc; simpl.
  - now rewrite orb_false_r.
  - rewrite IH. destruct (selected a p); simpl; [|reflexivity].
    rewrite dict_mem_set. rewrite (String.eqb_sym n).
    now rewrite orb_assoc, (orb_comm (String.eqb (p_name p) n)), <- orb_assoc.
Qed.

(** *** Namespace inference *)

Lemma insert_name_In (x y : string) (l : list string) :
  In x (insert_name y l) <-> x = y \/ In x l.
Proof.
  induction l as [|z r IH]; simpl.
  - intuition.
  - destruct (String.compare y z) eqn:E; simpl.
    + apply String.compare_eq_iff in E. subst z. intuition.
    + intuition.
    + rewrite IH. intuition.
Qed.

Lemma sorted_names_In (x : string) (l : list string) :
  In x (fold_right insert_name [] l) <-> In x l.
Proof.
  induction l as [|y r IH]; simpl; [reflexivity|].
  rewrite insert_name_In, IH. intuition.
Qed.

Lemma first_some_Some {A B} (g : A -> option B) (l : list A) (b : B) :
  first_some g l = Some b -> exists a, In a l /\ g a = Some b.
Proof.
  induction l as [|a r IH]; simpl; [discriminate|].
  destruct (g a) eqn:E.
  - intros [= ->]. exists a. auto.
  - intros H. destruct (IH H) as [a' [Hin Ha']]. exists a'. auto.
Qed.

(** Whatever attribute lookup finds on a class is listed by [dir]. *)
Lemma class_getattr_in_dir (tbl : ClassTable) (c : ClassRef) (name : string) (v : Obj) :
  class_getattr tbl c name = Some v -> In name (class_dir tbl c).
Proof.
  unfold class_getattr, class_dir. intros H.
  apply first_some_Some in H. destruct H as [b [Hb Hown]].
  apply sorted_names_In, in_concat.
  unfold own_attr in Hown. destruct (lookup_class tbl b) as [k|] eqn:Hk; [|discriminate].
  exists (dict_keys (cls_dict k)). split.
  - apply in_map_iff. exists b. rewrite Hk. auto.
  - apply dict_get_In in Hown. unfold dict_keys.
    apply in_map_iff. exists (name, v). auto.
Qed.

(** The inner loop finds a match exactly when some public attribute of the
    class is the very object. *)
Lemma class_has_value_iff (tbl : ClassTable) (c : ClassRef) (d : Obj) :
  class_has_value tbl c d = true <->
  exists attr v, startswith_underscore attr = false
                 /\ class_getattr tbl c attr = Some v
                 /\ is_same v d = true.
Proof.
  unfold class_has_value. rewrite existsb_exists. split.
  - intros [attr [_ H]].
    destruct (startswith_underscore attr) eqn:Hu; simpl in H; [discriminate|].
    destruct (class_getattr tbl c attr) as [v|] eqn:Hv; [|discriminate].
    exists attr, v. auto.
  - intros [attr [v [Hu [Hv Hs]]]]. exists attr. split.
    + now apply class_getattr_in_dir with v.
    + now rewrite Hu, Hv.
Qed.

Lemma scan_globals_none (tbl : ClassTable) (d : Obj) (values : list GlobalVal) :
  (forall c, In (GClass c) values -> is_parameter_class tbl c = true ->
             class_has_value tbl c d = false) ->
  scan_globals tbl d values = None.
Proof.
  induction values as [|g r IH]; intros Hno; simpl; [reflexivity|].
  assert (Hr : scan_globals tbl d r = None).
  { apply IH. intros c Hc. apply Hno. now right. }
  destruct g as [c|o]; [|exact Hr].
  destruct (is_parameter_class tbl c) eqn:Hp; [|exact Hr].
  rewrite (Hno c); [exact Hr | now left | assumption].
Qed.

Lemma scan_globals_first (tbl : ClassTable) (d : Obj)
    (before after : list GlobalVal) (obj : ClassRef) :
  is_parameter_class tbl obj = true ->
  class_has_value tbl obj d = true ->
  (forall c, In (GClass c) before -> is_parameter_class tbl c = true ->
             class_has_value tbl c d = false) ->
  scan_globals tbl d (before ++ GClass obj :: after) =
  Some (get_parameter_class_namespace tbl obj).
Proof.
  intros Hp Hv. induction before as [|g r IH]; intros Hno; simpl.
  - now rewrite Hp, Hv.
  - assert (Hr : scan_globals tbl d (r ++ GClass obj :: after) =
                 Some (get_parameter_class_namespace tbl obj)).
    { apply IH. intros c Hc. apply Hno. now right. }
    destruct g as [c|o]; [|exact Hr].
    destruct (is_parameter_class tbl c) eqn:Hpc; [|exact Hr].
    rewrite (Hno c); [exact Hr | now left | assumption].
Qed.

(** *** The namespace groups *)

Lemma group_step_get (tbl : ClassTable) (a : TunableArgs) (f : Function)
    (groups : dict (dict (Obj * Obj))) (p : Param) (ns : string) :
  dict_get (group_step tbl a f groups p) ns =
  if selected a p && String.eqb (param_namespace tbl f p) ns
  then Some (dict_set (match dict_get groups ns with Some g => g | None => [] end)
                      (p_name p) (field_of f p))
  else dict_get groups ns.
Proof.
  unfold group_step. destruct (selected a p); simpl; [|reflexivity].
  set (pns := param_namespace tbl f p).
  assert (Hg : match dict_get (if negb (dict_mem groups pns)
                               then dict_set groups pns [] else groups) pns with
               | Some g => g | None => [] end =
               match dict_get groups pns with Some g => g | None => [] end).
  { rewrite dict_mem_get. destruct (dict_get groups pns) eqn:E; simpl.
    - now rewrite E.
    - now rewrite dict_get_set_eq. }
  rewrite Hg.
  destruct (String.eqb pns ns) eqn:E.
  - apply String.eqb_eq in E. subst ns. apply dict_get_set_eq.
  - apply String.eqb_neq in E. rewrite dict_get_set_ne by assumption.
    destruct (negb (dict_mem groups pns)); [|reflexivity].
    now apply dict_get_set_ne.
Qed.

(** A name filed in a group stays in that group. *)
Lemma group_steps_keep (tbl : ClassTable) (a : TunableArgs) (f : Function)
    (ps : list Param) (groups : dict (dict (Obj * Obj))) (ns n : string) :
  (exists g, dict_get groups ns = Some g /\ dict_mem g n = true) ->
  exists g, dict_get (fold_left (group_step tbl a f) ps groups) ns = Some g
            /\ dict_mem g n = true.
Proof.
  revert groups. induction ps as [|p r IH]; intros groups H; simpl; [exact H|].
  apply IH. rewrite group_step_get.
  destruct (selected a p && String.eqb (param_namespace tbl f p) ns); [|exact H].
  destruct H as [g [Hg Hn]]. rewrite Hg. eexists. split; [reflexivity|].
  rewrite dict_mem_set, Hn. apply orb_true_r.
Qed.

(** A selected parameter is filed in the group of its inferred namespace. *)
Lemma group_of_selected (tbl : ClassTable) (a : TunableArgs) (f : Function) (p : Param) :
  In p (fn_sig f) -> selected a p = true ->
  exists g, dict_get (namespace_groups tbl a f) (param_namespace tbl f p) = Some g
            /\ dict_mem g (p_name p) = true.
Proof.
  unfold namespace_groups. generalize (@nil (string * dict (Obj * Obj))) as groups.
  induction (fn_sig f) as [|q r IH]; intros groups Hin Hs; [contradiction|].
  simpl. destruct Hin as [-> | Hin]; [|now apply IH].
  apply group_steps_keep. rewrite group_step_get, Hs, String.eqb_refl. simpl.
  eexists. split; [reflexivity|]. rewrite dict_mem_set, String.eqb_refl. reflexivity.
Qed.

(** Every name filed in a group is the name of a selected parameter. *)
Lemma groups_only_selected (tbl : ClassTable) (a : TunableArgs) (f : Function)
    (ns n : string) (g : dict (Obj * Obj)) :
  dict_get (namespace_groups tbl a f) ns = Some g ->
  dict_mem g n = true ->
  In n (selected_names a f).
Proof.
  unfold namespace_groups, selected_names.
  assert (H : forall ps groups,
             (forall ns g n, dict_get groups ns = Some g -> dict_mem g n = true ->
                             In n (map p_name (filter (selected a) (fn_sig f)))) ->
             (forall p, In p ps -> In p (fn_sig f)) ->
             forall ns g n,
               dict_get (fold_left (group_step tbl a f) ps groups) ns = Some g ->
               dict_mem g n = true ->
               In n (map p_name (filter (selected a) (fn_sig f)))).
  { induction ps as [|p r IH]; intros groups Hg Hps; simpl; [exact Hg|].
    apply IH; [|intros q Hq; apply Hps; now right].
    intros ns' g' n'. rewrite group_step_get.
    destruct (selected a p) eqn:Hs; simpl; [|apply Hg].
    destruct (String.eqb (param_namespace tbl f p) ns') eqn:E; [|apply Hg].
    intros [= <-]. rewrite dict_mem_set.
    destruct (String.eqb (p_name p) n') eqn:En; simpl.
    - intros _. apply String.eqb_eq in En. subst n'.
      apply in_map, filter_In. split; [apply Hps; now left | assumption].
    - destruct (dict_get groups ns') as [g0|] eqn:Eg; [|discriminate].
      now apply (Hg ns' g0). }
  apply (H (fn_sig f) []); [discriminate | auto].
Qed.

(** C8: with a non-empty include list a parameter of the function is
    selected exactly when its name is in the list and it is not variadic,
    whatever its default; so every selected name is in the list, every
    listed name of a non-variadic parameter is selected, and the selected
    names are exactly the keys of the schema of an explicit namespace and
    exactly the names filed in the groups of the inferred namespaces. *)
Theorem include_list_selects_exactly (a : TunableArgs) (f : Function) :
  include a <> [] ->
  (forall p, selected a p = true <->
             In (p_name p) (include a) /\ is_variadic p = false)
  /\ (forall p d, selected a (mkParam (p_name p) (p_kind p) d) = selected a p)
  /\ (forall n, In n (selected_names a f) -> In n (include a))
  /\ (forall p, In p (fn_sig f) -> In (p_name p) (include a) ->
                is_variadic p = false -> In (p_name p) (selected_names a f))
  /\ (forall p, In p (fn_sig f) -> is_variadic p = true ->
                ~ In p (filter (selected a) (fn_sig f)))
  /\ (forall n, dict_mem (collect_fields a f (collect_fields a f [])) n = true <->
                In n (selected_names a f))
  /\ (forall tbl n,
        (exists ns g, dict_get (namespace_groups tbl a f) ns = Some g
                      /\ dict_mem g n = true) <->
        In n (selected_names a f)).
Proof.
  intros Hinc.
  assert (Hsel : forall p, selected a p = true <->
                           In (p_name p) (include a) /\ is_variadic p = false).
  { intros p. rewrite selected_with_include by assumption.
    rewrite andb_true_iff, negb_true_iff, mem_true_iff. tauto. }
  split; [exact Hsel|]. split; [|split; [|split; [|split; [|split]]]].
  - intros p d. rewrite !selected_with_include by assumption. reflexivity.
  - intros n Hn. apply selected_names_iff in Hn.
    destruct Hn as [p [_ [<- Hs]]]. now apply Hsel.
  - intros p Hin Hinc' Hv. apply selected_names_iff. exists p.
    split; [assumption|]. split; [reflexivity|]. now apply Hsel.
  - intros p Hin Hv Hf. apply filter_In in Hf. destruct Hf as [_ Hs].
    apply Hsel in Hs. destruct Hs as [_ Hs]. congruence.
  - intros n. rewrite !collect_fields_mem. simpl.
    rewrite orb_diag. apply mem_true_iff.
  - intros tbl n. split.
    + intros [ns [g [Hg Hn]]]. now apply (groups_only_selected tbl a f ns n g).
    + intros Hn. apply selected_names_iff in Hn. destruct Hn as [p [Hin [<- Hs]]].
      exists (param_namespace tbl f p). now apply group_of_selected.
Qed.

End WithRuntime.

Lemma include_list_selects_exactly_witness :
  In "retries" (selected_names load_args load)
  /\ ~ In (mkParam "sources" VAR_POSITIONAL inspect_empty)
          (filter (selected (mkArgs ["retries"; "sources"] None ModeInclude [] []))
                  (fn_sig load)).
Proof.
  split.
  - destruct (include_list_selects_exactly load_args load) as [_ [_ [_ [H _]]]];
      [discriminate|].
    apply (H (mkParam "retries" POSITIONAL_OR_KEYWORD (value 121)));
      [vm_compute; tauto | vm_compute; tauto | reflexivity].
  - destruct (include_list_selects_exactly
                (mkArgs ["retries"; "sources"] None ModeInclude [] []) load)
      as [_ [_ [_ [_ [H _]]]]]; [discriminate|].
    apply H; [vm_compute; tauto | reflexivity].
Defined.

Section WithRuntime.
Context {RT : Runtime}.

(** C4 (as amended): a selected parameter whose default has the attribute
    [__self__] goes to the root namespace.  Otherwise, if the default is
    the very object that some public attribute of a parameter class among
    the function's globals holds (every stored field default is such an
    attribute), the parameter gets the recorded namespace of the first
    such class in the order of the globals; if there is no such class it
    goes to the root namespace.  Either way the parameter is filed in the
    group of that namespace. *)
Theorem parameter_namespace_inference (tbl : ClassTable) (f : Function) (p : Param) :
  let holds := fun c =>
    exists attr v, startswith_underscore attr = false
                   /\ class_getattr tbl c attr = Some v
                   /\ is_same v (p_default p) = true in
  (hasattr (p_default p) "__self__" = true -> param_namespace tbl f p = "")
  /\ (hasattr (p_default p) "__self__" = false ->
      forall before obj after,
        dict_values (fn_globals f) = before ++ GClass obj :: after ->
        is_parameter_class tbl obj = true ->
        holds obj ->
        (forall c, In (GClass c) before -> is_parameter_class tbl c = true -> ~ holds c) ->
        param_namespace tbl f p = get_parameter_class_namespace tbl obj)
  /\ ((forall c, In (GClass c) (dict_values (fn_globals f)) ->
                 is_parameter_class tbl c = true -> ~ holds c) ->
      param_namespace tbl f p = "")
  /\ (forall a, In p (fn_sig f) -> selected a p = true ->
        exists g,
          dict_get (namespace_groups tbl a f) (param_namespace tbl f p) = Some g
          /\ dict_mem g (p_name p) = true).
Proof.
  intros holds.
  assert (Hholds : forall c, class_has_value tbl c (p_default p) = false <-> ~ holds c).
  { intros c. unfold holds. rewrite <- class_has_value_iff.
    destruct (class_has_value tbl c (p_default p)); split; congruence. }
  unfold param_namespace, _infer_namespace_from_class_attribute. simpl.
  split; [|split; [|split]].
  - intros Hself. now rewrite Hself.
  - intros Hself before obj after Hglob Hpc Hobj Hbefore.
    rewrite Hself, Hglob, scan_globals_first; [reflexivity | assumption | |].
    + now apply class_has_value_iff.
    + intros c Hc Hpcc. apply Hholds. now apply Hbefore.
  - intros Hnone. destruct (hasattr (p_default p) "__self__"); [reflexivity|].
    rewrite scan_globals_none; [reflexivity|].
    intros c Hc Hpcc. apply Hholds. now apply Hnone.
  - intros a. apply group_of_selected.
Qed.

End WithRuntime.

(** [hidden_units=Model.hidden_units] of [build_model] goes to "model". *)
Lemma parameter_namespace_inference_witness :
  param_namespace params_table build_model
    (mkParam "hidden_units" POSITIONAL_OR_KEYWORD (value 21)) = "model".
Proof.
  destruct (parameter_namespace_inference params_table build_model
              (mkParam "hidden_units" POSITIONAL_OR_KEYWORD (value 21)))
    as [_ [H _]].
  rewrite (H eq_refl [GObj (value 90); GClass Main] Model
             [GClass Preprocess; GClass Train]).
  - vm_compute. reflexivity.
  - vm_compute. reflexivity.
  - vm_compute. reflexivity.
  - exists "hidden_units", (value 21). vm_compute. auto.
  - intros c Hc Hpc [attr [v [Hu [Hv Hs]]]].
    destruct Hc as [Hc | [Hc | []]]; [discriminate|].
    injection Hc as <-.
    apply class_getattr_in_dir in Hv as Hdir. vm_compute in Hdir.
    destruct Hdir as [<- | [<- | []]]; vm_compute in Hv; injection Hv as <-;
      vm_compute in Hs; discriminate.
Defined.

(** C4, as stated, fails: the default of [activation] is the very object
    stored as the field default [Layers.activation], and [Layers] is
    among the globals of [build] with the namespace "layers"; the
    parameter is assigned the root namespace, because the object has the
    attribute [__self__]. *)
Lemma inference_skips_objects_with_self :
  let p := mkParam "activation" POSITIONAL_OR_KEYWORD math_tanh in
  In p (fn_sig build)
  /\ In (GClass Layers) (dict_values (fn_globals build))
  /\ is_parameter_class layers_table Layers = true
  /\ dict_get (get_parameter_class_fields layers_table Layers) "activation" = Some math_tanh
  /\ class_getattr layers_table Layers "activation" = Some math_tanh
  /\ is_same math_tanh (p_default p) = true
  /\ _calculate_namespace_from_class layers_table Layers = "layers"
  /\ get_parameter_class_namespace layers_table Layers = "layers"
  /\ param_namespace layers_table build p = ""
  /\ param_namespace layers_table build p <> get_parameter_class_namespace layers_table Layers.
Proof.
  repeat split; try (vm_compute; reflexivity); vm_compute; try tauto; discriminate.
Qed.

Section WithRuntime.
Context {RT : Runtime}.

(** *** Registration *)

Lemma group_step_unfold (tbl : ClassTable) (a : TunableArgs) (f : Function)
    (groups : dict (dict (Obj * Obj))) (p : Param) :
  group_step tbl a f groups p =
  if selected a p
  then dict_set groups (param_namespace tbl f p)
         (dict_set (match dict_get groups (param_namespace tbl f p) with
                    | Some g => g
                    | None => []
                    end) (p_name p) (field_of f p))
  else groups.
Proof.
  unfold group_step. destruct (selected a p); [|reflexivity].
  rewrite dict_mem_get.
  destruct (dict_get groups (param_namespace tbl f p)) eqn:E; simpl.
  - now rewrite E.
  - now rewrite dict_get_set_eq, dict_set_set.
Qed.

Lemma dict_set_nonempty {V} (d : dict V) (k : string) (v : V) :
  dict_nonempty (dict_set d k v) = true.
Proof.
  destruct d as [|[k' v'] r]; simpl; [reflexivity|].
  now destruct (String.eqb k k').
Qed.

(** The groups have distinct namespaces and none of them is empty. *)
Lemma namespace_groups_shape (tbl : ClassTable) (a : TunableArgs) (f : Function) :
  NoDup (dict_keys (namespace_groups tbl a f))
  /\ Forall (fun g => dict_nonempty (snd g) = true) (namespace_groups tbl a f).
Proof.
  unfold namespace_groups.
  assert (H : forall ps groups,
             NoDup (dict_keys groups) /\
             Forall (fun g => dict_nonempty (snd g) = true) groups ->
             NoDup (dict_keys (fold_left (group_step tbl a f) ps groups)) /\
             Forall (fun g => dict_nonempty (snd g) = true)
                    (fold_left (group_step tbl a f) ps groups)).
  { induction ps as [|p r IH]; intros groups [Hnd Hne]; simpl; [now split|].
    apply IH. rewrite group_step_unfold.
    destruct (selected a p); [|now split]. split.
    - now apply dict_set_NoDup.
    - apply (dict_set_Forall (fun g => dict_nonempty g = true)); [assumption|].
      apply dict_set_nonempty. }
  apply H. split; constructor.
Qed.

(** Without an explicit namespace, decoration appends one entry per group,
    in the order of the groups, each owned by the function. *)
Lemma decorate_inferred (tbl : ClassTable) (a : TunableArgs) (f : Function)
    (reg : Registry) :
  namespace a = None ->
  decorate tbl a f reg =
  reg ++ map (fun g => mkEntry f (create_model (model_name_of (fst g)) (snd g))
                               (fn_sig f) (fst g) (apps a))
             (namespace_groups tbl a f).
Proof.
  intros Hns. unfold decorate. rewrite Hns.
  destruct (namespace_groups_shape tbl a f) as [_ Hne].
  revert reg. induction Hne as [|g r Hg _ IH]; intros reg; simpl.
  - now rewrite app_nil_r.
  - rewrite Hg, IH. unfold register. now rewrite <- app_assoc.
Qed.

Lemma decorate_inferred_namespaces (tbl : ClassTable) (a : TunableArgs) (f : Function)
    (reg : Registry) :
  namespace a = None ->
  map entry_namespace (decorate tbl a f reg) =
  map entry_namespace reg ++ dict_keys (namespace_groups tbl a f).
Proof.
  intros Hns. rewrite decorate_inferred by assumption.
  rewrite map_app, map_map. reflexivity.
Qed.

(** With an explicit namespace, decoration appends one entry under that
    namespace whose schema has the selected names as its keys. *)
Lemma decorate_explicit (tbl : ClassTable) (a : TunableArgs) (f : Function)
    (reg : Registry) (ns : string) :
  namespace a = Some ns ->
  exists e,
    decorate tbl a f reg = reg ++ [e]
    /\ entry_namespace e = ns
    /\ fn_id (entry_fn e) = fn_id f
    /\ forall n, dict_mem (model_fields (entry_model e)) n = true <->
                 In n (selected_names a f).
Proof.
  intros Hns. unfold decorate, register. rewrite Hns.
  eexists. split; [reflexivity|]. cbn [entry_namespace entry_fn entry_model].
  split; [reflexivity|]. split; [reflexivity|].
  intros n. cbn [create_model model_fields].
  rewrite !collect_fields_mem. simpl. rewrite orb_diag. apply mem_true_iff.
Qed.

End WithRuntime.

(** C2 (the code at the failing input): [build_model] has defaults taken
    from [Model] and from [Main]; decoration registers the two entries
    "model" and "" for it, and the call visits both.  Under a configuration
    that has [root_param] at its top level and [hidden_units] in its
    section [model], only the value of the section [model] reaches the
    function: the root entry resolves to "not found".  With the two named
    namespaces of [fit] the values of both are merged. *)
Theorem root_namespace_entry_contributes_nothing :
  map entry_namespace (by_function loaded_registry build_model) = ["model"; ""]
  /\ getattr app_config "root_param" = Some (value 201)
  /\ as_data (_resolve_nested_section app_config "model") =
     Ok [("hidden_units", value 211);
         ("preprocess", PyDict 220 [("dropna", value 221)])]
  /\ in_parameters (fn_sig build_model) "root_param" = true
  /\ wrapper build_model None loaded_registry app_config [] PyNone [] =
     Ok (mkCall [] [("hidden_units", value 211)])
  /\ map entry_namespace (by_function loaded_registry fit) = ["train"; "model.preprocess"]
  /\ wrapper fit None loaded_registry app_config [value 5] PyNone [] =
     Ok (mkCall [value 5] [("epochs", value 231); ("dropna", value 221)]).
Proof.
  repeat split; vm_compute; reflexivity.
Qed.

End DecoratorSpec.

(* ===================================================================== *)
(** ** Further properties: strings *)
(* ===================================================================== *)

Module StringFacts.
Import Py.

Lemma append_assoc (a b c : string) : ((a ++ b) ++ c = a ++ (b ++ c))%string.
Proof. induction a as [|x a IH]; simpl; [reflexivity | now rewrite IH]. Qed.

Lemma append_nil_r (a : string) : (a ++ "" = a)%string.
Proof. induction a as [|x a IH]; simpl; [reflexivity | now rewrite IH]. Qed.

Lemma append_empty (a b : string) : (a ++ b)%string = "" -> a = "" /\ b = "".
Proof. destruct a; simpl; [auto | discriminate]. Qed.

Lemma lower_empty (s : string) : lower s = "" <-> s = "".
Proof. destruct s; simpl; split; intros H; try reflexivity; discriminate. Qed.

Lemma join_dot_snoc (l : list string) (x : string) :
  join_dot (l ++ [x]) =
  match l with
  | [] => x
  | _ => (join_dot l ++ "." ++ x)%string
  end.
Proof.
  unfold join_dot. induction l as [|y r IH]; [reflexivity|].
  destruct r as [|z r'].
  - reflexivity.
  - change (String.concat "." ((y :: z :: r') ++ [x]))
      with (y ++ "." ++ String.concat "." ((z :: r') ++ [x]))%string.
    rewrite IH.
    change (String.concat "." (y :: z :: r'))
      with (y ++ "." ++ String.concat "." (z :: r'))%string.
    now rewrite !append_assoc.
Qed.

Lemma join_dot_empty (l : list string) :
  (forall s, In s l -> s <> "") ->
  join_dot l = "" -> l = [].
Proof.
  unfold join_dot. destruct l as [|x r]; [reflexivity|]. intros Hne H.
  exfalso. apply (Hne x); [now left|].
  destruct r; simpl in H; [exact H|].
  now apply append_empty in H.
Qed.

End StringFacts.

(* ===================================================================== *)
(** ** Further properties: the namespace of a hierarchy *)
(* ===================================================================== *)

Module HierarchyProps.
Import Py Parameters Samples StringFacts.

Lemma namespace_parts_nonempty (l : list string) :
  (forall s, In s l -> s <> "") ->
  forall s, In s (namespace_parts l) -> s <> "".
Proof.
  induction l as [|x r IH]; intros Hne s; simpl; [contradiction|].
  assert (Hr : forall s, In s (namespace_parts r) -> s <> "").
  { apply IH. intros t Ht. apply Hne. now right. }
  destruct (String.eqb (lower x) "main"); [apply Hr|].
  intros [<- | Hin]; [|now apply Hr].
  rewrite lower_empty. apply Hne. now left.
Qed.

Lemma hierarchy_names_In (tbl : ClassTable) (mro : list ClassRef) (s : string) :
  In s (hierarchy_names tbl mro) -> exists c, In c mro /\ s = name_of tbl c.
Proof.
  induction mro as [|b r IH]; simpl; [contradiction|].
  destruct (is_root_marker b); [contradiction|].
  intros [<- | Hin].
  - exists b. auto.
  - destruct (IH Hin) as [c [Hc Hs]]. exists c. auto.
Qed.

(** X1: the namespace of a class whose MRO is the class followed by the MRO
    of a parent extends the namespace of the parent by the lower-cased name
    of the class: unchanged if the class is named main, the name alone
    under a root-level parent, else parent namespace, dot, name. *)
Theorem subclass_namespace_extends_parent
    (tbl : ClassTable) (n : nat) (parent : ClassRef) :
  mro_of tbl (CUser n) = CUser n :: mro_of tbl parent ->
  (forall c, In c (mro_of tbl parent) -> name_of tbl c <> "") ->
  let own := lower (name_of tbl (CUser n)) in
  let base := _calculate_namespace_from_class tbl parent in
  _calculate_namespace_from_class tbl (CUser n) =
  if String.eqb own "main" then base
  else if String.eqb base "" then own
  else (base ++ "." ++ own)%string.
Proof.
  intros Hmro Hnames own base. unfold base.
  rewrite !NamespaceSpec.calculate_namespace_unfold, Hmro.
  cbn [hierarchy_names is_root_marker rev].
  rewrite NamespaceSpec.namespace_parts_app. cbn [namespace_parts]. fold own.
  set (parts := namespace_parts (rev (hierarchy_names tbl (mro_of tbl parent)))).
  destruct (String.eqb own "main"); [now rewrite app_nil_r|].
  rewrite join_dot_snoc.
  destruct parts as [|p ps] eqn:Hparts; [reflexivity|].
  assert (Hne : join_dot (p :: ps) <> "").
  { intros H. apply join_dot_empty in H; [discriminate|].
    rewrite <- Hparts. unfold parts. apply namespace_parts_nonempty.
    intros s Hs. apply in_rev, hierarchy_names_In in Hs.
    destruct Hs as [c [Hc ->]]. now apply Hnames. }
  apply String.eqb_neq in Hne. now rewrite Hne.
Qed.

Lemma subclass_namespace_extends_parent_witness :
  _calculate_namespace_from_class params_table (CUser 2) = "model.preprocess".
Proof.
  rewrite (subclass_namespace_extends_parent params_table 2 (CUser 1)).
  - vm_compute. reflexivity.
  - vm_compute. reflexivity.
  - intros c Hc. vm_compute in Hc.
    destruct Hc as [<- | [<- | [<- | [<- | []]]]]; vm_compute; discriminate.
Defined.

(** X2: for a chain of any length below the first root marker of the MRO,
    the namespace is the dot-joined list of the lower-cased class names
    that differ from "main", most general first, whatever follows the
    marker in the MRO; when no class name is empty it is the root
    namespace exactly when every class of the chain is named main. *)
Theorem namespace_of_any_chain
    (tbl : ClassTable) (cls : ClassRef) (chain : list nat)
    (marker : ClassRef) (rest : list ClassRef) :
  mro_of tbl cls = map CUser chain ++ marker :: rest ->
  is_root_marker marker = true ->
  _calculate_namespace_from_class tbl cls =
    join_dot (filter (fun s => negb (String.eqb s "main"))
                     (map (fun n => lower (name_of tbl (CUser n))) (rev chain)))
  /\ ((forall n, In n chain -> name_of tbl (CUser n) <> "") ->
      (_calculate_namespace_from_class tbl cls = "" <->
       forall n, In n chain -> lower (name_of tbl (CUser n)) = "main")).
Proof.
  intros Hmro Hmarker.
  pose proof (NamespaceSpec.namespace_of_chain tbl cls chain marker rest Hmro Hmarker)
    as Hgen.
  split; [exact Hgen|]. intros Hnames. rewrite Hgen.
  set (names := map (fun n => lower (name_of tbl (CUser n))) (rev chain)).
  split.
  - intros Hempty n Hn.
    apply join_dot_empty in Hempty.
    + destruct (String.eqb (lower (name_of tbl (CUser n))) "main") eqn:E;
        [now apply String.eqb_eq in E|].
      assert (Hin : In (lower (name_of tbl (CUser n)))
                       (filter (fun s => negb (String.eqb s "main")) names)).
      { apply filter_In. split; [|now rewrite E].
        unfold names. apply in_map_iff. exists n. split; [reflexivity|].
        now apply -> in_rev. }
      rewrite Hempty in Hin. contradiction.
    + intros s Hs. apply filter_In in Hs. destruct Hs as [Hs _].
      unfold names in Hs. apply in_map_iff in Hs. destruct Hs as [m [<- Hm]].
      rewrite lower_empty. apply Hnames. now apply in_rev.
  - intros Hall.
    assert (Hnil : filter (fun s => negb (String.eqb s "main")) names = []).
    { unfold names. clear - Hall.
      assert (H : forall l, (forall n, In n l -> In n chain) ->
                  filter (fun s => negb (String.eqb s "main"))
                         (map (fun n => lower (name_of tbl (CUser n))) l) = []).
      { induction l as [|m r IH]; intros Hl; simpl; [reflexivity|].
        rewrite (Hall m) by (apply Hl; now left). simpl.
        apply IH. intros k Hk. apply Hl. now right. }
      apply H. intros k Hk. now apply in_rev. }
    now rewrite Hnil.
Qed.

Lemma namespace_of_any_chain_witness :
  _calculate_namespace_from_class params_table Train = "train"
  /\ (_calculate_namespace_from_class params_table Main = "" <->
      forall n, In n [0] -> lower (name_of params_table (CUser n)) = "main").
Proof.
  split.
  - destruct (namespace_of_any_chain params_table Train [3; 0]
                CTunableParameters [CObject]) as [H _];
      [vm_compute; reflexivity | reflexivity |].
    rewrite H. vm_compute. reflexivity.
  - destruct (namespace_of_any_chain params_table Main [0]
                CTunableParameters [CObject]) as [_ H];
      [vm_compute; reflexivity | reflexivity |].
    apply H. intros n [<- | []]. vm_compute. discriminate.
Defined.

End HierarchyProps.

(* ===================================================================== *)
(** ** Further properties: field collection and class definition *)
(* ===================================================================== *)

Module ClassDefinitionProps.
Import Py Parameters Inspect Decorators Samples DictFacts.

Section WithRuntime.
Context {RT : Runtime}.

(** X3: every entry of a collected field set is a public name annotated at
    some class of the MRO other than the root markers, with the class-level
    value that this class resolves for it, which is not [None]; an
    attribute without an annotation is never collected. *)
Theorem collected_fields_are_annotated
    (tbl : ClassTable) (cls : ClassRef) (name : string) (v : Obj) :
  dict_get (_collect_fields_from_class tbl cls) name = Some v ->
  startswith_underscore name = false
  /\ v <> PyNone
  /\ exists base,
       In base (mro_of tbl cls)
       /\ is_root_marker base = false
       /\ In name (annotations_of tbl base)
       /\ class_getattr_or_none tbl base name = v.
Proof.
  unfold _collect_fields_from_class.
  assert (H : forall levels fields,
             (forall b, In b levels -> In b (mro_of tbl cls)) ->
             (dict_get fields name = Some v ->
              startswith_underscore name = false /\ v <> PyNone /\
              exists base, In base (mro_of tbl cls) /\ is_root_marker base = false
                           /\ In name (annotations_of tbl base)
                           /\ class_getattr_or_none tbl base name = v) ->
             dict_get (fold_left (collect_level tbl) levels fields) name = Some v ->
             startswith_underscore name = false /\ v <> PyNone /\
             exists base, In base (mro_of tbl cls) /\ is_root_marker base = false
                          /\ In name (annotations_of tbl base)
                          /\ class_getattr_or_none tbl base name = v).
  { induction levels as [|b r IH]; intros fields Hlevels Hfields; simpl; [exact Hfields|].
    apply IH; [intros b' Hb'; apply Hlevels; now right|].
    destruct (startswith_underscore name) eqn:Hpub.
    - change (collect_level tbl fields b)
        with (fold_left (collect_level tbl) [b] fields).
      rewrite FieldsSpec.collect_levels_private by assumption. exact Hfields.
    - rewrite FieldsSpec.collect_level_get by assumption.
      destruct (is_root_marker b) eqn:Hm; simpl; [exact Hfields|].
      destruct (mem name (annotations_of tbl b)) eqn:Hd; simpl; [|exact Hfields].
      destruct (is_none (class_getattr_or_none tbl b name)) eqn:Hn; simpl;
        [exact Hfields|].
      intros [= <-]. split; [reflexivity|]. split.
      + intros Hv. rewrite Hv in Hn. discriminate.
      + exists b. split; [apply Hlevels; now left|]. split; [assumption|].
        split; [now apply mem_true_iff | reflexivity]. }
  apply H.
  - intros b Hb. now apply in_rev.
  - discriminate.
Qed.

End WithRuntime.

Lemma collected_fields_are_annotated_witness :
  exists base,
    In base (mro_of model_body_table (CUser 1))
    /\ is_root_marker base = false
    /\ In "dropout" (annotations_of model_body_table base)
    /\ class_getattr_or_none model_body_table base "dropout" = value 13.
Proof.
  destruct (collected_fields_are_annotated model_body_table (CUser 1)
              "dropout" (value 13)) as [_ [_ H]].
  - vm_compute. reflexivity.
  - exact H.
Defined.

Section WithRuntime.
Context {RT : Runtime}.

Lemma firstn_update_nth {A} (l : list A) (n : nat) (g : A -> A) :
  firstn n (update_nth l n g) = firstn n l.
Proof.
  revert n. induction l as [|a r IH]; intros [|n]; simpl; try reflexivity.
  now rewrite IH.
Qed.

Lemma length_update_nth {A} (l : list A) (n : nat) (g : A -> A) :
  length (update_nth l n g) = length l.
Proof.
  revert n. induction l as [|a r IH]; intros [|n]; simpl; try reflexivity.
  now rewrite IH.
Qed.

Lemma setup_frame (n : nat) (fields : dict Obj) (tbl : ClassTable) :
  let tbl' := fold_left
                (fun t kv => _setup_class_attribute_access t (CUser n) (fst kv) (snd kv))
                fields tbl in
  firstn n tbl' = firstn n tbl /\ length tbl' = length tbl.
Proof.
  revert tbl. induction fields as [|kv r IH]; intros tbl; cbn [fold_left]; [auto|].
  destruct (IH (_setup_class_attribute_access tbl (CUser n) (fst kv) (snd kv)))
    as [Hf Hl].
  cbv zeta. rewrite Hf, Hl.
  unfold _setup_class_attribute_access, class_setattr, update_class.
  now rewrite firstn_update_nth, length_update_nth.
Qed.

(** X4: defining a class adds exactly one class at the end of the class
    table and changes none of the classes defined before: the attributes
    that registration sets are set on the new class alone. *)
Theorem define_class_keeps_earlier_classes
    (tbl : ClassTable) (name : string) (parents_mro : list ClassRef)
    (annotations : list string) (body : dict Obj) :
  let tbl' := fst (define_class tbl name parents_mro annotations body) in
  snd (define_class tbl name parents_mro annotations body) = CUser (length tbl)
  /\ length tbl' = S (length tbl)
  /\ firstn (length tbl) tbl' = tbl
  /\ forall m, m < length tbl ->
       lookup_class tbl' (CUser m) = lookup_class tbl (CUser m).
Proof.
  unfold define_class. cbn [fst snd]. cbv zeta. unfold _register_parameter_class.
  set (k := mkClass name (CUser (length tbl) :: parents_mro) annotations body None None).
  set (fields := _collect_fields_from_class (tbl ++ [k]) (CUser (length tbl))).
  set (set_meta := fun k0 : PyClass => mkClass _ _ _ _ _ _).
  destruct (setup_frame (length tbl) fields
              (update_class (tbl ++ [k]) (CUser (length tbl)) set_meta)) as [Hf Hl].
  set (tbl' := fold_left _ fields _) in *.
  assert (Hfirst : firstn (length tbl) tbl' = tbl).
  { rewrite Hf. unfold update_class. rewrite firstn_update_nth.
    rewrite firstn_app, Nat.sub_diag, firstn_all. simpl. apply app_nil_r. }
  split; [reflexivity|]. split; [|split; [exact Hfirst|]].
  - rewrite Hl. unfold update_class. rewrite length_update_nth, length_app. simpl. lia.
  - intros m Hm. cbn [lookup_class].
    rewrite <- (firstn_skipn (length tbl) tbl') at 1.
    rewrite Hfirst. apply nth_error_app1. exact Hm.
Qed.

End WithRuntime.

Lemma define_class_keeps_earlier_classes_witness :
  lookup_class params_table (CUser 0) = lookup_class (fst def_preprocess) (CUser 0).
Proof.
  destruct (define_class_keeps_earlier_classes (fst def_preprocess) "Train"
              (mro_of (fst def_preprocess) Main) ["epochs"; "dropout"]
              [("epochs", Field 40 (value 41)); ("dropout", Field 42 (value 43))])
    as [_ [_ [_ H]]].
  apply (H 0). vm_compute. lia.
Defined.

Section WithRuntime.
Context {RT : Runtime}.

Lemma is_same_refl (o : Obj) : is_same o o = true.
Proof. destruct o; simpl; try reflexivity; apply Nat.eqb_refl. Qed.

Lemma define_class_mro_and_fields
    (tbl : ClassTable) (name : string) (parents_mro : list ClassRef)
    (annotations : list string) (body : dict Obj) :
  mro_of (fst (define_class tbl name parents_mro annotations body))
         (CUser (length tbl)) = CUser (length tbl) :: parents_mro
  /\ get_parameter_class_fields (fst (define_class tbl name parents_mro annotations body))
                                (CUser (length tbl))
     = _collect_fields_from_class
         (tbl ++ [mkClass name (CUser (length tbl) :: parents_mro)
                          annotations body None None])
         (CUser (length tbl)).
Proof.
  unfold define_class. cbn [fst snd]. cbv zeta. unfold _register_parameter_class.
  set (k := mkClass name (CUser (length tbl) :: parents_mro) annotations body None None).
  set (fields := _collect_fields_from_class (tbl ++ [k]) (CUser (length tbl))).
  set (set_meta := fun k0 : PyClass => mkClass _ _ _ _ _ _).
  set (tbl1 := update_class (tbl ++ [k]) (CUser (length tbl)) set_meta).
  assert (Hk : nth_error (tbl ++ [k]) (length tbl) = Some k).
  { rewrite nth_error_app2 by lia. now rewrite Nat.sub_diag. }
  assert (Hl1 : nth_error tbl1 (length tbl) = Some (set_meta k)).
  { unfold tbl1, update_class.
    now rewrite ClassRegistrationSpec.nth_error_update_nth, Nat.eqb_refl, Hk. }
  destruct (ClassRegistrationSpec.setup_dict (length tbl) fields tbl1 (set_meta k) Hl1)
    as [k' [Hk' [Hf Hd]]].
  set (tbl' := fold_left _ fields tbl1) in *.
  assert (Hmro : mro_of tbl' (CUser (length tbl)) = CUser (length tbl) :: parents_mro).
  { destruct (ClassRegistrationSpec.setup_keeps tbl1 (CUser (length tbl)) fields
                (CUser (length tbl))) as [_ [Hm _]].
    fold tbl' in Hm. rewrite Hm. unfold tbl1.
    rewrite ClassRegistrationSpec.update_class_mro by reflexivity.
    unfold mro_of. cbn [lookup_class]. now rewrite Hk. }
  split; [exact Hmro|].
  unfold get_parameter_class_fields. rewrite Hmro. cbn [first_some lookup_class].
  rewrite Hk', Hf. reflexivity.
Qed.

(** X5: once a class is defined, the namespace recorded on it is the one
    its hierarchy gives, and the recorded field set is the one collected
    when the definition ran; each recorded field is then a public attribute
    of the class itself, holding the [default] of the declared value when
    it has one and the declared value otherwise, and this attribute is what
    attribute lookup on the class returns and what the namespace inference
    scan matches by identity. *)
Theorem define_class_records_and_exposes
    (tbl : ClassTable) (name : string) (parents_mro : list ClassRef)
    (annotations : list string) (body : dict Obj) :
  let body_table :=
    tbl ++ [mkClass name (CUser (length tbl) :: parents_mro) annotations body None None] in
  let tbl' := fst (define_class tbl name parents_mro annotations body) in
  let cls := snd (define_class tbl name parents_mro annotations body) in
  get_parameter_class_namespace tbl' cls = _calculate_namespace_from_class tbl' cls
  /\ get_parameter_class_fields tbl' cls = _collect_fields_from_class body_table cls
  /\ forall n info,
       In (n, info) (get_parameter_class_fields tbl' cls) ->
       let d := match getattr info "default" with Some x => x | None => info end in
       startswith_underscore n = false
       /\ own_attr tbl' n cls = Some d
       /\ class_getattr tbl' cls n = Some d
       /\ class_has_value tbl' cls d = true.
Proof.
  intros body_table tbl' cls.
  pose proof (ClassRegistrationSpec.define_class_records_namespace
                tbl name parents_mro annotations body) as Hns.
  pose proof (ClassRegistrationSpec.define_class_exposes_defaults
                tbl name parents_mro annotations body) as Hexp.
  destruct (define_class_mro_and_fields tbl name parents_mro annotations body)
    as [Hmro Hfields].
  cbv zeta in Hns, Hexp. subst tbl' cls body_table.
  change (snd (define_class tbl name parents_mro annotations body))
    with (CUser (length tbl)) in *.
  set (tbl' := fst (define_class tbl name parents_mro annotations body)) in *.
  split; [exact Hns|]. split; [exact Hfields|].
  intros n info Hin d. destruct (Hexp n info Hin) as [Hpub Hown]. fold d in Hown.
  assert (Hget : class_getattr tbl' (CUser (length tbl)) n = Some d).
  { unfold class_getattr. rewrite Hmro. cbn [first_some]. now rewrite Hown. }
  split; [exact Hpub|]. split; [exact Hown|]. split; [exact Hget|].
  apply DecoratorSpec.class_has_value_iff. exists n, d.
  split; [exact Hpub|]. split; [exact Hget | apply is_same_refl].
Qed.

End WithRuntime.

Lemma define_class_records_and_exposes_witness :
  class_has_value (fst def_main) Main (value 11) = true.
Proof.
  destruct (define_class_records_and_exposes [] "Main" root_mro
              ["root_param"; "dropout"]
              [("root_param", Field 10 (value 11)); ("dropout", Field 12 (value 13))])
    as [_ [_ H]].
  destruct (H "root_param" (Field 10 (value 11))) as [_ [_ [_ Hv]]].
  - vm_compute. now left.
  - exact Hv.
Defined.

End ClassDefinitionProps.

(* ===================================================================== *)
(** ** Further properties: selection and schemas *)
(* ===================================================================== *)

Module SelectionProps.
Import Py Parameters Inspect Registry Decorators Samples MoreSamples DictFacts.

Section WithRuntime.
Context {RT : Runtime}.

(** X6: without an include list, and unless the mode is "exclude" with a
    non-empty exclude list, the selected parameters are exactly the
    non-variadic parameters that declare a default; in particular an
    exclude list given in the mode "include" has no effect. *)
Theorem default_selection_is_parameters_with_defaults (a : TunableArgs) (p : Param) :
  include a = [] ->
  mode a = ModeInclude \/ exclude a = [] ->
  (selected a p = true <->
   is_variadic p = false /\ is_same (p_default p) inspect_empty = false)
  /\ selected a p = selected (mkArgs [] (namespace a) ModeInclude [] (apps a)) p.
Proof.
  intros Hinc Hmode. unfold selected, has_default. rewrite Hinc.
  cbn [nonempty include mode exclude].
  assert (Hsel : (if is_variadic p then false
                  else negb (is_same (p_default p) inspect_empty)) = true <->
                 is_variadic p = false /\ is_same (p_default p) inspect_empty = false).
  { destruct (is_variadic p); [split; [discriminate | intros [H _]; discriminate]|].
    rewrite negb_true_iff. tauto. }
  destruct Hmode as [Hm | He].
  - rewrite Hm. split; [exact Hsel | reflexivity].
  - rewrite He. cbn [nonempty].
    destruct (mode a); split; try exact Hsel; reflexivity.
Qed.

End WithRuntime.

Lemma default_selection_is_parameters_with_defaults_witness :
  selected (mkArgs [] None ModeInclude ["path"] [])
           (mkParam "path" POSITIONAL_OR_KEYWORD (value 131)) = true.
Proof.
  destruct (default_selection_is_parameters_with_defaults
              (mkArgs [] None ModeInclude ["path"] [])
              (mkParam "path" POSITIONAL_OR_KEYWORD (value 131)))
    as [H _]; [reflexivity | now left |].
  apply H. split; reflexivity.
Defined.

Section WithRuntime.
Context {RT : Runtime}.

(** X7: without an include list, in the mode "exclude" with a non-empty
    exclude list, the selected parameters are exactly the non-variadic
    parameters that declare a default and are not named in the exclude
    list; so the selection is the default selection without the excluded
    names. *)
Theorem exclude_mode_selection (a : TunableArgs) (f : Function) :
  include a = [] ->
  mode a = ModeExclude ->
  exclude a <> [] ->
  (forall p, selected a p = true <->
             is_variadic p = false
             /\ is_same (p_default p) inspect_empty = false
             /\ ~ In (p_name p) (exclude a))
  /\ selected_names a f =
     filter (fun n => negb (mem n (exclude a)))
            (selected_names (mkArgs [] (namespace a) ModeInclude [] (apps a)) f).
Proof.
  intros Hinc Hmode Hexc.
  assert (Hsel : forall p, selected a p =
                           negb (is_variadic p) && has_default p
                           && negb (mem (p_name p) (exclude a))).
  { intros p. unfold selected. rewrite Hinc, Hmode. cbn [nonempty].
    destruct (exclude a); [contradiction|]. cbn [nonempty].
    now destruct (is_variadic p). }
  split.
  - intros p. rewrite Hsel, !andb_true_iff, !negb_true_iff. unfold has_default.
    rewrite negb_true_iff, mem_false_iff. tauto.
  - assert (Hdef : forall p,
               selected (mkArgs [] (namespace a) ModeInclude [] (apps a)) p =
               negb (is_variadic p) && has_default p).
    { intros p. unfold selected. cbn [nonempty include mode].
      now destruct (is_variadic p). }
    unfold selected_names. induction (fn_sig f) as [|p r IH]; [reflexivity|].
    cbn [filter]. rewrite Hsel, Hdef.
    destruct (negb (is_variadic p) && has_default p); cbn [andb]; [|exact IH].
    cbn [map filter].
    destruct (mem (p_name p) (exclude a)); cbn [negb map]; [exact IH|].
    now rewrite IH.
Qed.

End WithRuntime.

Lemma exclude_mode_selection_witness :
  selected_names read_exclude_args read = ["sep"; "encoding"].
Proof.
  destruct (exclude_mode_selection read_exclude_args read) as [_ H];
    [reflexivity | reflexivity | discriminate |].
  rewrite H. vm_compute. reflexivity.
Defined.

Section WithRuntime.
Context {RT : Runtime}.

(** The schema entry of a selected parameter, when parameter names are
    distinct (as they are in a signature). *)
Lemma collect_fields_later (a : TunableArgs) (f : Function) (ps : list Param)
    (acc : dict (Obj * Obj)) (n : string) :
  ~ In n (map p_name ps) ->
  dict_get (fold_left (fun fields p =>
                         if selected a p
                         then dict_set fields (p_name p) (field_of f p)
                         else fields) ps acc) n = dict_get acc n.
Proof.
  revert acc. induction ps as [|p r IH]; intros acc Hn; simpl; [reflexivity|].
  rewrite IH by (intros H; apply Hn; now right).
  destruct (selected a p); [|reflexivity].
  apply dict_get_set_ne. intros E. apply Hn. now left.
Qed.

Lemma collect_fields_get (a : TunableArgs) (f : Function) (p : Param)
    (acc : dict (Obj * Obj)) :
  NoDup (parameter_names (fn_sig f)) ->
  In p (fn_sig f) -> selected a p = true ->
  dict_get (collect_fields a f acc) (p_name p) = Some (field_of f p).
Proof.
  unfold collect_fields, parameter_names. revert acc.
  induction (fn_sig f) as [|q r IH]; intros acc Hnd Hin Hs; [contradiction|].
  inversion Hnd as [|? ? Hq Hr]; subst. cbn [fold_left].
  destruct Hin as [-> | Hin].
  - rewrite Hs, collect_fields_later by assumption. apply dict_get_set_eq.
  - now apply IH.
Qed.

Lemma dict_set_same {V} (d : dict V) (k : string) (v : V) :
  dict_get d k = Some v -> dict_set d k v = d.
Proof.
  induction d as [|[k' v'] r IH]; simpl; [discriminate|].
  destruct (String.eqb k k') eqn:E.
  - now intros [= ->].
  - intros H. now rewrite IH.
Qed.

(** The second pass over the signature, in the branch of an explicit
    namespace, changes nothing. *)
Lemma collect_fields_twice (a : TunableArgs) (f : Function) :
  NoDup (parameter_names (fn_sig f)) ->
  collect_fields a f (collect_fields a f []) = collect_fields a f [].
Proof.
  intros Hnd. set (d := collect_fields a f []).
  assert (Hd : forall p, In p (fn_sig f) -> selected a p = true ->
                         dict_get d (p_name p) = Some (field_of f p)).
  { intros p. now apply collect_fields_get. }
  unfold collect_fields at 1. clearbody d.
  induction (fn_sig f) as [|q r IH]; [reflexivity|]. cbn [fold_left].
  destruct (selected a q) eqn:Hs.
  - rewrite dict_set_same by (apply Hd; [now left | assumption]).
    apply IH.
    + now inversion Hnd.
    + intros p Hp. apply Hd. now right.
  - apply IH.
    + now inversion Hnd.
    + intros p Hp. apply Hd. now right.
Qed.

(** X8: decoration with an explicit namespace appends exactly one entry,
    owned by the function, under that namespace, even when no parameter is
    selected; with distinct parameter names its schema maps each selected
    parameter to the pair of its evaluated annotation (or [Any]) and its
    default, and to [...] in the place of the default when the parameter
    declares none. *)
Theorem explicit_namespace_registers_one_schema
    (tbl : ClassTable) (a : TunableArgs) (f : Function) (reg : Registry) (ns : string) :
  namespace a = Some ns ->
  NoDup (parameter_names (fn_sig f)) ->
  let fields := collect_fields a f [] in
  decorate tbl a f reg =
    reg ++ [mkEntry f (create_model (model_name_of ns) fields) (fn_sig f) ns (apps a)]
  /\ (forall p, In p (fn_sig f) -> selected a p = true ->
        dict_get fields (p_name p) =
        Some (_eval_ann (match dict_get (fn_annotations f) (p_name p) with
                         | Some r => r
                         | None => AnnValue typing_Any
                         end),
              if is_same (p_default p) inspect_empty then py_ellipsis else p_default p))
  /\ (forall n, dict_mem fields n = true -> In n (selected_names a f))
  /\ ((forall p, In p (fn_sig f) -> selected a p = false) -> fields = []).
Proof.
  intros Hns Hnd fields. split; [|split; [|split]].
  - unfold decorate, register. rewrite Hns.
    now rewrite collect_fields_twice.
  - intros p Hin Hs. unfold fields. rewrite collect_fields_get by assumption.
    unfold field_of, has_default.
    now destruct (is_same (p_default p) inspect_empty).
  - intros n Hn. unfold fields in Hn.
    rewrite DecoratorSpec.collect_fields_mem in Hn. simpl in Hn.
    now apply mem_true_iff.
  - intros Hnone. unfold fields, collect_fields.
    induction (fn_sig f) as [|q r IH]; [reflexivity|]. cbn [fold_left].
    rewrite (Hnone q) by now left. apply IH.
    + now inversion Hnd.
    + intros p Hp. apply Hnone. now right.
Qed.

End WithRuntime.

Lemma explicit_namespace_registers_one_schema_witness :
  dict_get (collect_fields move_args move []) "x" = Some (typing_Any, py_ellipsis)
  /\ map entry_namespace (decorate params_table move_args move []) = ["geometry"].
Proof.
  destruct (explicit_namespace_registers_one_schema params_table move_args move []
              "geometry") as [Hd [Hf _]].
  - reflexivity.
  - vm_compute. repeat constructor; simpl; intuition discriminate.
  - split.
    + apply (Hf (mkParam "x" POSITIONAL_OR_KEYWORD inspect_empty));
        [vm_compute; tauto | reflexivity].
    + rewrite Hd. reflexivity.
Defined.

End SelectionProps.

(* ===================================================================== *)
(** ** Further properties: registration with inferred namespaces *)
(* ===================================================================== *)

Module RegistrationProps.
Import Py Parameters Inspect Registry Decorators Samples MoreSamples DictFacts.

Section WithRuntime.
Context {RT : Runtime}.

(** Where a name filed in a group comes from. *)
Lemma grouped_name_origin (tbl : ClassTable) (a : TunableArgs) (f : Function)
    (ns n : string) (g : dict (Obj * Obj)) :
  dict_get (namespace_groups tbl a f) ns = Some g ->
  dict_mem g n = true ->
  exists p, In p (fn_sig f) /\ selected a p = true
            /\ p_name p = n /\ param_namespace tbl f p = ns.
Proof.
  unfold namespace_groups.
  assert (H : forall ps groups,
             (forall p, In p ps -> In p (fn_sig f)) ->
             (forall ns g n, dict_get groups ns = Some g -> dict_mem g n = true ->
                exists p, In p (fn_sig f) /\ selected a p = true
                          /\ p_name p = n /\ param_namespace tbl f p = ns) ->
             forall ns g n,
               dict_get (fold_left (group_step tbl a f) ps groups) ns = Some g ->
               dict_mem g n = true ->
               exists p, In p (fn_sig f) /\ selected a p = true
                         /\ p_name p = n /\ param_namespace tbl f p = ns).
  { induction ps as [|q r IH]; intros groups Hps Hg; simpl; [exact Hg|].
    apply IH; [intros p Hp; apply Hps; now right|].
    intros ns' g' n'. rewrite DecoratorSpec.group_step_get.
    destruct (selected a q) eqn:Hs; simpl; [|apply Hg].
    destruct (String.eqb (param_namespace tbl f q) ns') eqn:E; [|apply Hg].
    apply String.eqb_eq in E. intros [= <-]. rewrite dict_mem_set.
    destruct (String.eqb (p_name q) n') eqn:En; simpl.
    - intros _. apply String.eqb_eq in En. exists q.
      split; [apply Hps; now left | auto].
    - destruct (dict_get groups ns') as [g0|] eqn:Eg; [|discriminate].
      now apply (Hg ns' g0). }
  apply (H (fn_sig f) []); [auto | discriminate].
Qed.

(** Every group is the group of some selected parameter. *)
Lemma group_origin (tbl : ClassTable) (a : TunableArgs) (f : Function)
    (ns : string) (g : dict (Obj * Obj)) :
  dict_get (namespace_groups tbl a f) ns = Some g ->
  exists p, In p (fn_sig f) /\ selected a p = true /\ param_namespace tbl f p = ns.
Proof.
  intros Hg.
  destruct (DecoratorSpec.namespace_groups_shape tbl a f) as [_ Hne].
  pose proof (dict_get_In _ _ _ Hg) as Hin.
  rewrite Forall_forall in Hne. specialize (Hne _ Hin). cbn [snd] in Hne.
  destruct g as [|[n v] r]; [discriminate|].
  assert (Hn : dict_mem ((n, v) :: r) n = true).
  { unfold dict_mem, mem. simpl. now rewrite String.eqb_refl. }
  destruct (grouped_name_origin tbl a f ns n _ Hg Hn) as [p [Hp [Hs [_ Hns]]]].
  exists p. auto.
Qed.

(** X9: without an explicit namespace, decoration keeps the registry and
    appends one entry per inferred namespace: the new entries have distinct
    namespaces, which are exactly the inferred namespaces of the selected
    parameters; each is owned by the function, carries its signature and
    the app tags, and has a non-empty schema named after its namespace; when
    no parameter is selected nothing is registered. *)
Theorem inferred_namespaces_register_one_entry_each
    (tbl : ClassTable) (a : TunableArgs) (f : Function) (reg : Registry) :
  namespace a = None ->
  exists new,
    decorate tbl a f reg = reg ++ new
    /\ NoDup (map entry_namespace new)
    /\ (forall e, In e new ->
          entry_fn e = f /\ entry_sig e = fn_sig f /\ entry_apps e = apps a
          /\ dict_nonempty (model_fields (entry_model e)) = true
          /\ model_name (entry_model e) = model_name_of (entry_namespace e))
    /\ (forall ns, In ns (map entry_namespace new) <->
          exists p, In p (fn_sig f) /\ selected a p = true
                    /\ param_namespace tbl f p = ns)
    /\ ((forall p, In p (fn_sig f) -> selected a p = false) -> new = []).
Proof.
  intros Hns.
  exists (map (fun g => mkEntry f (create_model (model_name_of (fst g)) (snd g))
                                (fn_sig f) (fst g) (apps a))
              (namespace_groups tbl a f)).
  destruct (DecoratorSpec.namespace_groups_shape tbl a f) as [Hnd Hne].
  assert (Hkeys : map entry_namespace
                      (map (fun g => mkEntry f (create_model (model_name_of (fst g)) (snd g))
                                             (fn_sig f) (fst g) (apps a))
                           (namespace_groups tbl a f))
                  = dict_keys (namespace_groups tbl a f)).
  { rewrite map_map. reflexivity. }
  split; [now apply DecoratorSpec.decorate_inferred|].
  split; [now rewrite Hkeys|]. split; [|split].
  - intros e He. apply in_map_iff in He. destruct He as [g [<- Hg]].
    cbn [entry_fn entry_sig entry_apps entry_model entry_namespace
         create_model model_fields model_name].
    rewrite Forall_forall in Hne. repeat split. now apply Hne.
  - intros ns. rewrite Hkeys, <- dict_mem_keys, dict_mem_get. split.
    + destruct (dict_get (namespace_groups tbl a f) ns) as [g|] eqn:Hg;
        [|discriminate].
      intros _. now apply (group_origin tbl a f ns g).
    + intros [p [Hp [Hs <-]]].
      destruct (DecoratorSpec.group_of_selected tbl a f p Hp Hs) as [g [Hg _]].
      now rewrite Hg.
  - intros Hnone.
    destruct (namespace_groups tbl a f) as [|[ns g] r] eqn:Hgroups; [reflexivity|].
    exfalso.
    assert (Hg : dict_get (namespace_groups tbl a f) ns = Some g).
    { rewrite Hgroups. simpl. now rewrite String.eqb_refl. }
    destruct (group_origin tbl a f ns g Hg) as [p [Hp [Hs _]]].
    rewrite (Hnone p Hp) in Hs. discriminate.
Qed.

End WithRuntime.

Lemma inferred_namespaces_register_one_entry_each_witness :
  exists new, decorate params_table build_model_args build_model [] = new
              /\ NoDup (map entry_namespace new).
Proof.
  destruct (inferred_namespaces_register_one_entry_each params_table
              build_model_args build_model []) as [new [Hd [Hnd _]]];
    [reflexivity|].
  exists new. split; [exact Hd | exact Hnd].
Defined.

Section WithRuntime.
Context {RT : Runtime}.

Lemma same_name_same_param (ps : list Param) (p q : Param) :
  NoDup (map p_name ps) -> In p ps -> In q ps -> p_name p = p_name q -> p = q.
Proof.
  induction ps as [|r rs IH]; intros Hnd Hp Hq Hn; [contradiction|].
  inversion Hnd as [|? ? Hr Hrs]; subst.
  destruct Hp as [-> | Hp], Hq as [-> | Hq]; try reflexivity.
  - exfalso. apply Hr. rewrite Hn. now apply in_map.
  - exfalso. apply Hr. rewrite <- Hn. now apply in_map.
  - now apply IH.
Qed.

Lemma group_steps_keep_value (tbl : ClassTable) (a : TunableArgs) (f : Function)
    (ps : list Param) (groups : dict (dict (Obj * Obj)))
    (ns n : string) (v : Obj * Obj) :
  ~ In n (map p_name ps) ->
  (exists g, dict_get groups ns = Some g /\ dict_get g n = Some v) ->
  exists g, dict_get (fold_left (group_step tbl a f) ps groups) ns = Some g
            /\ dict_get g n = Some v.
Proof.
  revert groups. induction ps as [|p r IH]; intros groups Hn H; simpl; [exact H|].
  apply IH; [intros Hr; apply Hn; now right|].
  rewrite DecoratorSpec.group_step_get.
  destruct (selected a p && String.eqb (param_namespace tbl f p) ns); [|exact H].
  destruct H as [g [Hg Hv]]. rewrite Hg. eexists. split; [reflexivity|].
  rewrite dict_get_set_ne; [exact Hv|]. intros E. apply Hn. now left.
Qed.

(** X10: with distinct parameter names and no explicit namespace, each
    selected parameter is filed in the group of its own inferred namespace
    and in no other, with its evaluated annotation and its default (or
    [...]) as the schema entry; the groups split the selected names. *)
Theorem inferred_groups_split_selected_parameters
    (tbl : ClassTable) (a : TunableArgs) (f : Function) (p : Param) :
  NoDup (parameter_names (fn_sig f)) ->
  In p (fn_sig f) ->
  selected a p = true ->
  (exists g,
      dict_get (namespace_groups tbl a f) (param_namespace tbl f p) = Some g
      /\ dict_get g (p_name p) = Some (field_of f p))
  /\ (forall ns g,
        dict_get (namespace_groups tbl a f) ns = Some g ->
        dict_mem g (p_name p) = true ->
        ns = param_namespace tbl f p).
Proof.
  intros Hnd Hin Hs. split.
  - unfold namespace_groups, parameter_names in *.
    generalize (@nil (string * dict (Obj * Obj))) as groups.
    induction (fn_sig f) as [|q r IH]; intros groups; [contradiction|].
    inversion Hnd as [|? ? Hq Hr]; subst. cbn [fold_left].
    destruct Hin as [-> | Hin]; [|now apply IH].
    apply group_steps_keep_value; [exact Hq|].
    rewrite DecoratorSpec.group_step_get, Hs, String.eqb_refl. simpl.
    eexists. split; [reflexivity | apply dict_get_set_eq].
  - intros ns g Hg Hmem.
    destruct (grouped_name_origin tbl a f ns (p_name p) g Hg Hmem)
      as [q [Hq [_ [Hname <-]]]].
    now rewrite (same_name_same_param (fn_sig f) q p Hnd Hq Hin Hname).
Qed.

End WithRuntime.

Lemma inferred_groups_split_selected_parameters_witness :
  exists g,
    dict_get (namespace_groups params_table build_model_args build_model) "model" = Some g
    /\ dict_get g "hidden_units" = Some (typing_Any, value 21).
Proof.
  destruct (inferred_groups_split_selected_parameters params_table build_model_args
              build_model (mkParam "hidden_units" POSITIONAL_OR_KEYWORD (value 21)))
    as [H _].
  - vm_compute. repeat constructor; simpl; intuition discriminate.
  - vm_compute. tauto.
  - reflexivity.
  - exact H.
Defined.

End RegistrationProps.

(* ===================================================================== *)
(** ** Further properties: the namespace path resolver *)
(* ===================================================================== *)

Module ResolverProps.
Import Py Parameters Inspect Registry Decorators Samples MoreSamples DictFacts.

Section WithRuntime.
Context {RT : Runtime}.

Lemma split_dot_append (a b : string) :
  split_dot (a ++ "." ++ b)%string = split_dot a ++ split_dot b.
Proof.
  induction a as [|c r IH]; [reflexivity|].
  cbn [append split_dot]. cbn [append] in IH. rewrite IH.
  destruct (Ascii.eqb c "."%char); [reflexivity|].
  destruct (split_dot r) eqn:E; [now apply WrapperSpec.split_dot_nonempty in E|].
  reflexivity.
Qed.

Lemma split_dot_plain (s : string) :
  (forall c, In c (list_ascii_of_string s) -> c <> "."%char) ->
  split_dot s = [s].
Proof.
  induction s as [|c r IH]; intros Hno; [reflexivity|].
  cbn [split_dot].
  assert (Hc : Ascii.eqb c "."%char = false).
  { apply Ascii.eqb_neq. apply Hno. now left. }
  rewrite Hc, IH; [reflexivity|].
  intros d Hd. apply Hno. now right.
Qed.

Lemma resolve_segments_none (segs : list string) : resolve_segments PyNone segs = PyNone.
Proof. destruct segs; reflexivity. Qed.

Lemma resolve_segments_app (cfg : Obj) (p q : list string) :
  resolve_segments cfg (p ++ q) = resolve_segments (resolve_segments cfg p) q.
Proof.
  revert cfg. induction p as [|s r IH]; intros cfg; cbn [app resolve_segments];
    [reflexivity|].
  destruct (is_none cfg || negb (hasattr cfg s));
    [now rewrite resolve_segments_none|].
  destruct (getattr cfg s); [apply IH | now rewrite resolve_segments_none].
Qed.

(** X11: resolving a dotted path is resolving its part before a dot and
    then the part after it in the section found; so a path below a section
    that is not found is not found either.  A path without a dot is one
    attribute lookup, and an attribute whose value is [None] counts as not
    found. *)
Theorem resolve_dotted_path_composes (cfg : Obj) (a b : string) :
  _resolve_nested_section cfg (a ++ "." ++ b)%string =
    _resolve_nested_section (_resolve_nested_section cfg a) b
  /\ (_resolve_nested_section cfg a = PyNone ->
      _resolve_nested_section cfg (a ++ "." ++ b)%string = PyNone)
  /\ ((forall c, In c (list_ascii_of_string a) -> c <> "."%char) ->
      _resolve_nested_section cfg a =
      match getattr cfg a with
      | Some section => section
      | None => PyNone
      end).
Proof.
  assert (Hcomp : _resolve_nested_section cfg (a ++ "." ++ b)%string =
                  _resolve_nested_section (_resolve_nested_section cfg a) b).
  { unfold _resolve_nested_section.
    now rewrite split_dot_append, resolve_segments_app. }
  split; [exact Hcomp|]. split.
  - intros Ha. rewrite Hcomp, Ha. apply WrapperSpec.resolve_none.
  - intros Hplain. unfold _resolve_nested_section.
    rewrite split_dot_plain by assumption. cbn [resolve_segments].
    unfold hasattr.
    destruct (getattr cfg a) eqn:E; cbn [negb].
    + destruct cfg; simpl in *; try discriminate; reflexivity.
    + now rewrite orb_true_r.
Qed.

End WithRuntime.

Lemma resolve_dotted_path_composes_witness :
  _resolve_nested_section odd_config "model.preprocess" = PyNone.
Proof.
  destruct (resolve_dotted_path_composes odd_config "model" "preprocess")
    as [_ [H _]].
  apply H. vm_compute. reflexivity.
Defined.

End ResolverProps.

(* ===================================================================== *)
(** ** Further properties: the wrapper *)
(* ===================================================================== *)

Module WrapperProps.
Import Py Parameters Inspect Registry Decorators Samples MoreSamples DictFacts.

Section WithRuntime.
Context {RT : Runtime}.

(** The keys that the loop over the registry can add. *)
Lemma merge_entries_keys (f : Function) (active : Obj) (reg : Registry)
    (acc combined : dict Obj) (k : string) :
  merge_entries f active reg acc = Ok combined ->
  dict_mem combined k = true ->
  dict_mem acc k = true \/ in_parameters (fn_sig f) k = true.
Proof.
  revert acc. induction reg as [|e r IH]; intros acc; simpl.
  - intros [= <-]. now left.
  - destruct (Nat.eqb (fn_id (entry_fn e)) (fn_id f)); [|apply IH].
    unfold merge_section.
    destruct (negb (is_none (_resolve_nested_section active (entry_namespace e))));
      [|simpl; apply IH].
    destruct (as_data (_resolve_nested_section active (entry_namespace e)))
      as [data|]; simpl; [|discriminate].
    intros Hm Hk. destruct (IH _ Hm Hk) as [Hacc | Hp]; [|now right].
    rewrite WrapperSpec.merge_matching_mem in Hacc.
    apply orb_prop in Hacc. destruct Hacc as [Hacc | Hacc]; [now left | right].
    now apply andb_prop in Hacc.
Qed.

Lemma merge_section_keys (sig : Signature) (active : Obj) (ns : string)
    (combined : dict Obj) (k : string) :
  merge_section sig active ns [] = Ok combined ->
  dict_mem combined k = true ->
  in_parameters sig k = true.
Proof.
  unfold merge_section.
  destruct (negb (is_none (_resolve_nested_section active ns)));
    [|intros [= <-]; discriminate].
  destruct (as_data (_resolve_nested_section active ns)) as [data|]; simpl;
    [|discriminate].
  intros [= <-]. apply WrapperSpec.merge_matching_only_parameters.
Qed.

(** X12: whenever the wrapper reaches the original function, the
    positional arguments are the caller's, every keyword argument of the
    caller is passed with the caller's value, and every other keyword
    argument passed is named after a parameter of the function and was not
    given by the caller. *)
Theorem wrapper_passes_caller_arguments_through
    (f : Function) (ns : option string) (reg : Registry) (active cfg : Obj)
    (args : list Obj) (kwargs : dict Obj) (call : Call) :
  wrapper f ns reg active args cfg kwargs = Ok call ->
  call_args call = args
  /\ (forall k, dict_mem kwargs k = true ->
                dict_get (call_kwargs call) k = dict_get kwargs k)
  /\ (forall k, dict_mem (call_kwargs call) k = true ->
                dict_mem kwargs k = false ->
                in_parameters (fn_sig f) k = true).
Proof.
  assert (Hcall2 : forall extra,
             (forall k, dict_mem extra k = true -> in_parameters (fn_sig f) k = true) ->
             call2 (fn_sig f) args extra kwargs = Ok call ->
             call_args call = args
             /\ (forall k, dict_mem kwargs k = true ->
                           dict_get (call_kwargs call) k = dict_get kwargs k)
             /\ (forall k, dict_mem (call_kwargs call) k = true ->
                           dict_mem kwargs k = false ->
                           in_parameters (fn_sig f) k = true)).
  { intros extra Hextra Hc. apply WrapperSpec.call2_made in Hc.
    destruct Hc as [-> Hdisj].
    cbn [call_args call_kwargs]. split; [reflexivity|]. split.
    - intros k Hk. rewrite dict_get_app.
      destruct (dict_get extra k) eqn:E; [|reflexivity].
      assert (Hm : dict_mem extra k = true) by now rewrite dict_mem_get, E.
      destruct (Hdisj k Hm) as [Hno _]. rewrite Hno in Hk. discriminate.
    - intros k Hk Hnot. rewrite dict_mem_get, dict_get_app in Hk.
      destruct (dict_get extra k) eqn:E.
      + apply Hextra. now rewrite dict_mem_get, E.
      + rewrite dict_mem_get in Hnot. destruct (dict_get kwargs k); discriminate. }
  assert (Hcall1 : call1 args kwargs = Ok call ->
             call_args call = args
             /\ (forall k, dict_mem kwargs k = true ->
                           dict_get (call_kwargs call) k = dict_get kwargs k)
             /\ (forall k, dict_mem (call_kwargs call) k = true ->
                           dict_mem kwargs k = false ->
                           in_parameters (fn_sig f) k = true)).
  { intros [= <-]. cbn [call_args call_kwargs]. split; [reflexivity|].
    split; [reflexivity|]. intros k Hk Hnot. congruence. }
  unfold wrapper. destruct (negb (is_none cfg)).
  - destruct (as_data cfg) as [data|]; simpl; [|discriminate].
    apply Hcall2. apply WrapperSpec.merge_matching_only_parameters.
  - destruct (negb (is_none active)); [|exact Hcall1].
    destruct ns as [n|].
    + destruct (merge_section (fn_sig f) active n []) as [combined|] eqn:Hm; simpl;
        [|discriminate].
      destruct (dict_nonempty combined); [|exact Hcall1].
      apply Hcall2. intros k. now apply (merge_section_keys _ active n combined).
    + destruct (merge_entries f active (by_namespace_values reg) [])
        as [combined|] eqn:Hm; simpl; [|discriminate].
      destruct (dict_nonempty combined); [|exact Hcall1].
      apply Hcall2. intros k Hk.
      destruct (merge_entries_keys f active _ [] combined k Hm Hk) as [H | H];
        [discriminate | exact H].
Qed.

End WithRuntime.

(** [fit(5, dropna=6)] under a configuration with the section [train]
    only: the call made is [fit(5, epochs=282, dropna=6)]. *)
Lemma wrapper_passes_caller_arguments_through_witness :
  wrapper fit None loaded_registry train_only_config [value 5] PyNone
          [("dropna", value 6)]
    = Ok (mkCall [value 5] [("epochs", value 282); ("dropna", value 6)])
  /\ call_args (mkCall [value 5] [("epochs", value 282); ("dropna", value 6)])
     = [value 5]
  /\ dict_get (call_kwargs (mkCall [value 5] [("epochs", value 282); ("dropna", value 6)]))
              "dropna" = Some (value 6)
  /\ in_parameters (fn_sig fit) "epochs" = true.
Proof.
  assert (Hw : wrapper fit None loaded_registry train_only_config [value 5] PyNone
                       [("dropna", value 6)]
               = Ok (mkCall [value 5] [("epochs", value 282); ("dropna", value 6)]))
    by (vm_compute; reflexivity).
  destruct (wrapper_passes_caller_arguments_through fit None loaded_registry
              train_only_config PyNone [value 5] [("dropna", value 6)] _ Hw)
    as [Ha [Hk Hp]].
  split; [exact Hw|]. split; [exact Ha|]. split.
  - rewrite Hk; vm_compute; reflexivity.
  - apply Hp; vm_compute; reflexivity.
Defined.

Section WithRuntime.
Context {RT : Runtime}.

(** *** The order of the merge *)

Lemma merge_entries_app (f : Function) (active : Obj) (l1 l2 : list TunableEntry)
    (acc : dict Obj) :
  merge_entries f active (l1 ++ l2) acc =
  (c <- merge_entries f active l1 acc ;; merge_entries f active l2 c).
Proof.
  revert acc. induction l1 as [|e r IH]; intros acc; cbn [app merge_entries];
    [reflexivity|].
  destruct (Nat.eqb (fn_id (entry_fn e)) (fn_id f)); [|apply IH].
  destruct (merge_section (fn_sig f) active (entry_namespace e) acc); simpl;
    [apply IH | reflexivity].
Qed.

Lemma dict_get_rev_absent (d : dict Obj) (k : string) :
  dict_mem d k = false -> dict_get (rev d) k = None.
Proof.
  intros H. destruct (dict_get (rev d) k) eqn:E; [|reflexivity].
  apply dict_get_In, in_rev in E.
  assert (Hm : dict_mem d k = true).
  { apply dict_mem_keys. unfold dict_keys. apply in_map_iff. exists (k, o). auto. }
  congruence.
Qed.

(** Entries that do not hold a key leave its value alone. *)
Lemma merge_entries_keeps_key (f : Function) (active : Obj) (k : string)
    (reg : list TunableEntry) :
  (forall e, In e reg -> fn_id (entry_fn e) = fn_id f ->
     _resolve_nested_section active (entry_namespace e) = PyNone
     \/ exists data,
          as_data (_resolve_nested_section active (entry_namespace e)) = Ok data
          /\ dict_mem data k = false) ->
  forall acc combined,
    merge_entries f active reg acc = Ok combined ->
    dict_get combined k = dict_get acc k.
Proof.
  induction reg as [|e r IH]; intros Hreg acc combined; cbn [merge_entries].
  - now intros [= <-].
  - assert (Hr : forall e', In e' r -> fn_id (entry_fn e') = fn_id f ->
              _resolve_nested_section active (entry_namespace e') = PyNone
              \/ exists data,
                   as_data (_resolve_nested_section active (entry_namespace e')) = Ok data
                   /\ dict_mem data k = false).
    { intros e' He'. apply Hreg. now right. }
    destruct (Nat.eqb (fn_id (entry_fn e)) (fn_id f)) eqn:E; [|now apply IH].
    apply Nat.eqb_eq in E.
    destruct (Hreg e (or_introl eq_refl) E) as [Habs | [data [Hdata Hk]]].
    + rewrite WrapperSpec.merge_section_absent by assumption. simpl. now apply IH.
    + rewrite (WrapperSpec.merge_section_mapping _ _ _ _ data) by assumption. simpl.
      intros Hm. rewrite (IH Hr _ _ Hm), WrapperSpec.merge_matching_get.
      rewrite dict_get_rev_absent by assumption.
      now destruct (in_parameters (fn_sig f) k).
Qed.

(** X13: when several namespaces registered for a function hold a value
    for the same parameter, the entry registered last among them decides:
    the value of the last such section replaces whatever earlier entries
    merged, and it is the value that reaches the function. *)
Theorem later_entry_wins_on_collision
    (f : Function) (active : Obj) (before after : list TunableEntry)
    (e : TunableEntry) (data : dict Obj) (k : string) (v : Obj)
    (args : list Obj) (kwargs : dict Obj) :
  fn_id (entry_fn e) = fn_id f ->
  as_data (_resolve_nested_section active (entry_namespace e)) = Ok data ->
  in_parameters (fn_sig f) k = true ->
  dict_get (rev data) k = Some v ->
  (forall e', In e' after -> fn_id (entry_fn e') = fn_id f ->
     _resolve_nested_section active (entry_namespace e') = PyNone
     \/ exists data',
          as_data (_resolve_nested_section active (entry_namespace e')) = Ok data'
          /\ dict_mem data' k = false) ->
  (forall combined,
      merge_entries f active (before ++ e :: after) [] = Ok combined ->
      dict_get combined k = Some v)
  /\ (forall call,
        wrapper f None (before ++ e :: after) active args PyNone kwargs = Ok call ->
        dict_get (call_kwargs call) k = Some v).
Proof.
  intros Hown Hdata Hp Hv Hafter.
  assert (Hmerge : forall combined,
             merge_entries f active (before ++ e :: after) [] = Ok combined ->
             dict_get combined k = Some v).
  { intros combined. rewrite merge_entries_app.
    destruct (merge_entries f active before []) as [c1|]; simpl; [|discriminate].
    apply Nat.eqb_eq in Hown. rewrite Hown.
    rewrite (WrapperSpec.merge_section_mapping _ _ _ _ data) by assumption. simpl.
    intros Hm. rewrite (merge_entries_keeps_key f active k after Hafter _ _ Hm).
    now rewrite WrapperSpec.merge_matching_get, Hp, Hv. }
  split; [exact Hmerge|].
  intros call. rewrite WrapperSpec.wrapper_no_override.
  destruct (is_none active) eqn:Hact; cbn [negb].
  - destruct active; try discriminate.
    rewrite WrapperSpec.resolve_none in Hdata. discriminate.
  - unfold by_namespace_values.
    destruct (merge_entries f active (before ++ e :: after) []) as [combined|] eqn:Hm;
      simpl; [|discriminate].
    specialize (Hmerge combined eq_refl).
    destruct combined as [|kv r]; [discriminate|]. cbn [dict_nonempty].
    intros Hcall. apply WrapperSpec.call2_made in Hcall. destruct Hcall as [-> _].
    cbn [call_kwargs]. now rewrite dict_get_app, Hmerge.
Qed.

End WithRuntime.

Lemma later_entry_wins_on_collision_witness :
  exists combined,
    merge_entries tune collide_config tune_registry [] = Ok combined
    /\ dict_get combined "dropout" = Some (value 275).
Proof.
  exists [("hidden_units", value 272); ("dropout", value 275)].
  split; [vm_compute; reflexivity|].
  destruct (later_entry_wins_on_collision tune collide_config
              [tune_model_entry] [] tune_train_entry
              [("dropout", value 275)] "dropout" (value 275) [] []) as [H _].
  - vm_compute. reflexivity.
  - vm_compute. reflexivity.
  - vm_compute. reflexivity.
  - vm_compute. reflexivity.
  - intros e' [].
  - apply H. vm_compute. reflexivity.
Defined.

Section WithRuntime.
Context {RT : Runtime}.

(** *** Injection from one namespace *)

(** X14: for a function decorated with an explicit namespace, when the
    namespace resolves to a mapping each of whose parameter-named keys the
    caller does not pass as a keyword and the signature accepts as a
    keyword beside the caller's positional arguments, the original
    function is called with the caller's arguments plus every key of the
    section that names a parameter of the function, each with the value
    the section holds for it. *)
Theorem explicit_namespace_injects_section
    (f : Function) (ns : string) (reg : Registry) (active : Obj)
    (args : list Obj) (kwargs data : dict Obj) :
  as_data (_resolve_nested_section active ns) = Ok data ->
  (forall k, in_parameters (fn_sig f) k = true -> dict_mem data k = true ->
             dict_mem kwargs k = false
             /\ keyword_accepted (fn_sig f) (length args) k = true) ->
  wrapper f (Some ns) reg active args PyNone kwargs =
    Ok (mkCall args (merge_matching (fn_sig f) [] data ++ kwargs))
  /\ (forall k v, in_parameters (fn_sig f) k = true ->
                  dict_get (rev data) k = Some v ->
                  dict_get (merge_matching (fn_sig f) [] data ++ kwargs) k = Some v)
  /\ (forall k, in_parameters (fn_sig f) k = false ->
                dict_get (merge_matching (fn_sig f) [] data ++ kwargs) k =
                dict_get kwargs k).
Proof.
  intros Hdata Hdisj. split; [|split].
  - rewrite WrapperSpec.wrapper_no_override.
    destruct (is_none active) eqn:Hact; cbn [negb].
    + destruct active; try discriminate.
      rewrite WrapperSpec.resolve_none in Hdata. discriminate.
    + rewrite (WrapperSpec.merge_section_mapping _ _ _ _ data) by assumption.
      cbn [bind].
      destruct (merge_matching (fn_sig f) [] data) as [|kv r] eqn:Hm;
        [reflexivity|].
      cbn [dict_nonempty]. rewrite <- Hm. apply WrapperSpec.call2_accepted.
      intros k Hk. rewrite WrapperSpec.merge_matching_mem in Hk. simpl in Hk.
      apply andb_prop in Hk. destruct Hk as [Hp Hd]. now apply Hdisj.
  - intros k v Hp Hv.
    now rewrite dict_get_app, WrapperSpec.merge_matching_get, Hp, Hv.
  - intros k Hp.
    now rewrite dict_get_app, WrapperSpec.merge_matching_get, Hp.
Qed.

End WithRuntime.

(** [move(y=8)] under a configuration whose section [geometry] holds [x]
    and [z]: the call made is [move(x=263, y=8)]. *)
Lemma explicit_namespace_injects_section_witness :
  wrapper move (Some "geometry") [] odd_config [] PyNone [("y", value 8)] =
  Ok (mkCall [] [("x", value 263); ("y", value 8)]).
Proof.
  destruct (explicit_namespace_injects_section move "geometry" [] odd_config
              [] [("y", value 8)] [("x", value 263); ("z", value 264)])
    as [H _].
  - vm_compute. reflexivity.
  - intros k Hp Hd. unfold dict_mem, mem in Hd.
    cbn [dict_keys map fst existsb] in Hd.
    destruct (String.eqb k "x") eqn:Ex.
    + apply String.eqb_eq in Ex. subst k. split; reflexivity.
    + destruct (String.eqb k "z") eqn:Ez; [|discriminate].
      apply String.eqb_eq in Ez. subst k. vm_compute in Hp. discriminate.
  - rewrite H. vm_compute. reflexivity.
Defined.

Section WithRuntime.
Context {RT : Runtime}.

(** *** What the wrapper does not depend on *)

Lemma by_function_idempotent (reg : Registry) (f : Function) :
  by_function (by_function reg f) f = by_function reg f.
Proof.
  unfold by_function. induction reg as [|e r IH]; [reflexivity|]. cbn [filter].
  destruct (Nat.eqb (fn_id (entry_fn e)) (fn_id f)) eqn:E; [|exact IH].
  cbn [filter]. now rewrite E, IH.
Qed.

(** X15: the entries of other functions never enter a call: in the
    multi-namespace mode the wrapper of a function gives the same result
    on the whole registry and on the entries that the function owns, so
    registering an entry for another function changes nothing; with an
    explicit namespace the registry is not read at all. *)
Theorem wrapper_ignores_entries_of_other_functions
    (f : Function) (reg : Registry) (active cfg : Obj)
    (args : list Obj) (kwargs : dict Obj) :
  wrapper f None reg active args cfg kwargs =
    wrapper f None (by_function reg f) active args cfg kwargs
  /\ (forall e, fn_id (entry_fn e) <> fn_id f ->
        wrapper f None (register reg e) active args cfg kwargs =
        wrapper f None reg active args cfg kwargs)
  /\ (forall ns reg',
        wrapper f (Some ns) reg active args cfg kwargs =
        wrapper f (Some ns) reg' active args cfg kwargs).
Proof.
  assert (Hown : forall r,
             wrapper f None r active args cfg kwargs =
             wrapper f None (by_function r f) active args cfg kwargs).
  { intros r. unfold wrapper.
    rewrite (WrapperSpec.merge_entries_by_function f active r).
    rewrite (WrapperSpec.merge_entries_by_function f active (by_function r f)).
    now rewrite by_function_idempotent. }
  split; [apply Hown|]. split.
  - intros e He. rewrite (Hown (register reg e)), (Hown reg).
    unfold register, by_function. rewrite filter_app. cbn [filter].
    apply Nat.eqb_neq in He. rewrite He. now rewrite app_nil_r.
  - reflexivity.
Qed.

End WithRuntime.

Lemma wrapper_ignores_entries_of_other_functions_witness :
  wrapper fit None (register loaded_registry tune_train_entry) app_config
          [value 5] PyNone [] =
  wrapper fit None loaded_registry app_config [value 5] PyNone [].
Proof.
  destruct (wrapper_ignores_entries_of_other_functions fit loaded_registry
              app_config PyNone [value 5] []) as [_ [H _]].
  apply H. vm_compute. discriminate.
Defined.

Section WithRuntime.
Context {RT : Runtime}.

(** *** Sections and overrides that are no mappings *)

Lemma merge_entries_raises_attribute_error (f : Function) (active : Obj)
    (reg : list TunableEntry) (acc : dict Obj) (e : Exn) :
  merge_entries f active reg acc = Raise e -> e = AttributeError.
Proof.
  revert acc. induction reg as [|x r IH]; intros acc; cbn [merge_entries];
    [discriminate|].
  destruct (Nat.eqb (fn_id (entry_fn x)) (fn_id f)); [|apply IH].
  unfold merge_section.
  destruct (negb (is_none (_resolve_nested_section active (entry_namespace x))));
    [|cbn [bind]; apply IH].
  destruct (_resolve_nested_section active (entry_namespace x)); cbn [as_data model_dump bind];
    try apply IH; now intros [= <-].
Qed.

(** X16: a section or an override that is neither [None], nor a dict, nor
    a model makes the call raise AttributeError before the original
    function is reached: for an explicit override, for an explicit
    namespace, and in the multi-namespace mode as soon as one entry of the
    function resolves to such an object. *)
Theorem non_mapping_section_raises
    (f : Function) (reg : Registry) (active : Obj)
    (args : list Obj) (kwargs : dict Obj) (id : oid) (attrs : dict Obj) :
  hasattr (PyObject id attrs) "model_dump" = false ->
  (forall ns, wrapper f ns reg active args (PyObject id attrs) kwargs
              = Raise AttributeError)
  /\ (forall ns,
        _resolve_nested_section active ns = PyObject id attrs ->
        wrapper f (Some ns) reg active args PyNone kwargs = Raise AttributeError)
  /\ (forall e,
        In e reg -> fn_id (entry_fn e) = fn_id f ->
        _resolve_nested_section active (entry_namespace e) = PyObject id attrs ->
        wrapper f None reg active args PyNone kwargs = Raise AttributeError).
Proof.
  intros _. split; [reflexivity|]. split.
  - intros ns Hsec. rewrite WrapperSpec.wrapper_no_override.
    destruct (is_none active) eqn:Hact; cbn [negb].
    + destruct active; try discriminate.
      rewrite WrapperSpec.resolve_none in Hsec. discriminate.
    + unfold merge_section. rewrite Hsec. reflexivity.
  - intros e Hin Hown Hsec. rewrite WrapperSpec.wrapper_no_override.
    destruct (is_none active) eqn:Hact; cbn [negb].
    + destruct active; try discriminate.
      rewrite WrapperSpec.resolve_none in Hsec. discriminate.
    + unfold by_namespace_values.
      assert (Hraise : forall acc, exists x, merge_entries f active reg acc = Raise x).
      { clear - Hin Hown Hsec. induction reg as [|y r IH]; intros acc; [contradiction|].
        cbn [merge_entries]. destruct Hin as [-> | Hin].
        - apply Nat.eqb_eq in Hown. rewrite Hown.
          unfold merge_section. rewrite Hsec. cbn. eexists. reflexivity.
        - destruct (Nat.eqb (fn_id (entry_fn y)) (fn_id f)); [|now apply IH].
          destruct (merge_section (fn_sig f) active (entry_namespace y) acc);
            cbn [bind]; [now apply IH | eexists; reflexivity]. }
      destruct (Hraise []) as [x Hx]. rewrite Hx.
      apply merge_entries_raises_attribute_error in Hx. now subst x.
Qed.

End WithRuntime.

Lemma non_mapping_section_raises_witness :
  wrapper fit None loaded_registry odd_config [value 5] PyNone []
  = Raise AttributeError.
Proof.
  destruct (non_mapping_section_raises fit loaded_registry odd_config
              [value 5] [] 261 []) as [_ [_ H]]; [reflexivity|].
  apply (H (nth 2 loaded_registry tune_train_entry)).
  - vm_compute. tauto.
  - vm_compute. reflexivity.
  - vm_compute. reflexivity.
Defined.

Section WithRuntime.
Context {RT : Runtime}.

(** X17: an explicit override none of whose keys names a parameter of the
    function (the empty dict, for one) makes the wrapper call the original
    function with the caller's arguments alone, whatever the active
    configuration and the registry hold. *)
Theorem unmatched_override_is_plain_call
    (f : Function) (ns : option string) (reg : Registry) (active cfg : Obj)
    (args : list Obj) (kwargs data : dict Obj) :
  as_data cfg = Ok data ->
  (forall k, dict_mem data k = true -> in_parameters (fn_sig f) k = false) ->
  wrapper f ns reg active args cfg kwargs = Ok (mkCall args kwargs).
Proof.
  intros Hdata Hun. unfold wrapper.
  assert (Hcfg : is_none cfg = false).
  { destruct cfg; [discriminate | reflexivity | reflexivity | reflexivity]. }
  rewrite Hcfg, Hdata. cbn [negb bind].
  now rewrite WrapperSpec.merge_matching_unmatched.
Qed.

End WithRuntime.

Lemma unmatched_override_is_plain_call_witness :
  wrapper fit None loaded_registry app_config [value 5] (PyDict 300 []) [] =
  Ok (mkCall [value 5] []).
Proof.
  apply (unmatched_override_is_plain_call fit None loaded_registry app_config
           (PyDict 300 []) [value 5] [] []).
  - reflexivity.
  - intros k Hk. discriminate.
Defined.

End WrapperProps.

(* ===================================================================== *)
(** ** Further properties: from a class definition to an inferred namespace *)
(* ===================================================================== *)

Module InferenceRoundTrip.
Import Py Parameters Inspect Registry Decorators Samples MoreSamples DictFacts.

Section WithRuntime.
Context {RT : Runtime}.

(** X18: a parameter whose default is the attribute that a parameter class
    just defined exposes for one of its fields is assigned the namespace
    computed from the hierarchy of that class, provided the default has no
    attribute [__self__] and no parameter class earlier in the function's
    globals holds the same object. *)
Theorem declared_default_infers_class_namespace
    (tbl : ClassTable) (name : string) (parents_mro : list ClassRef)
    (annotations : list string) (body : dict Obj)
    (f : Function) (p : Param) (n : string) (info : Obj)
    (before after : list GlobalVal) :
  let tbl' := fst (define_class tbl name parents_mro annotations body) in
  let cls := CUser (length tbl) in
  In CTunableParameters parents_mro ->
  In (n, info) (get_parameter_class_fields tbl' cls) ->
  p_default p = match getattr info "default" with Some x => x | None => info end ->
  hasattr (p_default p) "__self__" = false ->
  dict_values (fn_globals f) = before ++ GClass cls :: after ->
  (forall c, In (GClass c) before -> is_parameter_class tbl' c = true ->
             class_has_value tbl' c (p_default p) = false) ->
  param_namespace tbl' f p = _calculate_namespace_from_class tbl' cls.
Proof.
  intros tbl' cls Hroot Hin Hdef Hself Hglob Hbefore.
  destruct (ClassDefinitionProps.define_class_mro_and_fields
              tbl name parents_mro annotations body) as [Hmro _].
  fold tbl' cls in Hmro.
  pose proof (ClassRegistrationSpec.define_class_records_namespace
                tbl name parents_mro annotations body) as Hns.
  pose proof (ClassRegistrationSpec.define_class_exposes_defaults
                tbl name parents_mro annotations body n info) as Hexp.
  cbv zeta in Hns, Hexp.
  change (snd (define_class tbl name parents_mro annotations body)) with cls in *.
  fold tbl' in Hns, Hexp.
  destruct (Hexp Hin) as [Hpub Hown]. rewrite <- Hdef in Hown.
  assert (Hclass : is_parameter_class tbl' cls = true).
  { unfold is_parameter_class, issubclass_tunable. rewrite Hmro.
    cbn [existsb class_eqb cls negb]. rewrite andb_true_r.
    apply existsb_exists. exists CTunableParameters. auto. }
  assert (Hvalue : class_has_value tbl' cls (p_default p) = true).
  { apply DecoratorSpec.class_has_value_iff. exists n, (p_default p).
    split; [exact Hpub|]. split; [|apply ClassDefinitionProps.is_same_refl].
    unfold class_getattr. rewrite Hmro. cbn [first_some]. now rewrite Hown. }
  unfold param_namespace, _infer_namespace_from_class_attribute.
  cbn [negb _PARAMETERS_AVAILABLE]. rewrite Hself, Hglob.
  rewrite DecoratorSpec.scan_globals_first by assumption.
  cbn [or_empty]. exact Hns.
Qed.

End WithRuntime.

Lemma declared_default_infers_class_namespace_witness :
  param_namespace (fst def_model) show
    (mkParam "hidden_units" POSITIONAL_OR_KEYWORD (value 21)) = "model".
Proof.
  transitivity (_calculate_namespace_from_class (fst def_model) (CUser 1));
    [|vm_compute; reflexivity].
  apply (declared_default_infers_class_namespace (fst def_main) "Model"
           (mro_of (fst def_main) Main) ["hidden_units"; "dropout"]
           [("hidden_units", Field 20 (value 21)); ("dropout", PyNone)]
           show (mkParam "hidden_units" POSITIONAL_OR_KEYWORD (value 21))
           "hidden_units" (Field 20 (value 21))
           [GClass CTunableParameters; GClass (CUser 0)] []).
  - vm_compute. tauto.
  - vm_compute. tauto.
  - reflexivity.
  - reflexivity.
  - reflexivity.
  - intros c Hc Hpc. destruct Hc as [Hc | [Hc | []]]; injection Hc as <-.
    + vm_compute in Hpc. discriminate.
    + vm_compute. reflexivity.
Defined.

End InferenceRoundTrip.
